(** * Release-Bomb: the bombing-solution engine and its telemetry layer

    A shallow embedding of [bomb_release_calculator.py], of its caller
    [quick_bomb_calc.py], of the flight-data collector and controller of
    [mavlink_integration.py], of the service of [bomb_release_service.py]
    and of two small tools.

    The numeric engine is modelled twice.

    - Module [Calc] takes Python floats as real numbers ([R]).  It is the
      model of what the engine computes in exact arithmetic: distances,
      times, the order of the guards, what a failure leaves in the result.
      Rounding, overflow, NaN and signed zeros are outside that model.

    - Module [F64] takes them as binary64 floats.  It is the model of what
      the guards of the engine let through: a comparison with a NaN is
      false, and a rounded product can fall on the other side of a
      threshold than the exact one.  The functions of the C library
      ([sin], [cos], [asin], [atan2]) are a parameter there.

    Python exceptions are modelled by the error monad [Py]; the partial
    functions of [math] raise exactly where Python raises.  Logging has no
    effect on any returned value and is left out. *)

From Stdlib Require Import Floats.
From Stdlib Require Import Reals Lra Lia List String Bool ZArith.
Import ListNotations.
Local Open Scope R_scope.

(** ** Python exceptions and the partial functions of [math] *)

Module Py.

Inductive Exc : Type :=
| ValueError
| ZeroDivisionError
| OverflowError
| AttributeError
| TransportFailure.

Inductive t (A : Type) : Type :=
| Ok (a : A)
| Raise (e : Exc).
Arguments Ok {A} a.
Arguments Raise {A} e.

Definition bind {A B : Type} (m : t A) (k : A -> t B) : t B :=
  match m with
  | Ok a => k a
  | Raise e => Raise e
  end.

(** [try: m  except Exception as e: h e] *)
Definition try_except {A : Type} (m : t A) (h : Exc -> A) : A :=
  match m with
  | Ok a => a
  | Raise e => h e
  end.

(** [math.sqrt]: [ValueError] on a negative argument. *)
Definition sqrt (x : R) : t R :=
  if Rlt_dec x 0 then Raise ValueError else Ok (R_sqrt.sqrt x).

(** [math.asin]: [ValueError] outside [-1, 1]. *)
Definition asin (x : R) : t R :=
  if Rle_dec (-1) x then
    if Rle_dec x 1 then Ok (Ratan.asin x) else Raise ValueError
  else Raise ValueError.

(** [a / b] on floats: [ZeroDivisionError] when [b] is zero. *)
Definition div (a b : R) : t R :=
  if Req_dec_T b 0 then Raise ZeroDivisionError else Ok (a / b).

(** [math.radians] and [math.degrees]. *)
Definition radians (x : R) : R := x * (PI / 180).
Definition degrees (x : R) : R := x * (180 / PI).

(** [math.atan2 y x] on reals (no signed zeros). *)
Definition atan2 (y x : R) : R :=
  if Rlt_dec 0 x then atan (y / x)
  else if Rlt_dec x 0 then
    if Rle_dec 0 y then atan (y / x) + PI else atan (y / x) - PI
  else if Rlt_dec 0 y then PI / 2
  else if Rlt_dec y 0 then - (PI / 2)
  else 0.

(** [abs] and [max] on floats. *)
Definition abs (x : R) : R := Rabs x.
Definition max (x y : R) : R := Rmax x y.

End Py.

Notation "x <- m ;; k" := (Py.bind m (fun x => k))
  (at level 61, m at next level, right associativity).
Notation "' ( x , y ) <- m ;; k" := (Py.bind m (fun '(x, y) => k))
  (at level 61, x name, y name, m at next level, right associativity).

(** ** bomb_release_calculator.py *)

Module Calc.

(** [class ErrorCode(Enum)] *)
Inductive ErrorCode : Type :=
| SUCCESS
| INVALID_COORDINATES
| INVALID_SPEED
| TARGET_TOO_FAR
| CALCULATION_ERROR
| NUMERICAL_INSTABILITY.

Definition ErrorCode_value (c : ErrorCode) : Z :=
  match c with
  | SUCCESS => 0
  | INVALID_COORDINATES => 1
  | INVALID_SPEED => 2
  | TARGET_TOO_FAR => 3
  | CALCULATION_ERROR => 4
  | NUMERICAL_INSTABILITY => 5
  end%Z.

Definition ErrorCode_eq_dec (a b : ErrorCode) : {a = b} + {a <> b}.
Proof. decide equality. Defined.

(** [@dataclass class Position] *)
Record Position : Type := mkPosition {
  latitude : R;
  longitude : R;
  altitude : R
}.

(** [Position.__post_init__]: the three range checks, in order. *)
Definition Position_post_init (p : Position) : Py.t unit :=
  if Rle_dec (-90) (latitude p) then
    if Rle_dec (latitude p) 90 then
      if Rle_dec (-180) (longitude p) then
        if Rle_dec (longitude p) 180 then
          if Rlt_dec (altitude p) 0 then Py.Raise Py.ValueError
          else Py.Ok tt
        else Py.Raise Py.ValueError
      else Py.Raise Py.ValueError
    else Py.Raise Py.ValueError
  else Py.Raise Py.ValueError.

(** [Position(latitude, longitude, altitude)] *)
Definition Position_new (lat lon alt : R) : Py.t Position :=
  _ <- Position_post_init (mkPosition lat lon alt) ;;
  Py.Ok (mkPosition lat lon alt).

(** [@dataclass class SpeedData] *)
Record SpeedData : Type := mkSpeedData {
  airspeed : R;
  groundspeed : R
}.

(** The ratio [SpeedData.__post_init__] compares with 0.5 before it logs a
    warning. *)
Definition speed_ratio (s : SpeedData) : Py.t R :=
  Py.div (Py.abs (airspeed s - groundspeed s))
         (Py.max (airspeed s) (groundspeed s)).

(** [SpeedData.__post_init__]: both speeds positive; the plausibility
    ratio is computed (a zero divisor would raise) and only logged. *)
Definition SpeedData_post_init (s : SpeedData) : Py.t unit :=
  if Rle_dec (airspeed s) 0 then Py.Raise Py.ValueError
  else if Rle_dec (groundspeed s) 0 then Py.Raise Py.ValueError
  else _ <- speed_ratio s ;; Py.Ok tt.

Definition SpeedData_new (a g : R) : Py.t SpeedData :=
  _ <- SpeedData_post_init (mkSpeedData a g) ;;
  Py.Ok (mkSpeedData a g).

(** Class constants of [BombReleaseCalculator]. *)
Definition EARTH_RADIUS : R := 6371000.
Definition GRAVITY : R := 9.81.
Definition MAX_REASONABLE_DISTANCE : R := 50000.
Definition MIN_RELEASE_HEIGHT : R := 50.

(** *** calculate_distance_and_bearing *)

(** The haversine term [a] before the stability check. *)
Definition haversine_a (lat1_rad lon1_rad lat2_rad lon2_rad : R) : R :=
  let dlat := lat2_rad - lat1_rad in
  let dlon := lon2_rad - lon1_rad in
  (sin (dlat / 2)) ^ 2 + cos lat1_rad * cos lat2_rad * (sin (dlon / 2)) ^ 2.

(** [if a > 1.0: a = 1.0  elif a < 0.0: a = 0.0] *)
Definition clamp_unit (a : R) : R :=
  if Rlt_dec 1 a then 1 else if Rlt_dec a 0 then 0 else a.

(** The body of the [try] block. *)
Definition distance_and_bearing_try (pos1 pos2 : Position) : Py.t (R * R) :=
  let lat1_rad := Py.radians (latitude pos1) in
  let lon1_rad := Py.radians (longitude pos1) in
  let lat2_rad := Py.radians (latitude pos2) in
  let lon2_rad := Py.radians (longitude pos2) in
  let dlon := lon2_rad - lon1_rad in
  let a := clamp_unit (haversine_a lat1_rad lon1_rad lat2_rad lon2_rad) in
  r <- Py.sqrt a ;;
  h <- Py.asin r ;;
  let c := 2 * h in
  let distance := EARTH_RADIUS * c in
  let y := sin dlon * cos lat2_rad in
  let x := cos lat1_rad * sin lat2_rad
           - sin lat1_rad * cos lat2_rad * cos dlon in
  let bearing := Py.atan2 y x in
  Py.Ok (distance, bearing).

(** Any exception of the body is re-raised as a [ValueError]. *)
Definition calculate_distance_and_bearing (pos1 pos2 : Position)
  : Py.t (R * R) :=
  match distance_and_bearing_try pos1 pos2 with
  | Py.Ok r => Py.Ok r
  | Py.Raise _ => Py.Raise Py.ValueError
  end.

(** The distance of the body when neither [math.sqrt] nor [math.asin]
    raises, as a closed expression of the clamped haversine term. *)
Definition haversine_distance (pos1 pos2 : Position) : R :=
  EARTH_RADIUS
  * (2 * Ratan.asin
           (R_sqrt.sqrt
              (clamp_unit
                 (haversine_a (Py.radians (latitude pos1))
                              (Py.radians (longitude pos1))
                              (Py.radians (latitude pos2))
                              (Py.radians (longitude pos2)))))).

(** The bearing of the body, likewise. *)
Definition initial_bearing (pos1 pos2 : Position) : R :=
  let lat1_rad := Py.radians (latitude pos1) in
  let lon1_rad := Py.radians (longitude pos1) in
  let lat2_rad := Py.radians (latitude pos2) in
  let lon2_rad := Py.radians (longitude pos2) in
  let dlon := lon2_rad - lon1_rad in
  Py.atan2 (sin dlon * cos lat2_rad)
           (cos lat1_rad * sin lat2_rad
            - sin lat1_rad * cos lat2_rad * cos dlon).

(** *** calculate_wind_effect *)

Definition wind_effect_try (airspeed groundspeed bearing : R)
  : Py.t (R * R) :=
  _ <- Py.sqrt (airspeed ^ 2 + groundspeed ^ 2
                - 2 * airspeed * groundspeed * cos 0) ;;
  let wind_speed := Py.abs (airspeed - groundspeed) in
  let wind_angle := if Rlt_dec groundspeed airspeed then PI else 0 in
  Py.Ok (wind_speed, wind_angle).

(** The handler returns the safe default [(0.0, 0.0)]. *)
Definition calculate_wind_effect (airspeed groundspeed bearing : R)
  : R * R :=
  Py.try_except (wind_effect_try airspeed groundspeed bearing)
                (fun _ => (0, 0)).

(** *** calculate_ballistic_trajectory *)

(** [effective_horizontal_velocity = initial_velocity + wind_speed] *)
Definition effective_horizontal_velocity (initial_velocity wind_speed : R)
  : R :=
  initial_velocity + wind_speed.

(** The [if horizontal_time > vertical_time * 1.2: ... else: ...] block:
    the value of [flight_time] before the final check. *)
Definition reconcile (horizontal_time vertical_time : R) : R :=
  if Rlt_dec (vertical_time * 1.2) horizontal_time then vertical_time
  else Py.max horizontal_time (vertical_time * 0.8).

(** [if flight_time <= 0 or flight_time > 60] *)
Definition unreasonable (flight_time : R) : bool :=
  if Rle_dec flight_time 0 then true
  else if Rlt_dec 60 flight_time then true else false.

(** From the fall time to the reconciled [flight_time], for a height and
    a distance that passed the two guards; [None] is the near-zero
    velocity exit. *)
Definition flight_time_before_check
    (initial_velocity height distance wind_speed : R) : Py.t (option R) :=
  q <- Py.div (2 * height) GRAVITY ;;
  vertical_time <- Py.sqrt q ;;
  let v := effective_horizontal_velocity initial_velocity wind_speed in
  if Rlt_dec (Py.abs v) 1e-10 then Py.Ok None
  else
    horizontal_time <- Py.div distance (Py.abs v) ;;
    Py.Ok (Some (reconcile horizontal_time vertical_time)).

(** The body of the [try] block. *)
Definition ballistic_trajectory_try
    (initial_velocity height distance wind_speed : R) : Py.t (option R) :=
  if Rle_dec height 0 then Py.Ok None
  else if Rle_dec distance 0 then Py.Ok None
  else
    ft <- flight_time_before_check initial_velocity height distance
                                   wind_speed ;;
    match ft with
    | None => Py.Ok None
    | Some flight_time =>
        if unreasonable flight_time then Py.Ok None
        else Py.Ok (Some (flight_time * 1.1))
    end.

(** Any exception yields [None]. *)
Definition calculate_ballistic_trajectory
    (initial_velocity height distance wind_speed : R) : option R :=
  Py.try_except
    (ballistic_trajectory_try initial_velocity height distance wind_speed)
    (fun _ => None).

(** *** calculate_release_point *)

(** The texts of [result['message']], by kind; the formatted numbers are
    kept as arguments. *)
Inductive Message : Type :=
| MsgEmpty
| MsgAltitudeTooLow (altitude minimum : R)
| MsgTargetTooFar (distance maximum : R)
| MsgNoTrajectory
| MsgUnstable (release_distance : R)
| MsgWindowMissed
| MsgException (e : Py.Exc).

(** The result dictionary; [calculations] is the nested dictionary, as
    the list of its items in insertion order. *)
Record Result : Type := mkResult {
  success : bool;
  error_code : ErrorCode;
  message : Message;
  release_time : option R;
  release_distance : option R;
  flight_time : option R;
  wind_speed : option R;
  calculations : list (string * R)
}.

Definition initial_result : Result :=
  mkResult false SUCCESS MsgEmpty None None None None [].

(** [result.update({'error_code': c, 'message': m})] *)
Definition update_error (r : Result) (c : ErrorCode) (m : Message)
  : Result :=
  mkResult (success r) c m (release_time r) (release_distance r)
           (flight_time r) (wind_speed r) (calculations r).

(** [result.update({'success': True, 'release_time': ..., ...})] *)
Definition update_success (r : Result) (rt rd ft ws : R)
    (calc : list (string * R)) : Result :=
  mkResult true (error_code r) (message r) (Some rt) (Some rd) (Some ft)
           (Some ws) calc.

(** The body of the [try] block.  Every [result.update] of a failure is
    followed at once by [return result], and no operation that can raise
    comes after the update of a success, so an exception always finds the
    dictionary in its initial state. *)
Definition release_point_try (result : Result)
    (aircraft_pos target_pos : Position) (speed_data : SpeedData)
  : Py.t Result :=
  if Rlt_dec (altitude aircraft_pos) MIN_RELEASE_HEIGHT then
    Py.Ok (update_error result INVALID_COORDINATES
             (MsgAltitudeTooLow (altitude aircraft_pos) MIN_RELEASE_HEIGHT))
  else
    '(distance, bearing) <-
        calculate_distance_and_bearing aircraft_pos target_pos ;;
    if Rlt_dec MAX_REASONABLE_DISTANCE distance then
      Py.Ok (update_error result TARGET_TOO_FAR
               (MsgTargetTooFar distance MAX_REASONABLE_DISTANCE))
    else
      let '(wind_speed, wind_angle) :=
        calculate_wind_effect (airspeed speed_data) (groundspeed speed_data)
                              bearing in
      match calculate_ballistic_trajectory
              (groundspeed speed_data)
              (altitude aircraft_pos - altitude target_pos)
              distance wind_speed with
      | None => Py.Ok (update_error result CALCULATION_ERROR MsgNoTrajectory)
      | Some flight_time =>
          let release_distance := groundspeed speed_data * flight_time in
          if Rlt_dec (distance * 2) release_distance then
            Py.Ok (update_error result NUMERICAL_INSTABILITY
                     (MsgUnstable release_distance))
          else
            release_time <- Py.div (distance - release_distance)
                                   (groundspeed speed_data) ;;
            if Rlt_dec release_time 0 then
              Py.Ok (update_error result CALCULATION_ERROR MsgWindowMissed)
            else
              Py.Ok (update_success result release_time release_distance
                       flight_time wind_speed
                       [ ("target_distance"%string, distance);
                         ("target_bearing"%string, Py.degrees bearing);
                         ("wind_angle"%string, Py.degrees wind_angle);
                         ("aircraft_altitude"%string, altitude aircraft_pos);
                         ("target_altitude"%string, altitude target_pos);
                         ("altitude_difference"%string,
                          altitude aircraft_pos - altitude target_pos) ])
      end.

Definition calculate_release_point
    (aircraft_pos target_pos : Position) (speed_data : SpeedData) : Result :=
  let result := initial_result in
  Py.try_except
    (release_point_try result aircraft_pos target_pos speed_data)
    (fun e => update_error result CALCULATION_ERROR (MsgException e)).

(** *** validate_mavlink_data *)

(** The texts of the second component, by kind. *)
Inductive SpeedIssue : Type :=
| NoIssue
| NoAirspeed
| NoGroundspeed
| BadAirspeed (v : R)
| BadGroundspeed (v : R)
| AirspeedTooHigh (v : R)
| GroundspeedTooHigh (v : R).

Definition validate_mavlink_data (airspeed groundspeed : option R)
  : bool * SpeedIssue :=
  match airspeed with
  | None => (false, NoAirspeed)
  | Some a =>
      match groundspeed with
      | None => (false, NoGroundspeed)
      | Some g =>
          if Rle_dec a 0 then (false, BadAirspeed a)
          else if Rle_dec g 0 then (false, BadGroundspeed g)
          else if Rlt_dec 200 a then (false, AirspeedTooHigh a)
          else if Rlt_dec 200 g then (false, GroundspeedTooHigh g)
          else (true, NoIssue)
      end
  end.

(** [d.get(key)] on a dictionary kept as the list of its items. *)
Fixpoint dict_get (key : string) (d : list (string * R)) : option R :=
  match d with
  | [] => None
  | (k, v) :: rest => if String.eqb k key then Some v else dict_get key rest
  end.

(** The solver outcome a result dictionary stands for, read off its
    [success] flag and the kind of its message. *)
Inductive Outcome : Type :=
| Solved
| BelowMinimumAltitude
| TargetOutOfRange
| TrajectoryUnresolvable
| NumericallyUnstable
| ReleaseWindowMissed
| InternalError.

Definition outcome (r : Result) : Outcome :=
  if success r then Solved
  else match message r with
       | MsgAltitudeTooLow _ _ => BelowMinimumAltitude
       | MsgTargetTooFar _ _ => TargetOutOfRange
       | MsgNoTrajectory => TrajectoryUnresolvable
       | MsgUnstable _ => NumericallyUnstable
       | MsgWindowMissed => ReleaseWindowMissed
       | MsgEmpty | MsgException _ => InternalError
       end.

(** The [error_code] each exit of [calculate_release_point] stores: the
    initial [SUCCESS] is kept by the success update, and the handler of the
    [try] block stores [CALCULATION_ERROR]. *)
Definition outcome_code (o : Outcome) : ErrorCode :=
  match o with
  | Solved => SUCCESS
  | BelowMinimumAltitude => INVALID_COORDINATES
  | TargetOutOfRange => TARGET_TOO_FAR
  | TrajectoryUnresolvable => CALCULATION_ERROR
  | NumericallyUnstable => NUMERICAL_INSTABILITY
  | ReleaseWindowMissed => CALCULATION_ERROR
  | InternalError => CALCULATION_ERROR
  end.

(** The five domain-bound failures. *)
Definition domain_failure (o : Outcome) : bool :=
  match o with
  | BelowMinimumAltitude | TargetOutOfRange | TrajectoryUnresolvable
  | NumericallyUnstable | ReleaseWindowMissed => true
  | Solved | InternalError => false
  end.

Definition Outcome_eq_dec (a b : Outcome) : {a = b} + {a <> b}.
Proof. decide equality. Defined.

End Calc.

(** ** The engine on binary64 floats

    Rocq's primitive floats are IEEE 754 binary64 with rounding to
    nearest, as Python's.  The module starts with
    [calculate_wind_effect], where [x ** 2] is taken as the correctly
    rounded product [x * x] and [math.cos(0)] as exactly 1.0, and goes on
    with the parts of the engine that only add, multiply, divide, take a
    square root and compare. *)

Module F64.

(** *** calculate_wind_effect, with the rounded product for [x ** 2] *)

(** [x ** 2]: [OverflowError] when a finite [x] has an infinite square. *)
Definition pow2 (x : float) : Py.t float :=
  let y := PrimFloat.mul x x in
  if PrimFloat.is_finite x && PrimFloat.is_infinity y
  then Py.Raise Py.OverflowError
  else Py.Ok y.

(** [math.sqrt]: [ValueError] on a negative argument. *)
Definition math_sqrt (x : float) : Py.t float :=
  if PrimFloat.ltb x 0%float then Py.Raise Py.ValueError
  else Py.Ok (PrimFloat.sqrt x).

(** [math.cos(0)] and [math.pi]. *)
Definition cos_0 : float := 1%float.
Definition pi : float := 0x1.921fb54442d18p+1%float.

(** The value handed to [math.sqrt] on the first line of the [try]
    block: [airspeed**2 + groundspeed**2
            - 2 * airspeed * groundspeed * math.cos(0)]. *)
Definition law_of_cosines (airspeed groundspeed : float) : Py.t float :=
  a2 <- pow2 airspeed ;;
  g2 <- pow2 groundspeed ;;
  Py.Ok (PrimFloat.sub
           (PrimFloat.add a2 g2)
           (PrimFloat.mul
              (PrimFloat.mul (PrimFloat.mul 2%float airspeed) groundspeed)
              cos_0)).

Definition wind_effect_try (airspeed groundspeed bearing : float)
  : Py.t (float * float) :=
  x <- law_of_cosines airspeed groundspeed ;;
  _ <- math_sqrt x ;;
  let wind_speed := PrimFloat.abs (PrimFloat.sub airspeed groundspeed) in
  let wind_angle :=
    if PrimFloat.ltb groundspeed airspeed then pi else 0%float in
  Py.Ok (wind_speed, wind_angle).

Definition calculate_wind_effect (airspeed groundspeed bearing : float)
  : float * float :=
  Py.try_except (wind_effect_try airspeed groundspeed bearing)
                (fun _ => (0%float, 0%float)).

(** *** Arithmetic, comparisons and the dataclasses

    Every comparison with a NaN is false, and a product is compared after
    it was rounded, so what the guards of the engine let through is
    decided on binary64 values.  Sums, products, quotients and square
    roots are the correctly rounded IEEE operations, as in CPython. *)

Local Open Scope float_scope.

(** Literals of the source that are not binary64 values, by the binary64
    value Python reads them as. *)
Definition lit_1e_10 : float := 0x1.b7cdfd9d7bdbbp-34.
Definition lit_1_2 : float := 0x1.3333333333333p+0.
Definition lit_0_8 : float := 0x1.999999999999ap-1.
Definition lit_1_1 : float := 0x1.199999999999ap+0.

(** [a / b]: [ZeroDivisionError] when [b == 0.0]; an overflow gives an
    infinity, not an exception. *)
Definition div (a b : float) : Py.t float :=
  if b =? 0 then Py.Raise Py.ZeroDivisionError else Py.Ok (a / b).

(** The builtin [max(a, b)]: [b] when [b > a], otherwise [a]. *)
Definition max (a b : float) : float := if a <? b then b else a.

(** [math.radians] and [math.degrees] multiply by the constants
    [pi / 180] and [180 / pi]. *)
Definition radians (x : float) : float := x * (pi / 180).
Definition degrees (x : float) : float := x * (180 / pi).

(** [@dataclass class Position] *)
Record Position : Type := mkPosition {
  latitude : float;
  longitude : float;
  altitude : float
}.

(** [Position.__post_init__]: [not (-90 <= latitude <= 90)], then
    [not (-180 <= longitude <= 180)], then [altitude < 0]. *)
Definition Position_post_init (p : Position) : Py.t unit :=
  if negb ((-90 <=? latitude p) && (latitude p <=? 90))
  then Py.Raise Py.ValueError
  else if negb ((-180 <=? longitude p) && (longitude p <=? 180))
  then Py.Raise Py.ValueError
  else if altitude p <? 0 then Py.Raise Py.ValueError
  else Py.Ok tt.

Definition Position_new (lat lon alt : float) : Py.t Position :=
  _ <- Position_post_init (mkPosition lat lon alt) ;;
  Py.Ok (mkPosition lat lon alt).

(** [@dataclass class SpeedData] *)
Record SpeedData : Type := mkSpeedData {
  airspeed : float;
  groundspeed : float
}.

Definition speed_ratio (s : SpeedData) : Py.t float :=
  div (PrimFloat.abs (airspeed s - groundspeed s))
      (max (airspeed s) (groundspeed s)).

(** [SpeedData.__post_init__]: [airspeed <= 0], then [groundspeed <= 0],
    then the ratio, which is only compared with 0.5 for a warning. *)
Definition SpeedData_post_init (s : SpeedData) : Py.t unit :=
  if airspeed s <=? 0 then Py.Raise Py.ValueError
  else if groundspeed s <=? 0 then Py.Raise Py.ValueError
  else _ <- speed_ratio s ;; Py.Ok tt.

Definition SpeedData_new (a g : float) : Py.t SpeedData :=
  _ <- SpeedData_post_init (mkSpeedData a g) ;;
  Py.Ok (mkSpeedData a g).

(** [@dataclass class BombCharacteristics], with the defaults of the
    class: 0.35, 0.47 and 0.003. *)
Record BombCharacteristics : Type := mkBombCharacteristics {
  mass : float;
  drag_coefficient : float;
  cross_sectional_area : float
}.

Definition BombCharacteristics_post_init (b : BombCharacteristics)
  : Py.t unit :=
  if mass b <=? 0 then Py.Raise Py.ValueError
  else if drag_coefficient b <=? 0 then Py.Raise Py.ValueError
  else if cross_sectional_area b <=? 0 then Py.Raise Py.ValueError
  else Py.Ok tt.

Definition default_bomb : BombCharacteristics :=
  mkBombCharacteristics 0x1.6666666666666p-2 0x1.e147ae147ae14p-2
                        0x1.89374bc6a7efap-9.

(** [BombReleaseCalculator.__init__] *)
Definition BombReleaseCalculator_init : Py.t BombCharacteristics :=
  _ <- BombCharacteristics_post_init default_bomb ;; Py.Ok default_bomb.

(** Class constants of [BombReleaseCalculator]; 9.81 by its binary64
    value. *)
Definition EARTH_RADIUS : float := 6371000.
Definition GRAVITY : float := 0x1.39eb851eb851fp+3.
Definition MAX_REASONABLE_DISTANCE : float := 50000.
Definition MIN_RELEASE_HEIGHT : float := 50.

(** [if a > 1.0: a = 1.0  elif a < 0.0: a = 0.0] *)
Definition clamp_unit (a : float) : float :=
  if 1 <? a then 1 else if a <? 0 then 0 else a.

(** *** calculate_ballistic_trajectory *)

Definition effective_horizontal_velocity (initial_velocity wind_speed : float)
  : float :=
  initial_velocity + wind_speed.

(** The [if horizontal_time > vertical_time * 1.2: ... else: ...] block. *)
Definition reconcile (horizontal_time vertical_time : float) : float :=
  if vertical_time * lit_1_2 <? horizontal_time then vertical_time
  else max horizontal_time (vertical_time * lit_0_8).

(** [if flight_time <= 0 or flight_time > 60] *)
Definition unreasonable (flight_time : float) : bool :=
  (flight_time <=? 0) || (60 <? flight_time).

(** From the fall time to the reconciled [flight_time], past the two
    guards; [None] is the near-zero velocity exit. *)
Definition flight_time_before_check
    (initial_velocity height distance wind_speed : float)
  : Py.t (option float) :=
  q <- div (2 * height) GRAVITY ;;
  vertical_time <- math_sqrt q ;;
  let v := effective_horizontal_velocity initial_velocity wind_speed in
  if PrimFloat.abs v <? lit_1e_10 then Py.Ok None
  else
    horizontal_time <- div distance (PrimFloat.abs v) ;;
    Py.Ok (Some (reconcile horizontal_time vertical_time)).

Definition ballistic_trajectory_try
    (initial_velocity height distance wind_speed : float)
  : Py.t (option float) :=
  if height <=? 0 then Py.Ok None
  else if distance <=? 0 then Py.Ok None
  else
    ft <- flight_time_before_check initial_velocity height distance
                                   wind_speed ;;
    match ft with
    | None => Py.Ok None
    | Some flight_time =>
        if unreasonable flight_time then Py.Ok None
        else Py.Ok (Some (flight_time * lit_1_1))
    end.

Definition calculate_ballistic_trajectory
    (initial_velocity height distance wind_speed : float) : option float :=
  Py.try_except
    (ballistic_trajectory_try initial_velocity height distance wind_speed)
    (fun _ => None).

(** *** calculate_release_point *)

Inductive Message : Type :=
| MsgEmpty
| MsgAltitudeTooLow (altitude minimum : float)
| MsgTargetTooFar (distance maximum : float)
| MsgNoTrajectory
| MsgUnstable (release_distance : float)
| MsgWindowMissed
| MsgException (e : Py.Exc).

Record Result : Type := mkResult {
  success : bool;
  error_code : Calc.ErrorCode;
  message : Message;
  release_time : option float;
  release_distance : option float;
  flight_time : option float;
  wind_speed : option float;
  calculations : list (string * float)
}.

Definition initial_result : Result :=
  mkResult false Calc.SUCCESS MsgEmpty None None None None [].

Definition update_error (r : Result) (c : Calc.ErrorCode) (m : Message)
  : Result :=
  mkResult (success r) c m (release_time r) (release_distance r)
           (flight_time r) (wind_speed r) (calculations r).

Definition update_success (r : Result) (rt rd ft ws : float)
    (calc : list (string * float)) : Result :=
  mkResult true (error_code r) (message r) (Some rt) (Some rd) (Some ft)
           (Some ws) calc.

Fixpoint dict_get (key : string) (d : list (string * float)) : option float :=
  match d with
  | [] => None
  | (k, v) :: rest => if String.eqb k key then Some v else dict_get key rest
  end.

Definition outcome (r : Result) : Calc.Outcome :=
  if success r then Calc.Solved
  else match message r with
       | MsgAltitudeTooLow _ _ => Calc.BelowMinimumAltitude
       | MsgTargetTooFar _ _ => Calc.TargetOutOfRange
       | MsgNoTrajectory => Calc.TrajectoryUnresolvable
       | MsgUnstable _ => Calc.NumericallyUnstable
       | MsgWindowMissed => Calc.ReleaseWindowMissed
       | MsgEmpty | MsgException _ => Calc.InternalError
       end.

(** *** validate_mavlink_data *)

Inductive SpeedIssue : Type :=
| NoIssue
| NoAirspeed
| NoGroundspeed
| BadAirspeed (v : float)
| BadGroundspeed (v : float)
| AirspeedTooHigh (v : float)
| GroundspeedTooHigh (v : float).

Definition validate_mavlink_data (airspeed groundspeed : option float)
  : bool * SpeedIssue :=
  match airspeed with
  | None => (false, NoAirspeed)
  | Some a =>
      match groundspeed with
      | None => (false, NoGroundspeed)
      | Some g =>
          if a <=? 0 then (false, BadAirspeed a)
          else if g <=? 0 then (false, BadGroundspeed g)
          else if 200 <? a then (false, AirspeedTooHigh a)
          else if 200 <? g then (false, GroundspeedTooHigh g)
          else (true, NoIssue)
      end
  end.

(** *** Signs of binary64 values

    What is not below zero: the two zeros, the positive numbers, the
    positive infinity and NaN. *)
Definition SF_nonneg (f : SpecFloat.spec_float) : Prop :=
  match f with
  | SpecFloat.S754_infinity true | SpecFloat.S754_finite true _ _ => False
  | _ => True
  end.

End F64.

(** ** The solver on binary64 floats, over the C library

    [x ** y], [math.sin], [math.cos], [math.asin] and [math.atan2] go to
    the C library; what it returns to the last bit is not fixed by the
    code, so these functions are a parameter of the solver, each with the
    exception Python raises for it (an overflow of [**], an infinite
    argument of [sin], an argument of [asin] outside [-1, 1]). *)

Module Engine.

Import F64.
Local Open Scope float_scope.

Record Libm : Type := mkLibm {
  m_pow : float -> float -> Py.t float;
  m_sin : float -> Py.t float;
  m_cos : float -> Py.t float;
  m_asin : float -> Py.t float;
  m_atan2 : float -> float -> Py.t float
}.

(** The C library of [F64.calculate_wind_effect]: [x ** 2] is the rounded
    product and [math.cos(0)] is 1.0; the other functions are not used
    there. *)
Definition rounded_product_pow (libm : Libm) : Prop :=
  (forall x, m_pow libm x 2 = pow2 x) /\ m_cos libm 0 = Py.Ok cos_0.

Section WithLibm.

Variable libm : Libm.

(** *** calculate_wind_effect *)

Definition wind_effect_try (airspeed groundspeed bearing : float)
  : Py.t (float * float) :=
  a2 <- m_pow libm airspeed 2 ;;
  g2 <- m_pow libm groundspeed 2 ;;
  c0 <- m_cos libm 0 ;;
  _ <- math_sqrt (a2 + g2 - 2 * airspeed * groundspeed * c0) ;;
  let wind_speed := PrimFloat.abs (airspeed - groundspeed) in
  let wind_angle := if groundspeed <? airspeed then pi else 0 in
  Py.Ok (wind_speed, wind_angle).

(** The handler returns the safe default [(0.0, 0.0)]. *)
Definition calculate_wind_effect (airspeed groundspeed bearing : float)
  : float * float :=
  Py.try_except (wind_effect_try airspeed groundspeed bearing)
                (fun _ => (0, 0)).

(** *** calculate_distance_and_bearing *)

(** The body of the [try] block, in the order Python evaluates it. *)
Definition distance_and_bearing_try (pos1 pos2 : Position)
  : Py.t (float * float) :=
  let lat1_rad := radians (latitude pos1) in
  let lon1_rad := radians (longitude pos1) in
  let lat2_rad := radians (latitude pos2) in
  let lon2_rad := radians (longitude pos2) in
  let dlat := lat2_rad - lat1_rad in
  let dlon := lon2_rad - lon1_rad in
  s1 <- m_sin libm (dlat / 2) ;;
  p1 <- m_pow libm s1 2 ;;
  c1 <- m_cos libm lat1_rad ;;
  c2 <- m_cos libm lat2_rad ;;
  s2 <- m_sin libm (dlon / 2) ;;
  p2 <- m_pow libm s2 2 ;;
  let a := clamp_unit (p1 + c1 * c2 * p2) in
  r <- math_sqrt a ;;
  h <- m_asin libm r ;;
  let c := 2 * h in
  let distance := EARTH_RADIUS * c in
  sy <- m_sin libm dlon ;;
  cy <- m_cos libm lat2_rad ;;
  let y := sy * cy in
  x1 <- m_cos libm lat1_rad ;;
  x2 <- m_sin libm lat2_rad ;;
  x3 <- m_sin libm lat1_rad ;;
  x4 <- m_cos libm lat2_rad ;;
  x5 <- m_cos libm dlon ;;
  let x := x1 * x2 - x3 * x4 * x5 in
  bearing <- m_atan2 libm y x ;;
  Py.Ok (distance, bearing).

(** Any exception of the body is re-raised as a [ValueError]. *)
Definition calculate_distance_and_bearing (pos1 pos2 : Position)
  : Py.t (float * float) :=
  match distance_and_bearing_try pos1 pos2 with
  | Py.Ok r => Py.Ok r
  | Py.Raise _ => Py.Raise Py.ValueError
  end.

(** The body of the [try] block of [calculate_release_point]. *)
Definition release_point_try (result : Result)
    (aircraft_pos target_pos : Position) (speed_data : SpeedData)
  : Py.t Result :=
  if altitude aircraft_pos <? MIN_RELEASE_HEIGHT then
    Py.Ok (update_error result Calc.INVALID_COORDINATES
             (MsgAltitudeTooLow (altitude aircraft_pos) MIN_RELEASE_HEIGHT))
  else
    '(distance, bearing) <-
        calculate_distance_and_bearing aircraft_pos target_pos ;;
    if MAX_REASONABLE_DISTANCE <? distance then
      Py.Ok (update_error result Calc.TARGET_TOO_FAR
               (MsgTargetTooFar distance MAX_REASONABLE_DISTANCE))
    else
      let '(wind_speed, wind_angle) :=
        calculate_wind_effect (airspeed speed_data) (groundspeed speed_data)
                              bearing in
      match calculate_ballistic_trajectory
              (groundspeed speed_data)
              (altitude aircraft_pos - altitude target_pos)
              distance wind_speed with
      | None =>
          Py.Ok (update_error result Calc.CALCULATION_ERROR MsgNoTrajectory)
      | Some flight_time =>
          let release_distance := groundspeed speed_data * flight_time in
          if distance * 2 <? release_distance then
            Py.Ok (update_error result Calc.NUMERICAL_INSTABILITY
                     (MsgUnstable release_distance))
          else
            release_time <- div (distance - release_distance)
                                (groundspeed speed_data) ;;
            if release_time <? 0 then
              Py.Ok (update_error result Calc.CALCULATION_ERROR
                       MsgWindowMissed)
            else
              Py.Ok (update_success result release_time release_distance
                       flight_time wind_speed
                       [ ("target_distance"%string, distance);
                         ("target_bearing"%string, degrees bearing);
                         ("wind_angle"%string, degrees wind_angle);
                         ("aircraft_altitude"%string, altitude aircraft_pos);
                         ("target_altitude"%string, altitude target_pos);
                         ("altitude_difference"%string,
                          altitude aircraft_pos - altitude target_pos) ])
      end.

Definition calculate_release_point
    (aircraft_pos target_pos : Position) (speed_data : SpeedData) : Result :=
  let result := initial_result in
  Py.try_except
    (release_point_try result aircraft_pos target_pos speed_data)
    (fun e => update_error result Calc.CALCULATION_ERROR (MsgException e)).

End WithLibm.

End Engine.

(** ** mavlink_integration.py: the flight-data collector

    The transport and the wall clock are the environment.  A run of the
    collector is sequential and deterministic given what the environment
    answers, so the environment is two tables: the successive readings of
    [time.time()], and the reply of the transport to each [recv_match],
    by the number of the call.  The world keeps the fields of
    [MAVLinkConnection] and, as a ghost trace, the calls made so far. *)

Module Mav.

Import Calc.

Inductive MsgType : Type := HEARTBEAT | VFR_HUD | GLOBAL_POSITION_INT.

Definition MsgType_eq_dec (a b : MsgType) : {a = b} + {a <> b}.
Proof. decide equality. Defined.

(** A message of the transport: the speed report carries two floats (or
    nothing), the position report three scaled integers. *)
Inductive Msg : Type :=
| Heartbeat
| VfrHud (airspeed groundspeed : option R)
| GlobalPositionInt (lat lon alt : Z).

(** One call [connection.recv_match(type=..., blocking=..., timeout=...)]. *)
Record RecvCall : Type := mkRecvCall {
  msg_type : MsgType;
  blocking : bool;
  timeout : option R
}.

(** What the call did: returned a message, returned [None], or raised. *)
Inductive Reply : Type :=
| Received (m : Msg)
| NoMessage
| Failed.

Record Env : Type := mkEnv {
  wall_clock : nat -> R;
  link : nat -> RecvCall -> Reply
}.

Record World : Type := mkWorld {
  clock_reads : nat;
  connection : bool;
  is_connected : bool;
  last_heartbeat : R;
  calls : list RecvCall
}.

(** [@dataclass class FlightData] *)
Record FlightData : Type := mkFlightData {
  position : Position;
  speed : SpeedData;
  timestamp : R;
  altitude_msl : R;
  altitude_agl : R;
  heading : R
}.

(** The state monad of the collector. *)
Definition M (A : Type) : Type := World -> A * World.

Definition ret {A : Type} (a : A) : M A := fun w => (a, w).

Definition bind {A B : Type} (m : M A) (k : A -> M B) : M B :=
  fun w => let (a, w') := m w in k a w'.

Notation "x <~ m ;; k" := (bind m (fun x => k))
  (at level 61, m at next level, right associativity).

Definition set_last_heartbeat (t : R) : M unit :=
  fun w => (tt, mkWorld (clock_reads w) (connection w) (is_connected w) t
                        (calls w)).

Section Collector.

Variable env : Env.

(** [time.time()]: the next reading of the clock. *)
Definition time_time : M R :=
  fun w => (wall_clock env (clock_reads w),
            mkWorld (S (clock_reads w)) (connection w) (is_connected w)
                    (last_heartbeat w) (calls w)).

(** [connection.recv_match(...)]: the reply of the transport to this
    call; the call is appended to the trace. *)
Definition recv_match (c : RecvCall) : M (Py.t (option Msg)) :=
  fun w =>
    (match link env (List.length (calls w)) c with
     | Received m => Py.Ok (Some m)
     | NoMessage => Py.Ok None
     | Failed => Py.Raise Py.TransportFailure
     end,
     mkWorld (clock_reads w) (connection w) (is_connected w)
             (last_heartbeat w) (calls w ++ [c])%list).

(** [MAVLinkConnection.check_connection] *)
Definition check_connection : M bool :=
  fun w =>
    if negb (is_connected w) || negb (connection w) then (false, w)
    else
      (current_time <~ time_time ;;
       if Rlt_dec 5 (current_time - last_heartbeat w) then
         heartbeat <~ recv_match (mkRecvCall HEARTBEAT false None) ;;
         match heartbeat with
         | Py.Ok (Some _) =>
             _ <~ set_last_heartbeat current_time ;; ret true
         | Py.Ok None => ret false
         | Py.Raise _ => ret false
         end
       else ret true) w.

(** [safe_mavlink_receive(connection, msg_type, timeout)]: an exception
    of the blocking receive yields [None]. *)
Definition safe_mavlink_receive (ty : MsgType) (tmo : R) : M (option Msg) :=
  r <~ recv_match (mkRecvCall ty true (Some tmo)) ;;
  ret (Py.try_except r (fun _ => None)).

(** [msg.airspeed], [msg.groundspeed]: an [AttributeError] on a message
    of another type. *)
Definition msg_airspeed (m : Msg) : Py.t (option R) :=
  match m with
  | VfrHud a _ => Py.Ok a
  | _ => Py.Raise Py.AttributeError
  end.

Definition msg_groundspeed (m : Msg) : Py.t (option R) :=
  match m with
  | VfrHud _ g => Py.Ok g
  | _ => Py.Raise Py.AttributeError
  end.

(** The part of [get_speed_data] after the message arrived, inside its
    [try] block. *)
Definition speed_of_msg (m : Msg) : Py.t (option SpeedData) :=
  a <- msg_airspeed m ;;
  g <- msg_groundspeed m ;;
  if fst (validate_mavlink_data a g) then
    match a, g with
    | Some a', Some g' => s <- SpeedData_new a' g' ;; Py.Ok (Some s)
    | _, _ => Py.Raise Py.ValueError
    end
  else Py.Ok None.

(** [FlightDataCollector.get_speed_data] *)
Definition get_speed_data (tmo : R) : M (option SpeedData) :=
  ok <~ check_connection ;;
  if negb ok then ret None
  else
    msg <~ safe_mavlink_receive VFR_HUD tmo ;;
    match msg with
    | None => ret None
    | Some m => ret (Py.try_except (speed_of_msg m) (fun _ => None))
    end.

(** The unit conversion and construction of [get_position_data]. *)
Definition position_of_msg (m : Msg) : Py.t (option Position) :=
  match m with
  | GlobalPositionInt lat lon alt =>
      p <- Position_new (IZR lat / 1e7) (IZR lon / 1e7) (IZR alt / 1000) ;;
      Py.Ok (Some p)
  | _ => Py.Raise Py.AttributeError
  end.

(** [FlightDataCollector.get_position_data] *)
Definition get_position_data (tmo : R) : M (option Position) :=
  ok <~ check_connection ;;
  if negb ok then ret None
  else
    msg <~ safe_mavlink_receive GLOBAL_POSITION_INT tmo ;;
    match msg with
    | None => ret None
    | Some m => ret (Py.try_except (position_of_msg m) (fun _ => None))
    end.

(** [FlightDataCollector.get_complete_flight_data]; no step of its [try]
    block raises, the two pulls catch their own exceptions. *)
Definition get_complete_flight_data (tmo : R) : M (option FlightData) :=
  start_time <~ time_time ;;
  let half_timeout := tmo / 2 in
  pos <~ get_position_data half_timeout ;;
  match pos with
  | None => ret None
  | Some p =>
      now <~ time_time ;;
      let elapsed := now - start_time in
      let remaining_timeout := tmo - elapsed in
      if Rle_dec remaining_timeout 0 then ret None
      else
        spd <~ get_speed_data remaining_timeout ;;
        match spd with
        | None => ret None
        | Some sp =>
            stamp <~ time_time ;;
            ret (Some (mkFlightData p sp stamp 0 0 0))
        end
  end.

End Collector.

(** *** Reading the trace *)

(** [w'] has the trace of [w] followed by calls that all satisfy [P]. *)
Definition appended (P : RecvCall -> Prop) (w w' : World) : Prop :=
  exists l, calls w' = (calls w ++ l)%list /\ Forall P l.

(** A call a pull may make: a heartbeat check, or the blocking receive of
    the wanted type with the given timeout. *)
Definition pull_call (ty : MsgType) (tmo : R) (c : RecvCall) : Prop :=
  msg_type c = HEARTBEAT \/ c = mkRecvCall ty true (Some tmo).

End Mav.

(** ** quick_bomb_calc.py, on binary64 floats *)

Module Quick.

Import F64 Engine.

(** The dictionary [quick_bomb_calculation] returns: the one of the
    solver, or the three-key dictionary of its handler, whose
    [error_code] is the string 'EXCEPTION'. *)
Inductive QuickResult : Type :=
| FromSolver (r : Result)
| ExceptionResult (e : Py.Exc).

(** The body of the [try] block of [quick_bomb_calculation]. *)
Definition quick_try (libm : Libm)
    (aircraft_lat aircraft_lon aircraft_alt
     target_lat target_lon target_alt airspeed groundspeed : float)
  : Py.t Result :=
  _ <- BombReleaseCalculator_init ;;
  aircraft_pos <- Position_new aircraft_lat aircraft_lon aircraft_alt ;;
  target_pos <- Position_new target_lat target_lon target_alt ;;
  speed_data <- SpeedData_new airspeed groundspeed ;;
  Py.Ok (calculate_release_point libm aircraft_pos target_pos speed_data).

Definition quick_bomb_calculation (libm : Libm)
    (aircraft_lat aircraft_lon aircraft_alt
     target_lat target_lon target_alt airspeed groundspeed : float)
  : QuickResult :=
  match quick_try libm aircraft_lat aircraft_lon aircraft_alt
                  target_lat target_lon target_alt airspeed groundspeed with
  | Py.Ok r => FromSolver r
  | Py.Raise e => ExceptionResult e
  end.

(** [result['success']] *)
Definition quick_success (q : QuickResult) : bool :=
  match q with
  | FromSolver r => success r
  | ExceptionResult _ => false
  end.

End Quick.

(** ** mavlink_integration.py: session life cycle and controller *)

Module Ctl.

Import Calc Mav.

(** What [mavutil.mavlink_connection] and [wait_heartbeat] did in one
    [connect]: the first raised, the second raised, the second returned
    nothing, or a heartbeat arrived. *)
Inductive ConnectReply : Type :=
| OpenFailed
| WaitFailed
| NoHeartbeat
| HeartbeatSeen.

Definition set_session (conn connected : bool) : M unit :=
  fun w => (tt, mkWorld (clock_reads w) conn connected (last_heartbeat w)
                        (calls w)).

Section Session.

Variable env : Env.

(** [FlightData.is_valid] *)
Definition is_valid (fd : FlightData) : M bool :=
  bind (time_time env) (fun current_time =>
  ret (if Rlt_dec (current_time - timestamp fd) 5 then true else false)).

(** [MAVLinkConnection.connect]; [available] is [MAVLINK_AVAILABLE]. *)
Definition connect (available : bool) (reply : ConnectReply) (tmo : R)
  : M bool :=
  fun w =>
    if negb available then (false, w)
    else
      match reply with
      | OpenFailed =>
          bind (set_session (connection w) false) (fun _ => ret false) w
      | WaitFailed =>
          bind (set_session true false) (fun _ => ret false) w
      | NoHeartbeat =>
          bind (set_session true (is_connected w)) (fun _ => ret false) w
      | HeartbeatSeen =>
          bind (set_session true true) (fun _ =>
          bind (time_time env) (fun now =>
          bind (set_last_heartbeat now) (fun _ => ret true))) w
      end.

(** [MAVLinkConnection.disconnect]: whatever [close()] does, the
    [finally] clause clears the session. *)
Definition disconnect : M unit :=
  fun w =>
    if connection w then set_session false false w else (tt, w).

(** The texts of the controller's own failures. *)
Inductive Refusal : Type :=
| NotConnected
| NoFlightData
| StaleFlightData.

(** The dictionary [calculate_bomb_release] returns: its own, with
    [success] false, [CALCULATION_ERROR], a message and the timestamp
    taken at entry, or the dictionary of the solver. *)
Inductive ControllerResult : Type :=
| Refused (why : Refusal) (stamp : R)
| Computed (r : Result).

(** An item of [calculation_history]. *)
Record HistoryEntry : Type := mkHistoryEntry {
  entry_timestamp : R;
  entry_flight_data : FlightData;
  entry_target_pos : Position;
  entry_result : Result
}.

(** [BombReleaseController]: the session, [last_calculation] and
    [calculation_history]. *)
Record Controller : Type := mkController {
  session : World;
  last_calculation : option Result;
  calculation_history : list HistoryEntry
}.

(** [history.append(e)] followed by
    [if len(history) > 10: history.pop(0)]. *)
Definition record_entry (history : list HistoryEntry) (e : HistoryEntry)
  : list HistoryEntry :=
  let appended := (history ++ [e])%list in
  if Nat.ltb 10 (List.length appended) then List.tl appended else appended.

(** [BombReleaseController.calculate_bomb_release]; nothing in its [try]
    block raises, every callee catches its own exceptions. *)
Definition calculate_bomb_release (target_pos : Position) (c : Controller)
  : ControllerResult * Controller :=
  let (stamp, w0) := time_time env (session c) in
  let (ok, w1) := check_connection env w0 in
  if negb ok then
    (Refused NotConnected stamp,
     mkController w1 (last_calculation c) (calculation_history c))
  else
    let (flight_data, w2) := get_complete_flight_data env 10 w1 in
    match flight_data with
    | None =>
        (Refused NoFlightData stamp,
         mkController w2 (last_calculation c) (calculation_history c))
    | Some fd =>
        let (valid, w3) := is_valid fd w2 in
        if negb valid then
          (Refused StaleFlightData stamp,
           mkController w3 (last_calculation c) (calculation_history c))
        else
          let calc_result :=
            calculate_release_point (position fd) target_pos (speed fd) in
          let (now, w4) := time_time env w3 in
          (Computed calc_result,
           mkController w4 (Some calc_result)
             (record_entry (calculation_history c)
                (mkHistoryEntry now fd target_pos calc_result)))
    end.

(** A control loop: one [calculate_bomb_release] per target, in order. *)
Fixpoint calculate_all (targets : list Position) (c : Controller)
  : list ControllerResult * Controller :=
  match targets with
  | [] => ([], c)
  | t :: rest =>
      let (r, c1) := calculate_bomb_release t c in
      let (rs, c2) := calculate_all rest c1 in
      (r :: rs, c2)
  end.

(** [BombReleaseController.cleanup] *)
Definition cleanup (c : Controller) : Controller :=
  mkController (snd (disconnect (session c))) (last_calculation c)
               (calculation_history c).

End Session.

(** An entry of the history is consistent when its result is the one the
    solver gives for its flight data and its target. *)
Definition entry_consistent (e : HistoryEntry) : Prop :=
  entry_result e
  = calculate_release_point (position (entry_flight_data e))
      (entry_target_pos e) (speed (entry_flight_data e)).

(** The number of requests that reached the solver. *)
Definition computed_count (rs : list ControllerResult) : nat :=
  List.length (List.filter (fun r => match r with
                                     | Computed _ => true
                                     | Refused _ _ => false
                                     end) rs).

(** [BombReleaseController(connection_string)]: a fresh session; the
    clock and the trace of the process go on. *)
Definition new_controller (w : World) : Controller :=
  mkController (mkWorld (clock_reads w) false false 0 (calls w)) None [].

End Ctl.

(** ** bomb_release_service.py: choosing a connection *)

Module Svc.

Import Calc Mav Ctl.

(** The [mavlink_settings] the function reads; a missing key is [None]. *)
Record MavlinkSettings : Type := mkMavlinkSettings {
  default_connection : option string;
  alternative_connections : option (list string);
  connection_timeout : option R
}.

(** The list [connect_mavlink] builds from the settings. *)
Definition connection_list (cfg : MavlinkSettings) : list string :=
  (match default_connection cfg with
   | Some s => s
   | None => "/dev/ttyUSB0"%string
   end)
  :: match alternative_connections cfg with
     | Some l => l
     | None => []
     end.

(** The settings of [get_default_config]. *)
Definition default_settings : MavlinkSettings :=
  mkMavlinkSettings (Some "/dev/ttyUSB0"%string)
    (Some ["/dev/ttyAMA0"; "/dev/ttyS0"; "udp:127.0.0.1:14550"]%string)
    (Some 10).

Section Service.

Variable env : Env.

(** What the transport answers to the [connect] of the n-th attempt, on
    its connection string. *)
Variable reply : nat -> string -> ConnectReply.

(** The [for] loop of [connect_mavlink], from attempt [n] on: the
    controller of each attempt replaces the previous one; the first
    successful [connect] returns.  The result carries the connection
    string of the controller. *)
Fixpoint try_connections (tmo : R) (n : nat) (connections : list string)
    (current : option (string * Controller)) (w : World)
  : bool * option (string * Controller) * World :=
  match connections with
  | [] => (false, current, w)
  | cs :: rest =>
      let c := new_controller w in
      let (ok, w') := connect env true (reply n cs) tmo (session c) in
      let c' := mkController w' (last_calculation c) (calculation_history c) in
      if ok then (true, Some (cs, c'), w')
      else try_connections tmo (S n) rest (Some (cs, c')) w'
  end.

(** [LinuxBombReleaseService.connect_mavlink]; [available] is the
    [MAVLINK_AVAILABLE] of the service module. *)
Definition connect_mavlink (available : bool) (cfg : MavlinkSettings)
    (current : option (string * Controller)) (w : World)
  : bool * option (string * Controller) * World :=
  if negb available then (false, current, w)
  else
    try_connections
      (match connection_timeout cfg with Some t => t | None => 10 end)
      0 (connection_list cfg) current w.

(** The fields of [LinuxBombReleaseService] the solution request uses:
    the controller (with its connection string) and [last_calculation],
    a time, the target as given and the result. *)
Record Service : Type := mkService {
  controller : option (string * Controller);
  service_last_calculation : option (R * (R * R * R) * ControllerResult)
}.

(** [LinuxBombReleaseService.calculate_bombing_solution]: [None] without
    a controller, and [None] from the handler when the target cannot be
    constructed. *)
Definition calculate_bombing_solution (target_lat target_lon target_alt : R)
    (s : Service) : option ControllerResult * Service :=
  match controller s with
  | None => (None, s)
  | Some (cs, c) =>
      match Position_new target_lat target_lon target_alt with
      | Py.Raise _ => (None, s)
      | Py.Ok target_pos =>
          let (result, c1) := calculate_bomb_release env target_pos c in
          let (now, w) := time_time env (session c1) in
          (Some result,
           mkService
             (Some (cs, mkController w (last_calculation c1)
                          (calculation_history c1)))
             (Some (now, (target_lat, target_lon, target_alt), result)))
      end
  end.

End Service.

End Svc.

(** ** example_usage.py: the calculation log *)

Module Log.

(** The log file when [save_calculation_log] is called: it does not
    exist; it cannot be read as a JSON list (it cannot be opened, its
    text is not a JSON document, or the document is not a list); or it
    holds a list of JSON values. *)
Inductive LogFile (J : Type) : Type :=
| Missing
| Unreadable
| Entries (logs : list J).
Arguments Missing {J}.
Arguments Unreadable {J}.
Arguments Entries {J} logs.

(** [logs[-n:]] *)
Definition last_n {J : Type} (n : nat) (logs : list J) : list J :=
  List.skipn (List.length logs - n) logs.

Section Save.

(** The JSON values and the Python entries; [encode] is the JSON encoder
    on the new entry: [None] where [json.dump] raises a [TypeError], as it
    does on a dictionary that holds a member of an [Enum]. *)
Variables J A : Type.
Variable encode : A -> option J.

(** The entries a file counts for: none when it is missing. *)
Definition entries_of (file : LogFile J) : list J :=
  match file with
  | Entries old => old
  | Missing | Unreadable => []
  end.

(** [save_calculation_log]: the file after the call.  [writable] is
    whether [open(filename, 'w')] succeeds.  The file is truncated when it
    is opened; [json.dump] then writes the list entry by entry, the new
    entry last, so when the new entry is refused the file is left with
    the text written so far, which is not a JSON document.  Every
    exception ends in the handler of the outer [try], which only prints. *)
Definition save_calculation_log (writable : bool) (file : LogFile J)
    (log_entry : A) : LogFile J :=
  match file with
  | Unreadable => Unreadable
  | Missing | Entries _ =>
      if writable then
        match encode log_entry with
        | Some j =>
            let logs := (entries_of file ++ [j])%list in
            Entries (if Nat.ltb 50 (List.length logs) then last_n 50 logs
                     else logs)
        | None => Unreadable
        end
      else file
  end.

End Save.

End Log.

(** ** servo-control.py *)

Module Servo.

(** What the program does to the outside, in order. *)
Inductive Event : Type :=
| PrintUsage
| Open (port : string) (baud : Z)
| PrintWaiting
| WaitHeartbeat (tmo : Z)
| PrintConnected
| SetServo (channel pwm : Z)
| PrintSent (channel pwm : Z)
| Sleep
| PrintArgumentError
| PrintError
| Close
| PrintEnd.

(** How a call on the link ended. *)
Inductive CallResult : Type :=
| Returned
| RaisedValueError
| RaisedOther.

(** The environment of one run: [int(text)] ([None] for the [ValueError]
    of a text that is no integer) and the end of each call on the link. *)
Record Env : Type := mkEnv {
  int_of : string -> option Z;
  open_result : CallResult;
  wait_result : CallResult;
  send_result : CallResult;
  close_result : CallResult
}.

Definition serial_port : string := "/dev/ttyACM0".
Definition baud_rate : Z := 57600.
Definition servo_channel : Z := 9.

(** How a block ended: normally, or with an exception that is a
    [ValueError] or not. *)
Definition ended (r : CallResult) : option bool :=
  match r with
  | Returned => None
  | RaisedValueError => Some true
  | RaisedOther => Some false
  end.

(** The [try] block of [main], up to its first exception: the events,
    whether the variable [vehicle] got bound, and how the block ended. *)
Definition main_try (env : Env) (arg : string)
  : list Event * bool * option bool :=
  match int_of env arg with
  | None => ([], false, Some true)
  | Some pwm_value =>
      if negb (Z.leb 1300 pwm_value && Z.leb pwm_value 1900) then
        ([], false, Some true)
      else
        match open_result env with
        | Returned =>
            match wait_result env with
            | Returned =>
                match send_result env with
                | Returned =>
                    ([Open serial_port baud_rate; PrintWaiting;
                      WaitHeartbeat 10; PrintConnected;
                      SetServo servo_channel pwm_value;
                      PrintSent servo_channel pwm_value; Sleep],
                     true, None)
                | r =>
                    ([Open serial_port baud_rate; PrintWaiting;
                      WaitHeartbeat 10; PrintConnected;
                      SetServo servo_channel pwm_value],
                     true, ended r)
                end
            | r =>
                ([Open serial_port baud_rate; PrintWaiting;
                  WaitHeartbeat 10], true, ended r)
            end
        | r => ([Open serial_port baud_rate], false, ended r)
        end
  end.

(** [main()] with [sys.argv = argv]: the events, and whether an
    exception left [main] (only [close()] in the [finally] clause can do
    that). *)
Definition main (env : Env) (argv : list string) : list Event * bool :=
  match argv with
  | [_; arg] =>
      let '(events, bound, how) := main_try env arg in
      let handled :=
        (events
         ++ match how with
            | None => []
            | Some true => [PrintArgumentError]
            | Some false => [PrintError]
            end)%list in
      if bound then
        match close_result env with
        | Returned => ((handled ++ [Close; PrintEnd])%list, false)
        | _ => ((handled ++ [Close])%list, true)
        end
      else ((handled ++ [PrintEnd])%list, false)
  | _ => ([PrintUsage], false)
  end.

End Servo.

(** ** The ballistic model in the words of the specification

    Kept apart from the embedding of the code, to be compared with it.
    The arithmetic is binary64, as the code's; 9.81, 1.2 and 0.8 stand by
    their binary64 values. *)

Module Spec.

Local Open Scope float_scope.

(** The free-fall time and the cruise time, and the reconciliation of the
    two. *)
Definition spec_fall_time (height : float) : float :=
  PrimFloat.sqrt (2 * height / 0x1.39eb851eb851fp+3).
Definition spec_cruise_time (distance velocity : float) : float :=
  distance / PrimFloat.abs velocity.
Definition spec_pre_drag_time (height distance velocity : float) : float :=
  if 0x1.3333333333333p+0 * spec_fall_time height
     <? spec_cruise_time distance velocity
  then spec_fall_time height
  else F64.max (spec_cruise_time distance velocity)
               (0x1.999999999999ap-1 * spec_fall_time height).

End Spec.

(** ** Inputs of the worked runs *)

Module Runs.

Import Calc Mav.

(** The aircraft on the equator at longitude 0 and 490.5 m, the target
    0.01 degree east on the ground; their distance on the sphere. *)
Definition run_aircraft : Position := mkPosition 0 0 490.5.
Definition run_target : Position := mkPosition 0 0.01 0.
Definition run_distance : R := EARTH_RADIUS * ((0.01 - 0) * (PI / 180)).


(** A transport that answers every receive with a message of the type
    asked for. *)
Definition answering_link (n : nat) (c : RecvCall) : Reply :=
  match msg_type c with
  | HEARTBEAT => Received Heartbeat
  | VFR_HUD => Received (VfrHud (Some 50) (Some 45))
  | GLOBAL_POSITION_INT => Received (GlobalPositionInt 0 0 490500)
  end.

(** The position report arrives 12 s after the start. *)
Definition slow_env : Env :=
  mkEnv (fun n => match n with O => 0 | S _ => 12 end) answering_link.

(** Every reading of the clock is one second after the previous one. *)
Definition fast_env : Env :=
  mkEnv (fun n => match n with
                  | 0%nat => 0 | 1%nat => 1 | 2%nat => 2 | 3%nat => 3
                  | _ => 4
                  end)
        answering_link.

(** A connected session with the given last heartbeat and an empty
    trace. *)
Definition live_world (heartbeat : R) : World :=
  mkWorld 0 true true heartbeat [].

(** The same two positions on binary64 (490.5 and 0.01 by their binary64
    values), and the values of the C library at the arguments the distance
    and the bearing of the two positions need: [sin] and [cos] at 0, at
    the difference of the longitudes in radians and at its half, [asin]
    at the square root of the haversine term, [atan2] at the two
    components of the bearing; [x ** 2] is the rounded product, which it
    is at the speeds and the sines of these runs.  Other arguments are
    not asked for in these runs; the table raises there. *)
Definition run_aircraft_f64 : F64.Position :=
  F64.mkPosition 0 0 0x1.ea8p+8.
Definition run_target_f64 : F64.Position :=
  F64.mkPosition 0 0x1.47ae147ae147bp-7 0.

Definition table (entries : list (float * float)) (x : float) : Py.t float :=
  match find (fun e => PrimFloat.Leibniz.eqb (fst e) x) entries with
  | Some e => Py.Ok (snd e)
  | None => Py.Raise Py.ValueError
  end.

Definition run_libm : Engine.Libm :=
  Engine.mkLibm
    (fun x y =>
       if PrimFloat.Leibniz.eqb y 2%float then F64.pow2 x
       else Py.Raise Py.ValueError)
    (table [ (0, 0);
             (0x1.6e05a695f8191p-14, 0x1.6e05a68e2cc96p-14);
             (0x1.6e05a695f8191p-13, 0x1.6e05a676cada7p-13) ]%float)
    (table [ (0, 1);
             (0x1.6e05a695f8191p-13, 0x1.ffffff7d2af5fp-1) ]%float)
    (table [ (0x1.6e05a68e2cc96p-14, 0x1.6e05a695f8191p-14) ]%float)
    (fun y x =>
       if PrimFloat.Leibniz.eqb y 0x1.6e05a676cada7p-13%float
          && PrimFloat.Leibniz.eqb x 0%float
       then Py.Ok 0x1.921fb54442d18p+0%float
       else Py.Raise Py.ValueError).

End Runs.

(** * Proofs *)

Import Calc Spec Runs.

(** ** The partial functions inside their domains *)

Section PyFacts.

Lemma Py_div_ok (a b : R) : b <> 0 -> Py.div a b = Py.Ok (a / b).
Proof.
  intros Hb. unfold Py.div. destruct (Req_dec_T b 0); [contradiction | reflexivity].
Qed.

Lemma Py_sqrt_ok (x : R) : 0 <= x -> Py.sqrt x = Py.Ok (sqrt x).
Proof.
  intros Hx. unfold Py.sqrt. destruct (Rlt_dec x 0); [lra | reflexivity].
Qed.

Lemma Py_asin_ok (x : R) : -1 <= x <= 1 -> Py.asin x = Py.Ok (asin x).
Proof.
  intros [Hl Hu]. unfold Py.asin.
  destruct (Rle_dec (-1) x); [| lra].
  destruct (Rle_dec x 1); [reflexivity | lra].
Qed.

Lemma gravity_pos : 0 < GRAVITY.
Proof. unfold GRAVITY. lra. Qed.

End PyFacts.

(** ** Order and signs on binary64 *)

Section FloatFacts.

Import SpecFloat.
Local Open Scope float_scope.

Lemma SFcompare_antisym (x y : spec_float) :
  SFcompare y x = option_map CompOpp (SFcompare x y).
Proof.
  destruct x as [sx | sx | | sx mx ex], y as [sy | sy | | sy my ey];
    cbn; try reflexivity;
    try (destruct sx; reflexivity); try (destruct sy; reflexivity);
    try (destruct sx, sy; reflexivity).
  change (PosDef.Pos.compare_cont Eq) with Pos.compare.
  rewrite (Z.compare_antisym ex ey), (Pos.compare_antisym mx my).
  destruct sx, sy; cbn; try reflexivity;
    destruct (ex ?= ey)%Z; cbn; try reflexivity;
    destruct (mx ?= my)%positive; reflexivity.
Qed.

Lemma SFcompare_refl (x : spec_float) :
  x <> S754_nan -> SFcompare x x = Some Eq.
Proof.
  destruct x as [s | s | | s m e]; cbn; intros H;
    try reflexivity; try (destruct s; reflexivity); try congruence.
  rewrite Z.compare_refl.
  change (PosDef.Pos.compare_cont Eq) with Pos.compare.
  rewrite Pos.compare_refl. destruct s; reflexivity.
Qed.

Lemma SFcompare_none (x y : spec_float) :
  SFcompare x y = None <-> x = S754_nan \/ y = S754_nan.
Proof.
  destruct x as [sx | sx | | sx mx ex], y as [sy | sy | | sy my ey];
    cbn; split; intros H; try discriminate; auto;
    destruct H; discriminate.
Qed.

Lemma is_nan_SF (x : float) : is_nan x = true <-> Prim2SF x = S754_nan.
Proof.
  unfold is_nan. rewrite FloatAxioms.eqb_spec. unfold SFeqb.
  split.
  - intros H. destruct (Prim2SF x) eqn:E; try reflexivity;
      rewrite SFcompare_refl in H by discriminate; discriminate.
  - intros ->. reflexivity.
Qed.

(** A comparison with a NaN is false. *)
Lemma nan_compares_false (x y : float) :
  is_nan x = true \/ is_nan y = true ->
  (x <? y) = false /\ (x <=? y) = false /\ (x =? y) = false.
Proof.
  intros H.
  rewrite FloatAxioms.ltb_spec, FloatAxioms.leb_spec, FloatAxioms.eqb_spec.
  unfold SFltb, SFleb, SFeqb.
  assert (E : SFcompare (Prim2SF x) (Prim2SF y) = None).
  { apply SFcompare_none. destruct H as [H | H]; apply is_nan_SF in H; auto. }
  rewrite E. auto.
Qed.

Lemma ltb_leb_false (x y : float) : (x <? y) = true -> (y <=? x) = false.
Proof.
  rewrite FloatAxioms.ltb_spec, FloatAxioms.leb_spec. unfold SFltb, SFleb.
  rewrite (SFcompare_antisym (Prim2SF x) (Prim2SF y)).
  destruct (SFcompare (Prim2SF x) (Prim2SF y)) as [[]|]; cbn; congruence.
Qed.




Lemma leb_false_ltb (x y : float) :
  (x <=? y) = false -> is_nan x = false -> is_nan y = false ->
  (y <? x) = true.
Proof.
  rewrite FloatAxioms.ltb_spec, FloatAxioms.leb_spec. unfold SFltb, SFleb.
  intros H Hx Hy.
  rewrite (SFcompare_antisym (Prim2SF x) (Prim2SF y)).
  destruct (SFcompare (Prim2SF x) (Prim2SF y)) as [[]|] eqn:E;
    cbn; try congruence.
  apply SFcompare_none in E.
  destruct E as [E | E]; apply is_nan_SF in E; congruence.
Qed.

Lemma leb_not_nan (x y : float) :
  (x <=? y) = true -> is_nan x = false /\ is_nan y = false.
Proof.
  intros H.
  destruct (is_nan x) eqn:Hx.
  { destruct (nan_compares_false x y (or_introl Hx)) as (_ & E & _).
    congruence. }
  destruct (is_nan y) eqn:Hy.
  { destruct (nan_compares_false x y (or_intror Hy)) as (_ & E & _).
    congruence. }
  auto.
Qed.

Lemma eqb_leb (x y : float) : (x =? y) = true -> (x <=? y) = true.
Proof.
  rewrite FloatAxioms.eqb_spec, FloatAxioms.leb_spec. unfold SFeqb, SFleb.
  destruct (SFcompare (Prim2SF x) (Prim2SF y)) as [[]|]; congruence.
Qed.



Lemma leb_zero_false_nonzero (x : float) :
  (x <=? 0) = false -> (x =? 0) = false.
Proof.
  intros H. destruct (x =? 0) eqn:E; [| reflexivity].
  apply eqb_leb in E. congruence.
Qed.

(** *** Signs *)

Lemma nonneg_SF (x : float) : (x <? 0) = false <-> F64.SF_nonneg (Prim2SF x).
Proof.
  rewrite FloatAxioms.ltb_spec. unfold SFltb.
  change (Prim2SF 0) with (S754_zero false).
  destruct (Prim2SF x) as [s | s | | s m e]; cbn;
    try (destruct s; cbn); intuition discriminate.
Qed.

Lemma binary_round_aux_nonneg (m e : Z) (l : location) :
  F64.SF_nonneg (binary_round_aux prec emax false m e l).
Proof.
  unfold binary_round_aux.
  destruct (shr_fexp prec emax m e l) as [mrs' e'].
  destruct (shr_fexp prec emax _ e' loc_Exact) as [mrs'' e''].
  destruct (shr_m mrs''); cbn; auto.
  destruct (_ <=? _)%Z; cbn; auto.
Qed.

Lemma mul_nonneg (x y : float) :
  (x <? 0) = false -> (y <? 0) = false -> (x * y <? 0) = false.
Proof.
  rewrite !nonneg_SF, FloatAxioms.mul_spec. unfold SF64mul, SFmul.
  destruct (Prim2SF x) as [sx | sx | | sx mx ex],
           (Prim2SF y) as [sy | sy | | sy my ey]; cbn; auto;
    try (destruct sx; cbn; auto; fail);
    try (destruct sy; cbn; auto; fail);
    try (destruct sx, sy; cbn; auto; fail).
  destruct sx, sy; cbn; try tauto. intros _ _.
  apply binary_round_aux_nonneg.
Qed.

Lemma pos_SF (x : float) :
  (0 <? x) = true ->
  match Prim2SF x with
  | S754_infinity false | S754_finite false _ _ => True
  | _ => False
  end.
Proof.
  rewrite FloatAxioms.ltb_spec. unfold SFltb.
  change (Prim2SF 0) with (S754_zero false).
  destruct (Prim2SF x) as [s | s | | s m e]; cbn;
    try (destruct s; cbn); intuition discriminate.
Qed.

Lemma div_nonneg (x y : float) :
  (x <? 0) = false -> (0 <? y) = true -> (x / y <? 0) = false.
Proof.
  intros Hx Hy. apply pos_SF in Hy. revert Hx Hy.
  rewrite !nonneg_SF, FloatAxioms.div_spec. unfold SF64div, SFdiv.
  destruct (Prim2SF x) as [sx | sx | | sx mx ex],
           (Prim2SF y) as [sy | sy | | sy my ey]; cbn; auto;
    try (destruct sx, sy; cbn; tauto).
  destruct sx, sy; cbn; try tauto. intros _ _.
  destruct (SFdiv_core_binary prec emax (Z.pos mx) ex (Z.pos my) ey)
    as [[mz ez] lz].
  apply binary_round_aux_nonneg.
Qed.




(** *** NaN

    There is one NaN, and every operation with it gives it. *)
Lemma is_nan_eq (x : float) : is_nan x = true -> x = nan.
Proof.
  intros H. apply is_nan_SF in H. apply Prim2SF_inj. now rewrite H.
Qed.

Lemma add_nan_l (x : float) : nan + x = nan.
Proof.
  apply Prim2SF_inj. rewrite FloatAxioms.add_spec.
  change (Prim2SF nan) with S754_nan. reflexivity.
Qed.

Lemma mul_nan_l (x : float) : nan * x = nan.
Proof.
  apply Prim2SF_inj. rewrite FloatAxioms.mul_spec.
  change (Prim2SF nan) with S754_nan. reflexivity.
Qed.

Lemma div_nan_r (x : float) : x / nan = nan.
Proof.
  apply Prim2SF_inj. rewrite FloatAxioms.div_spec.
  change (Prim2SF nan) with S754_nan.
  destruct (Prim2SF x); reflexivity.
Qed.

Lemma leb_zero_false_nonneg (x : float) : (x <=? 0) = false -> (x <? 0) = false.
Proof.
  rewrite FloatAxioms.ltb_spec, FloatAxioms.leb_spec. unfold SFltb, SFleb.
  destruct (SFcompare (Prim2SF x) (Prim2SF 0)) as [[]|]; congruence.
Qed.

End FloatFacts.


(** ** WindEstimator *)

Section WindFacts.

Lemma wind_effect_try_ok (a g b : R) :
  wind_effect_try a g b
  = Py.Ok (Rabs (a - g), if Rlt_dec g a then PI else 0).
Proof.
  unfold wind_effect_try. rewrite cos_0.
  rewrite Py_sqrt_ok; [reflexivity |].
  replace (a ^ 2 + g ^ 2 - 2 * a * g * 1) with ((a - g) ^ 2) by ring.
  apply pow2_ge_0.
Qed.

(** In exact arithmetic the wind estimate is [|airspeed - groundspeed|]
    with relative angle [PI] when airspeed > groundspeed and [0]
    otherwise; the [try] body never raises, so the default of the handler
    is never returned; the bearing has no influence. *)
Lemma calculate_wind_effect_exact :
  forall airspeed groundspeed bearing : R,
    (exists r, wind_effect_try airspeed groundspeed bearing = Py.Ok r)
    /\ fst (calculate_wind_effect airspeed groundspeed bearing)
       = Rabs (airspeed - groundspeed)
    /\ snd (calculate_wind_effect airspeed groundspeed bearing)
       = (if Rlt_dec groundspeed airspeed then PI else 0)
    /\ (forall bearing' : R,
          calculate_wind_effect airspeed groundspeed bearing'
          = calculate_wind_effect airspeed groundspeed bearing).
Proof.
  intros a g b. unfold calculate_wind_effect.
  split; [| split; [| split]].
  - eexists. apply wind_effect_try_ok.
  - rewrite wind_effect_try_ok. reflexivity.
  - rewrite wind_effect_try_ok. reflexivity.
  - intros b'. rewrite !wind_effect_try_ok. reflexivity.
Qed.

(** On floats the same body behaves as in exact arithmetic at the speeds
    of the test suite: airspeed 50, groundspeed 45 gives a headwind of
    5 m/s. *)
Lemma wind_effect_f64_50_45 (bearing : float) :
  F64.calculate_wind_effect 50%float 45%float bearing = (5%float, F64.pi).
Proof. vm_compute. reflexivity. Qed.

(** C8 fails on the code: at airspeed 45.00000011 (the binary64 value
    0x1.6800000ec3924p+5) and groundspeed 45.0, both positive, the
    expression under the discarded square root rounds to -2^-41, so
    [math.sqrt] raises and the handler returns [(0.0, 0.0)]; the claim
    gives the wind speed [|airspeed - groundspeed|], about 1.1e-07, and,
    the airspeed being the larger, the relative angle pi. *)
Theorem wind_effect_default_on_rounding :
  forall bearing : float,
    let airspeed := 0x1.6800000ec3924p+5%float in
    let groundspeed := 45%float in
    PrimFloat.ltb 0%float airspeed = true
    /\ PrimFloat.ltb 0%float groundspeed = true
    /\ F64.law_of_cosines airspeed groundspeed = Py.Ok (-0x1p-41)%float
    /\ F64.wind_effect_try airspeed groundspeed bearing
       = Py.Raise Py.ValueError
    /\ F64.calculate_wind_effect airspeed groundspeed bearing
       = (0%float, 0%float)
    /\ PrimFloat.ltb groundspeed airspeed = true
    /\ PrimFloat.abs (PrimFloat.sub airspeed groundspeed)
       = 0x1.d87248p-24%float.
Proof.
  intros bearing. cbv zeta.
  repeat (split; [vm_compute; reflexivity |]).
  vm_compute. reflexivity.
Qed.

End WindFacts.

(** ** BallisticModel *)

Section BallisticFacts.

Lemma flight_time_before_check_eval (iv h d w : R) :
  0 < h ->
  1e-10 <= Rabs (effective_horizontal_velocity iv w) ->
  flight_time_before_check iv h d w
  = Py.Ok (Some (reconcile
                   (d / Rabs (effective_horizontal_velocity iv w))
                   (sqrt (2 * h / GRAVITY)))).
Proof.
  intros Hh Hv. unfold flight_time_before_check.
  pose proof gravity_pos as Hg.
  rewrite Py_div_ok by lra. cbn [Py.bind].
  rewrite Py_sqrt_ok.
  2:{ apply Rlt_le, Rdiv_lt_0_compat; lra. }
  cbn [Py.bind]. unfold Py.abs.
  destruct (Rlt_dec _ 1e-10) as [Hlt | _]; [lra |].
  rewrite Py_div_ok by lra. reflexivity.
Qed.

Lemma ballistic_eval (iv h d w : R) :
  0 < h -> 0 < d ->
  1e-10 <= Rabs (effective_horizontal_velocity iv w) ->
  calculate_ballistic_trajectory iv h d w
  = (let ft := reconcile (d / Rabs (effective_horizontal_velocity iv w))
                         (sqrt (2 * h / GRAVITY)) in
     if unreasonable ft then None else Some (ft * 1.1)).
Proof.
  intros Hh Hd Hv.
  unfold calculate_ballistic_trajectory, ballistic_trajectory_try.
  destruct (Rle_dec h 0); [lra |].
  destruct (Rle_dec d 0); [lra |].
  rewrite flight_time_before_check_eval by assumption.
  cbn [Py.bind Py.try_except].
  destruct (unreasonable _); reflexivity.
Qed.








End BallisticFacts.

(** ** Geodesy *)

Section GeodesyFacts.

Lemma clamp_unit_range (a : R) : 0 <= clamp_unit a <= 1.
Proof.
  unfold clamp_unit.
  destruct (Rlt_dec 1 a); [lra |].
  destruct (Rlt_dec a 0); lra.
Qed.

Lemma clamp_unit_inside (a : R) : 0 <= a <= 1 -> clamp_unit a = a.
Proof.
  intros H. unfold clamp_unit.
  destruct (Rlt_dec 1 a); [lra |].
  destruct (Rlt_dec a 0); [lra | reflexivity].
Qed.



Lemma sqrt_unit (a : R) : 0 <= a <= 1 -> 0 <= sqrt a <= 1.
Proof.
  intros [H0 H1]. split; [apply sqrt_pos |].
  rewrite <- sqrt_1. apply sqrt_le_1; lra.
Qed.


Lemma haversine_a_same (lat lon : R) : haversine_a lat lon lat lon = 0.
Proof.
  unfold haversine_a. cbv zeta.
  replace ((lat - lat) / 2) with 0 by field.
  replace ((lon - lon) / 2) with 0 by field.
  rewrite sin_0. ring.
Qed.

Lemma distance_and_bearing_eq (pos1 pos2 : Position) :
  calculate_distance_and_bearing pos1 pos2
  = Py.Ok (haversine_distance pos1 pos2, initial_bearing pos1 pos2).
Proof.
  unfold calculate_distance_and_bearing, distance_and_bearing_try,
    haversine_distance, initial_bearing.
  cbv zeta.
  set (a := clamp_unit _).
  pose proof (clamp_unit_range
                (haversine_a (Py.radians (latitude pos1))
                   (Py.radians (longitude pos1))
                   (Py.radians (latitude pos2))
                   (Py.radians (longitude pos2)))) as Ha.
  fold a in Ha.
  rewrite Py_sqrt_ok by lra. cbn [Py.bind].
  pose proof (sqrt_unit a Ha) as Hs.
  rewrite Py_asin_ok by lra. cbn [Py.bind].
  reflexivity.
Qed.



Lemma haversine_distance_same (pos : Position) : haversine_distance pos pos = 0.
Proof.
  unfold haversine_distance.
  rewrite haversine_a_same, clamp_unit_inside by lra.
  rewrite sqrt_0, asin_0. ring.
Qed.



End GeodesyFacts.

(** ** ReleaseSolver *)

Section SolverFacts.

Lemma calculate_wind_effect_eq (a g b : R) :
  calculate_wind_effect a g b = (Rabs (a - g), if Rlt_dec g a then PI else 0).
Proof.
  unfold calculate_wind_effect. now rewrite wind_effect_try_ok.
Qed.

(** The solve with the distance, the bearing and the wind estimate
    resolved: what remains are the guards, in the order of the source. *)
Lemma release_point_unfold (a t : Position) (s : SpeedData) :
  calculate_release_point a t s
  = if Rlt_dec (altitude a) MIN_RELEASE_HEIGHT then
      update_error initial_result INVALID_COORDINATES
        (MsgAltitudeTooLow (altitude a) MIN_RELEASE_HEIGHT)
    else
      let d := haversine_distance a t in
      let w := Rabs (airspeed s - groundspeed s) in
      if Rlt_dec MAX_REASONABLE_DISTANCE d then
        update_error initial_result TARGET_TOO_FAR
          (MsgTargetTooFar d MAX_REASONABLE_DISTANCE)
      else
        match calculate_ballistic_trajectory
                (groundspeed s) (altitude a - altitude t) d w with
        | None => update_error initial_result CALCULATION_ERROR MsgNoTrajectory
        | Some ft =>
            if Rlt_dec (d * 2) (groundspeed s * ft) then
              update_error initial_result NUMERICAL_INSTABILITY
                (MsgUnstable (groundspeed s * ft))
            else if Req_dec_T (groundspeed s) 0 then
              update_error initial_result CALCULATION_ERROR
                (MsgException Py.ZeroDivisionError)
            else if Rlt_dec ((d - groundspeed s * ft) / groundspeed s) 0 then
              update_error initial_result CALCULATION_ERROR MsgWindowMissed
            else
              update_success initial_result
                ((d - groundspeed s * ft) / groundspeed s)
                (groundspeed s * ft) ft w
                [ ("target_distance"%string, d);
                  ("target_bearing"%string,
                   Py.degrees (initial_bearing a t));
                  ("wind_angle"%string,
                   Py.degrees
                     (if Rlt_dec (groundspeed s) (airspeed s)
                      then PI else 0));
                  ("aircraft_altitude"%string, altitude a);
                  ("target_altitude"%string, altitude t);
                  ("altitude_difference"%string, altitude a - altitude t) ]
        end.
Proof.
  unfold calculate_release_point, release_point_try.
  destruct (Rlt_dec (altitude a) MIN_RELEASE_HEIGHT); [reflexivity |].
  rewrite distance_and_bearing_eq. cbn [Py.bind]. cbv zeta.
  destruct (Rlt_dec MAX_REASONABLE_DISTANCE _); [reflexivity |].
  rewrite calculate_wind_effect_eq.
  destruct (calculate_ballistic_trajectory _ _ _ _) as [ft |];
    [| reflexivity].
  destruct (Rlt_dec _ (groundspeed s * ft)); [reflexivity |].
  unfold Py.div.
  destruct (Req_dec_T (groundspeed s) 0); [reflexivity |].
  cbn [Py.bind].
  destruct (Rlt_dec _ 0); reflexivity.
Qed.

(** The [try] body raises only on a zero groundspeed. *)
Lemma release_point_try_ok (a t : Position) (s : SpeedData) :
  groundspeed s <> 0 ->
  release_point_try initial_result a t s
  = Py.Ok (calculate_release_point a t s).
Proof.
  intros Hg.
  unfold calculate_release_point, release_point_try.
  destruct (Rlt_dec (altitude a) MIN_RELEASE_HEIGHT); [reflexivity |].
  rewrite distance_and_bearing_eq. cbn [Py.bind].
  destruct (Rlt_dec MAX_REASONABLE_DISTANCE _); [reflexivity |].
  rewrite calculate_wind_effect_eq.
  destruct (calculate_ballistic_trajectory _ _ _ _) as [ft |];
    [| reflexivity].
  destruct (Rlt_dec _ (groundspeed s * ft)); [reflexivity |].
  rewrite Py_div_ok by assumption. cbn [Py.bind].
  destruct (Rlt_dec _ 0); reflexivity.
Qed.

(** Case analysis of a solve along its guards. *)
Ltac solve_cases a t s :=
  let ft := fresh "ft" in
  let Hft := fresh "Hft" in
  rewrite (release_point_unfold a t s); cbv zeta;
  destruct (Rlt_dec (altitude a) MIN_RELEASE_HEIGHT) as [Halt | Halt];
  [ | destruct (Rlt_dec MAX_REASONABLE_DISTANCE (haversine_distance a t))
        as [Hfar | Hfar];
      [ | destruct (calculate_ballistic_trajectory
                      (groundspeed s) (altitude a - altitude t)
                      (haversine_distance a t)
                      (Rabs (airspeed s - groundspeed s)))
            as [ft |] eqn:Hft;
          [ destruct (Rlt_dec (haversine_distance a t * 2)
                              (groundspeed s * ft)) as [Hbig | Hbig];
            [ | destruct (Req_dec_T (groundspeed s) 0) as [Hgs | Hgs];
                [ | destruct (Rlt_dec ((haversine_distance a t
                                        - groundspeed s * ft)
                                       / groundspeed s) 0)
                      as [Hneg | Hneg] ] ]
          | ] ] ].

Lemma constructed_speed_pos (s : SpeedData) :
  SpeedData_post_init s = Py.Ok tt -> 0 < airspeed s /\ 0 < groundspeed s.
Proof.
  unfold SpeedData_post_init.
  destruct (Rle_dec (airspeed s) 0); [discriminate |].
  destruct (Rle_dec (groundspeed s) 0); [discriminate |].
  intros _. lra.
Qed.

Lemma speed_constructed (a g : R) :
  0 < a -> 0 < g -> SpeedData_post_init (mkSpeedData a g) = Py.Ok tt.
Proof.
  intros Ha Hg. unfold SpeedData_post_init, speed_ratio.
  cbn [airspeed groundspeed].
  destruct (Rle_dec a 0); [lra |].
  destruct (Rle_dec g 0); [lra |].
  rewrite Py_div_ok; [reflexivity |].
  unfold Py.max. pose proof (Rmax_l a g). lra.
Qed.

Lemma constructed_position_range (p : Position) :
  Position_post_init p = Py.Ok tt ->
  -90 <= latitude p <= 90 /\ -180 <= longitude p <= 180 /\ 0 <= altitude p.
Proof.
  unfold Position_post_init.
  repeat match goal with
         | |- context [Rle_dec ?x ?y] => destruct (Rle_dec x y)
         | |- context [Rlt_dec ?x ?y] => destruct (Rlt_dec x y)
         end; try discriminate.
  intros _. lra.
Qed.

Lemma position_constructed (lat lon alt : R) :
  -90 <= lat <= 90 -> -180 <= lon <= 180 -> 0 <= alt ->
  Position_post_init (mkPosition lat lon alt) = Py.Ok tt.
Proof.
  intros Hlat Hlon Halt. unfold Position_post_init.
  cbn [latitude longitude altitude].
  repeat match goal with
         | |- context [Rle_dec ?x ?y] => destruct (Rle_dec x y)
         | |- context [Rlt_dec ?x ?y] => destruct (Rlt_dec x y)
         end; try lra; reflexivity.
Qed.

(** *** The exits of a solve, one lemma each *)

Lemma solve_below_altitude (a t : Position) (s : SpeedData) :
  altitude a < MIN_RELEASE_HEIGHT ->
  calculate_release_point a t s
  = update_error initial_result INVALID_COORDINATES
      (MsgAltitudeTooLow (altitude a) MIN_RELEASE_HEIGHT).
Proof.
  intros H. solve_cases a t s; [reflexivity | contradiction ..].
Qed.

Lemma solve_too_far (a t : Position) (s : SpeedData) :
  ~ altitude a < MIN_RELEASE_HEIGHT ->
  MAX_REASONABLE_DISTANCE < haversine_distance a t ->
  calculate_release_point a t s
  = update_error initial_result TARGET_TOO_FAR
      (MsgTargetTooFar (haversine_distance a t) MAX_REASONABLE_DISTANCE).
Proof.
  intros H1 H2. solve_cases a t s; try contradiction. reflexivity.
Qed.

Lemma solve_no_trajectory (a t : Position) (s : SpeedData) :
  ~ altitude a < MIN_RELEASE_HEIGHT ->
  ~ MAX_REASONABLE_DISTANCE < haversine_distance a t ->
  calculate_ballistic_trajectory (groundspeed s) (altitude a - altitude t)
    (haversine_distance a t) (Rabs (airspeed s - groundspeed s)) = None ->
  calculate_release_point a t s
  = update_error initial_result CALCULATION_ERROR MsgNoTrajectory.
Proof.
  intros H1 H2 H3. solve_cases a t s; try contradiction; try discriminate.
  reflexivity.
Qed.

Lemma solve_unstable (a t : Position) (s : SpeedData) (ft : R) :
  ~ altitude a < MIN_RELEASE_HEIGHT ->
  ~ MAX_REASONABLE_DISTANCE < haversine_distance a t ->
  calculate_ballistic_trajectory (groundspeed s) (altitude a - altitude t)
    (haversine_distance a t) (Rabs (airspeed s - groundspeed s)) = Some ft ->
  haversine_distance a t * 2 < groundspeed s * ft ->
  calculate_release_point a t s
  = update_error initial_result NUMERICAL_INSTABILITY
      (MsgUnstable (groundspeed s * ft)).
Proof.
  intros H1 H2 H3 H4.
  solve_cases a t s; try contradiction; try discriminate;
    injection H3 as ->; try contradiction.
  reflexivity.
Qed.

Lemma solve_window_missed (a t : Position) (s : SpeedData) (ft : R) :
  ~ altitude a < MIN_RELEASE_HEIGHT ->
  ~ MAX_REASONABLE_DISTANCE < haversine_distance a t ->
  calculate_ballistic_trajectory (groundspeed s) (altitude a - altitude t)
    (haversine_distance a t) (Rabs (airspeed s - groundspeed s)) = Some ft ->
  ~ haversine_distance a t * 2 < groundspeed s * ft ->
  groundspeed s <> 0 ->
  (haversine_distance a t - groundspeed s * ft) / groundspeed s < 0 ->
  calculate_release_point a t s
  = update_error initial_result CALCULATION_ERROR MsgWindowMissed.
Proof.
  intros H1 H2 H3 H4 H5 H6.
  solve_cases a t s; try contradiction; try discriminate;
    injection H3 as ->; try contradiction.
  reflexivity.
Qed.

Lemma solve_success (a t : Position) (s : SpeedData) (ft : R) :
  ~ altitude a < MIN_RELEASE_HEIGHT ->
  ~ MAX_REASONABLE_DISTANCE < haversine_distance a t ->
  calculate_ballistic_trajectory (groundspeed s) (altitude a - altitude t)
    (haversine_distance a t) (Rabs (airspeed s - groundspeed s)) = Some ft ->
  ~ haversine_distance a t * 2 < groundspeed s * ft ->
  groundspeed s <> 0 ->
  ~ (haversine_distance a t - groundspeed s * ft) / groundspeed s < 0 ->
  success (calculate_release_point a t s) = true
  /\ release_time (calculate_release_point a t s)
     = Some ((haversine_distance a t - groundspeed s * ft) / groundspeed s)
  /\ release_distance (calculate_release_point a t s)
     = Some (groundspeed s * ft)
  /\ flight_time (calculate_release_point a t s) = Some ft.
Proof.
  intros H1 H2 H3 H4 H5 H6.
  solve_cases a t s; try contradiction; try discriminate;
    injection H3 as ->; try contradiction.
  cbn. auto.
Qed.

(** *** Two positions on the equator *)

Lemma equator_distance (lon1 lon2 alt1 alt2 : R) :
  0 <= lon2 - lon1 <= 180 ->
  haversine_distance (mkPosition 0 lon1 alt1) (mkPosition 0 lon2 alt2)
  = EARTH_RADIUS * ((lon2 - lon1) * (PI / 180)).
Proof.
  intros Hlon. unfold haversine_distance, haversine_a, Py.radians.
  cbn [latitude longitude]. cbv zeta.
  set (x := (lon2 * (PI / 180) - lon1 * (PI / 180)) / 2).
  replace ((0 * (PI / 180) - 0 * (PI / 180)) / 2) with 0 by field.
  replace (0 * (PI / 180)) with 0 by ring.
  rewrite sin_0, cos_0.
  replace (0 ^ 2 + 1 * 1 * sin x ^ 2) with (sin x ^ 2) by ring.
  pose proof PI_RGT_0 as Hpi.
  assert (Hx : 0 <= x <= PI / 2).
  { unfold x. split.
    - apply Rmult_le_reg_r with 2; [lra |].
      replace ((lon2 * (PI / 180) - lon1 * (PI / 180)) / 2 * 2)
        with ((lon2 - lon1) * (PI / 180)) by field.
      rewrite Rmult_0_l. apply Rmult_le_pos; lra.
    - apply Rmult_le_reg_r with 2; [lra |].
      replace ((lon2 * (PI / 180) - lon1 * (PI / 180)) / 2 * 2)
        with ((lon2 - lon1) * (PI / 180)) by field.
      replace (PI / 2 * 2) with (180 * (PI / 180)) by field.
      apply Rmult_le_compat_r; lra. }
  assert (Hs : 0 <= sin x) by (apply sin_ge_0; lra).
  assert (Hs1 : sin x <= 1) by apply SIN_bound.
  rewrite clamp_unit_inside.
  2:{ split; [apply pow2_ge_0 |].
      replace 1 with (1 ^ 2) by ring. apply pow_incr. lra. }
  rewrite sqrt_pow2 by assumption.
  rewrite asin_sin by lra.
  unfold x. field.
Qed.

(** *** The ballistic model where one of the two times decides *)

Lemma ballistic_fall_limited (iv h d w vt : R) :
  0 < h -> 0 < d ->
  1e-10 <= Rabs (effective_horizontal_velocity iv w) ->
  sqrt (2 * h / GRAVITY) = vt ->
  vt * 1.2 < d / Rabs (effective_horizontal_velocity iv w) ->
  0 < vt <= 60 ->
  calculate_ballistic_trajectory iv h d w = Some (vt * 1.1).
Proof.
  intros Hh Hd Hv Hvt Hlt Hr.
  rewrite ballistic_eval by assumption. cbv zeta. rewrite Hvt.
  unfold reconcile. destruct (Rlt_dec _ _) as [_ | Hn]; [| contradiction].
  unfold unreasonable.
  destruct (Rle_dec vt 0); [lra |].
  destruct (Rlt_dec 60 vt); [lra | reflexivity].
Qed.

Lemma ballistic_cruise_limited (iv h d w vt : R) :
  0 < h -> 0 < d ->
  1e-10 <= Rabs (effective_horizontal_velocity iv w) ->
  sqrt (2 * h / GRAVITY) = vt ->
  vt * 0.8 <= d / Rabs (effective_horizontal_velocity iv w) <= vt * 1.2 ->
  0 < d / Rabs (effective_horizontal_velocity iv w) <= 60 ->
  calculate_ballistic_trajectory iv h d w
  = Some (d / Rabs (effective_horizontal_velocity iv w) * 1.1).
Proof.
  intros Hh Hd Hv Hvt Hb Hr.
  rewrite ballistic_eval by assumption. cbv zeta. rewrite Hvt.
  unfold reconcile, Py.max.
  destruct (Rlt_dec _ _) as [Hlt | _]; [lra |].
  rewrite Rmax_left by lra.
  unfold unreasonable.
  destruct (Rle_dec _ 0); [lra |].
  destruct (Rlt_dec 60 _); [lra | reflexivity].
Qed.

Lemma ballistic_floor_limited (iv h d w vt : R) :
  0 < h -> 0 < d ->
  1e-10 <= Rabs (effective_horizontal_velocity iv w) ->
  sqrt (2 * h / GRAVITY) = vt ->
  d / Rabs (effective_horizontal_velocity iv w) <= vt * 0.8 ->
  0 < vt * 0.8 <= 60 ->
  calculate_ballistic_trajectory iv h d w = Some (vt * 0.8 * 1.1).
Proof.
  intros Hh Hd Hv Hvt Hb Hr.
  rewrite ballistic_eval by assumption. cbv zeta. rewrite Hvt.
  unfold reconcile, Py.max.
  destruct (Rlt_dec _ _) as [Hlt | _]; [lra |].
  rewrite Rmax_right by lra.
  unfold unreasonable.
  destruct (Rle_dec _ 0); [lra |].
  destruct (Rlt_dec 60 _); [lra | reflexivity].
Qed.

Lemma ballistic_no_height (iv h d w : R) :
  h <= 0 -> calculate_ballistic_trajectory iv h d w = None.
Proof.
  intros Hh. unfold calculate_ballistic_trajectory, ballistic_trajectory_try.
  destruct (Rle_dec h 0); [reflexivity | contradiction].
Qed.

(** *** Runs of the solver on the equator

    The aircraft at longitude 0 and 490.5 m, the target 0.01 degree east
    on the ground: the distance is [6371000 * 0.01 * PI / 180], between
    1061 m and 1416 m, and the free fall takes 10 s. *)

Lemma run_distance_eq : haversine_distance run_aircraft run_target = run_distance.
Proof. apply equator_distance. lra. Qed.

Lemma run_distance_range : 1061 < run_distance < 1416.
Proof.
  unfold run_distance, EARTH_RADIUS.
  pose proof PI2_3_2. pose proof PI_4. lra.
Qed.

Lemma run_fall_time : sqrt (2 * (490.5 - 0) / GRAVITY) = 10.
Proof.
  unfold GRAVITY.
  replace (2 * (490.5 - 0) / 9.81) with (10 * 10) by lra.
  apply sqrt_square. lra.
Qed.

Lemma run_positions_constructed :
  Position_post_init run_aircraft = Py.Ok tt
  /\ Position_post_init run_target = Py.Ok tt.
Proof. split; apply position_constructed; lra. Qed.

(** Airspeed 50, groundspeed 45: a release in about 13 to 20 s. *)
Lemma run_solved_ballistic :
  calculate_ballistic_trajectory 45 (490.5 - 0) run_distance (Rabs (50 - 45))
  = Some (10 * 1.1).
Proof.
  pose proof run_distance_range as Hd.
  assert (Hv : Rabs (effective_horizontal_velocity 45 (Rabs (50 - 45))) = 50).
  { unfold effective_horizontal_velocity.
    rewrite (Rabs_right (50 - 45)) by lra. rewrite Rabs_right; lra. }
  apply ballistic_fall_limited; rewrite ?Hv; try lra.
  apply run_fall_time.
Qed.

Lemma run_solved :
  success (calculate_release_point run_aircraft run_target
             (mkSpeedData 50 45)) = true.
Proof.
  pose proof run_distance_range as Hd.
  eapply solve_success; cbn [altitude groundspeed airspeed run_aircraft
                               run_target];
    rewrite ?run_distance_eq.
  - unfold MIN_RELEASE_HEIGHT. lra.
  - unfold MAX_REASONABLE_DISTANCE. lra.
  - apply run_solved_ballistic.
  - lra.
  - lra.
  - lra.
Qed.

(** Airspeed and groundspeed 120: the cruise time decides, the standoff
    distance is 1.1 times the distance and the release point is behind
    the aircraft. *)
Lemma run_missed_ballistic :
  calculate_ballistic_trajectory 120 (490.5 - 0) run_distance
    (Rabs (120 - 120))
  = Some (run_distance / 120 * 1.1).
Proof.
  pose proof run_distance_range as Hd.
  assert (Hv : Rabs (effective_horizontal_velocity 120 (Rabs (120 - 120)))
               = 120).
  { unfold effective_horizontal_velocity.
    rewrite (Rabs_right (120 - 120)) by lra. rewrite Rabs_right; lra. }
  rewrite (ballistic_cruise_limited 120 (490.5 - 0) run_distance
             (Rabs (120 - 120)) 10); rewrite ?Hv; try lra.
  - reflexivity.
  - apply run_fall_time.
Qed.

Lemma run_missed :
  calculate_release_point run_aircraft run_target (mkSpeedData 120 120)
  = update_error initial_result CALCULATION_ERROR MsgWindowMissed.
Proof.
  pose proof run_distance_range as Hd.
  eapply solve_window_missed;
    cbn [altitude groundspeed airspeed run_aircraft run_target];
    rewrite ?run_distance_eq.
  - unfold MIN_RELEASE_HEIGHT. lra.
  - unfold MAX_REASONABLE_DISTANCE. lra.
  - apply run_missed_ballistic.
  - lra.
  - lra.
  - lra.
Qed.

(** The target one degree east, more than 106 km away. *)
Lemma run_too_far (s : SpeedData) :
  outcome (calculate_release_point run_aircraft (mkPosition 0 1 0) s)
  = TargetOutOfRange.
Proof.
  rewrite solve_too_far; [reflexivity | |]; unfold run_aircraft.
  - cbn [altitude]. unfold MIN_RELEASE_HEIGHT. lra.
  - rewrite equator_distance by lra.
    unfold MAX_REASONABLE_DISTANCE, EARTH_RADIUS.
    pose proof PI2_3_2. lra.
Qed.

(** The target 0.001 degree east, between 106 m and 142 m away: the
    floor of 0.8 fall times decides, and the standoff distance of 396 m
    is more than twice the distance. *)
Lemma run_unstable :
  outcome (calculate_release_point run_aircraft (mkPosition 0 0.001 0)
             (mkSpeedData 50 45))
  = NumericallyUnstable.
Proof.
  assert (Hd : haversine_distance run_aircraft (mkPosition 0 0.001 0)
               = EARTH_RADIUS * ((0.001 - 0) * (PI / 180))).
  { apply equator_distance. lra. }
  assert (Hr : 106 < EARTH_RADIUS * ((0.001 - 0) * (PI / 180)) < 142).
  { unfold EARTH_RADIUS. pose proof PI2_3_2. pose proof PI_4. lra. }
  assert (Hv : Rabs (effective_horizontal_velocity 45 (Rabs (50 - 45))) = 50).
  { unfold effective_horizontal_velocity.
    rewrite (Rabs_right (50 - 45)) by lra. rewrite Rabs_right; lra. }
  rewrite (solve_unstable _ _ _ (10 * 0.8 * 1.1)); [reflexivity | | | |];
    cbn [altitude groundspeed airspeed run_aircraft]; rewrite ?Hd.
  - unfold MIN_RELEASE_HEIGHT. lra.
  - unfold MAX_REASONABLE_DISTANCE. lra.
  - apply ballistic_floor_limited; rewrite ?Hv; try lra.
    apply run_fall_time.
  - lra.
Qed.

(** Aircraft and target at the same place and height: no fall, no
    trajectory. *)
Lemma run_no_trajectory :
  calculate_release_point (mkPosition 0 0 100) (mkPosition 0 0 100)
    (mkSpeedData 50 45)
  = update_error initial_result CALCULATION_ERROR MsgNoTrajectory.
Proof.
  apply solve_no_trajectory; cbn [altitude groundspeed airspeed];
    rewrite ?haversine_distance_same.
  - unfold MIN_RELEASE_HEIGHT. lra.
  - unfold MAX_REASONABLE_DISTANCE. lra.
  - apply ballistic_no_height. lra.
Qed.

(** *** The claims about the solver *)

(** C5: the solve fails as [BelowMinimumAltitude] (error code
    [INVALID_COORDINATES], message "altitude too low") exactly when the
    altitude of the aircraft is strictly below 50 m; at exactly 50 m the
    check passes; and the check comes before the range check: with the
    altitude below 50 m and the target beyond 50000 m the outcome is
    [BelowMinimumAltitude], not [TargetOutOfRange]. *)
Theorem below_minimum_altitude_iff :
  forall (aircraft_pos target_pos : Position) (speed_data : SpeedData),
    let r := calculate_release_point aircraft_pos target_pos speed_data in
    (outcome r = BelowMinimumAltitude <-> altitude aircraft_pos < 50)
    /\ (error_code r = INVALID_COORDINATES <-> altitude aircraft_pos < 50)
    /\ (altitude aircraft_pos = 50 -> outcome r <> BelowMinimumAltitude)
    /\ (forall d b,
          calculate_distance_and_bearing aircraft_pos target_pos
          = Py.Ok (d, b) ->
          altitude aircraft_pos < 50 -> 50000 < d ->
          outcome r = BelowMinimumAltitude /\ outcome r <> TargetOutOfRange).
Proof.
  intros a t s r.
  assert (Ho : outcome r = BelowMinimumAltitude <-> altitude a < 50).
  { subst r. unfold outcome.
    solve_cases a t s; unfold MIN_RELEASE_HEIGHT in Halt; cbn;
      split; intros H; try discriminate; try lra; reflexivity. }
  assert (Hc : error_code r = INVALID_COORDINATES <-> altitude a < 50).
  { subst r.
    solve_cases a t s; unfold MIN_RELEASE_HEIGHT in Halt; cbn;
      split; intros H; try discriminate; try lra; reflexivity. }
  split; [exact Ho |]. split; [exact Hc |]. split.
  - intros H50 H. apply Ho in H. lra.
  - intros d b _ Hlow _. apply Ho in Hlow. rewrite Hlow.
    split; [reflexivity | discriminate].
Qed.

(** The two boundary runs of the specification: 50 m passes the altitude
    check, 49.999 m does not. *)
Lemma altitude_boundary_runs (lat lon : R) (t : Position) (s : SpeedData) :
  outcome (calculate_release_point (mkPosition lat lon 50) t s)
  <> BelowMinimumAltitude
  /\ outcome (calculate_release_point (mkPosition lat lon 49.999) t s)
     = BelowMinimumAltitude.
Proof.
  split.
  - unfold outcome.
    solve_cases (mkPosition lat lon 50) t s;
      unfold MIN_RELEASE_HEIGHT in Halt; cbn in *; try discriminate; lra.
  - rewrite solve_below_altitude; [reflexivity |].
    cbn. unfold MIN_RELEASE_HEIGHT. lra.
Qed.

(** An input that violates both conditions: 10 m high, one degree of
    longitude (more than 106 km) from the target. *)
Lemma run_low_and_far (s : SpeedData) :
  altitude (mkPosition 0 0 10) < 50
  /\ 50000 < haversine_distance (mkPosition 0 0 10) (mkPosition 0 1 0)
  /\ outcome (calculate_release_point (mkPosition 0 0 10) (mkPosition 0 1 0) s)
     = BelowMinimumAltitude.
Proof.
  split; [cbn; lra |]. split.
  - rewrite equator_distance by lra. unfold EARTH_RADIUS.
    pose proof PI2_3_2. lra.
  - rewrite solve_below_altitude; [reflexivity |].
    cbn. unfold MIN_RELEASE_HEIGHT. lra.
Qed.

(** Every result carries the error code of its outcome. *)
Lemma error_code_of_outcome (a t : Position) (s : SpeedData) :
  error_code (calculate_release_point a t s)
  = outcome_code (outcome (calculate_release_point a t s)).
Proof.
  unfold outcome. solve_cases a t s; reflexivity.
Qed.

(** C6, as stated, fails: a solve that ends as [TrajectoryUnresolvable]
    and a solve that ends as [ReleaseWindowMissed], both on constructed
    inputs, report the same error code [CALCULATION_ERROR]. *)
Lemma two_outcomes_one_error_code :
  let r1 := calculate_release_point (mkPosition 0 0 100) (mkPosition 0 0 100)
              (mkSpeedData 50 45) in
  let r2 := calculate_release_point run_aircraft run_target
              (mkSpeedData 120 120) in
  Position_post_init (mkPosition 0 0 100) = Py.Ok tt
  /\ SpeedData_post_init (mkSpeedData 50 45) = Py.Ok tt
  /\ Position_post_init run_aircraft = Py.Ok tt
  /\ Position_post_init run_target = Py.Ok tt
  /\ SpeedData_post_init (mkSpeedData 120 120) = Py.Ok tt
  /\ outcome r1 = TrajectoryUnresolvable
  /\ outcome r2 = ReleaseWindowMissed
  /\ outcome r1 <> outcome r2
  /\ error_code r1 = CALCULATION_ERROR
  /\ error_code r2 = CALCULATION_ERROR
  /\ error_code r1 = error_code r2.
Proof.
  cbv zeta.
  split; [apply position_constructed; lra |].
  split; [apply speed_constructed; lra |].
  split; [apply run_positions_constructed |].
  split; [apply run_positions_constructed |].
  split; [apply speed_constructed; lra |].
  rewrite run_no_trajectory, run_missed. cbn.
  repeat split; try reflexivity. discriminate.
Qed.

(** C6, amended: the five domain-bound failures are reported through four
    error codes: [INVALID_COORDINATES] for [BelowMinimumAltitude],
    [TARGET_TOO_FAR] for [TargetOutOfRange], [NUMERICAL_INSTABILITY] for
    [NumericallyUnstable], and [CALCULATION_ERROR] for both
    [TrajectoryUnresolvable] and [ReleaseWindowMissed], which only the
    message tells apart; no other two of the five share a code, none
    carries [SUCCESS] or [INVALID_SPEED], and two results with different
    outcomes always differ in their success flag or their message.  The
    construction-time errors are raised as [ValueError] by the
    constructors and never reach a result dictionary. *)
Theorem failure_codes :
  forall (aircraft_pos target_pos : Position) (speed_data : SpeedData),
    let r := calculate_release_point aircraft_pos target_pos speed_data in
    error_code r = outcome_code (outcome r)
    /\ (forall o1 o2,
          domain_failure o1 = true -> domain_failure o2 = true ->
          o1 <> o2 -> outcome_code o1 = outcome_code o2 ->
          (o1 = TrajectoryUnresolvable /\ o2 = ReleaseWindowMissed)
          \/ (o1 = ReleaseWindowMissed /\ o2 = TrajectoryUnresolvable))
    /\ (forall o,
          domain_failure o = true ->
          outcome_code o <> SUCCESS /\ outcome_code o <> INVALID_SPEED)
    /\ (forall r1 r2 : Result,
          outcome r1 <> outcome r2 ->
          success r1 <> success r2 \/ message r1 <> message r2)
    /\ (forall lat lon alt,
          Position_new lat lon alt = Py.Ok (mkPosition lat lon alt)
          \/ Position_new lat lon alt = Py.Raise Py.ValueError)
    /\ (forall a g,
          SpeedData_new a g = Py.Ok (mkSpeedData a g)
          \/ SpeedData_new a g = Py.Raise Py.ValueError).
Proof.
  intros a t s r. subst r.
  split; [apply error_code_of_outcome |].
  split.
  { intros o1 o2 H1 H2 Hne Heq.
    destruct o1, o2; cbn in *; try discriminate; try congruence; auto. }
  split.
  { intros o Ho. destruct o; cbn in *; try discriminate;
      split; discriminate. }
  split.
  { intros r1 r2 Hne.
    destruct (Bool.bool_dec (success r1) (success r2)) as [Hs | Hs];
      [| left; exact Hs].
    right. intros Hm. apply Hne. unfold outcome. now rewrite Hs, Hm. }
  split.
  { intros lat lon alt. unfold Position_new.
    destruct (Position_post_init (mkPosition lat lon alt)) as [[] | e] eqn:H;
      [left; reflexivity | right].
    unfold Position_post_init in H.
    repeat match type of H with
           | context [Rle_dec ?x ?y] => destruct (Rle_dec x y)
           | context [Rlt_dec ?x ?y] => destruct (Rlt_dec x y)
           end; try discriminate; injection H as <-; reflexivity. }
  intros a0 g0. unfold SpeedData_new, SpeedData_post_init, speed_ratio.
  cbn [airspeed groundspeed].
  destruct (Rle_dec a0 0); [right; reflexivity |].
  destruct (Rle_dec g0 0); [right; reflexivity |].
  rewrite Py_div_ok; [left; reflexivity |].
  unfold Py.max. pose proof (Rmax_l a0 g0). lra.
Qed.

(** C10: for constructed positions and speeds the [try] body of
    [calculate_release_point] never raises, so the function returns the
    dictionary the body built; and when that result is a failure, the
    fields [release_time], [release_distance], [flight_time] and
    [wind_speed] are still [None] and [calculations] is still empty. *)
Theorem failure_leaks_nothing :
  forall (aircraft_pos target_pos : Position) (speed_data : SpeedData),
    Position_post_init aircraft_pos = Py.Ok tt ->
    Position_post_init target_pos = Py.Ok tt ->
    SpeedData_post_init speed_data = Py.Ok tt ->
    let r := calculate_release_point aircraft_pos target_pos speed_data in
    release_point_try initial_result aircraft_pos target_pos speed_data
    = Py.Ok r
    /\ (success r = false ->
        release_time r = None /\ release_distance r = None
        /\ flight_time r = None /\ wind_speed r = None
        /\ calculations r = []).
Proof.
  intros a t s _ _ Hs r. subst r.
  apply constructed_speed_pos in Hs. split.
  - apply release_point_try_ok. lra.
  - solve_cases a t s; cbn; intros H; try discriminate; auto.
Qed.

Lemma failure_leaks_nothing_witness :
  success (calculate_release_point (mkPosition 0 0 10) (mkPosition 0 1 0)
             (mkSpeedData 50 45)) = false
  /\ release_time (calculate_release_point (mkPosition 0 0 10)
                     (mkPosition 0 1 0) (mkSpeedData 50 45)) = None
  /\ calculations (calculate_release_point (mkPosition 0 0 10)
                     (mkPosition 0 1 0) (mkSpeedData 50 45)) = [].
Proof.
  assert (Hf : success (calculate_release_point (mkPosition 0 0 10)
                          (mkPosition 0 1 0) (mkSpeedData 50 45)) = false).
  { rewrite solve_below_altitude; [reflexivity |].
    cbn. unfold MIN_RELEASE_HEIGHT. lra. }
  split; [exact Hf |].
  destruct (failure_leaks_nothing (mkPosition 0 0 10) (mkPosition 0 1 0)
              (mkSpeedData 50 45)
              (position_constructed 0 0 10 ltac:(lra) ltac:(lra) ltac:(lra))
              (position_constructed 0 1 0 ltac:(lra) ltac:(lra) ltac:(lra))
              (speed_constructed 50 45 ltac:(lra) ltac:(lra)))
    as [_ H].
  destruct (H Hf) as (H1 & _ & _ & _ & H5). auto.
Defined.

End SolverFacts.

(** ** TelemetrySource *)

Section TelemetryFacts.

Import Mav.

Variable env : Env.

Lemma appended_refl (P : RecvCall -> Prop) (w w' : World) :
  calls w' = calls w -> appended P w w'.
Proof.
  intros H. exists []. rewrite app_nil_r. split; [exact H | constructor].
Qed.

Lemma appended_trans (P : RecvCall -> Prop) (w1 w2 w3 : World) :
  appended P w1 w2 -> appended P w2 w3 -> appended P w1 w3.
Proof.
  intros (l1 & H1 & F1) (l2 & H2 & F2). exists (l1 ++ l2)%list.
  rewrite H2, H1, app_assoc. split; [reflexivity |].
  apply Forall_app. split; assumption.
Qed.

Lemma appended_weaken (P Q : RecvCall -> Prop) (w w' : World) :
  (forall c, P c -> Q c) -> appended P w w' -> appended Q w w'.
Proof.
  intros HPQ (l & H & F). exists l. split; [exact H |].
  eapply Forall_impl; eauto.
Qed.

Lemma appended_one (P : RecvCall -> Prop) (w w' : World) (c : RecvCall) :
  calls w' = (calls w ++ [c])%list -> P c -> appended P w w'.
Proof.
  intros H Hc. exists [c]. split; [exact H | repeat constructor; exact Hc].
Qed.

Lemma time_time_calls (w : World) : calls (snd (time_time env w)) = calls w.
Proof. reflexivity. Qed.

Lemma check_connection_appended (w : World) :
  appended (fun c => msg_type c = HEARTBEAT) w (snd (check_connection env w)).
Proof.
  unfold check_connection.
  destruct (negb (is_connected w) || negb (connection w));
    [now apply appended_refl |].
  unfold bind, time_time.
  destruct (Rlt_dec 5 _); [| now apply appended_refl].
  unfold recv_match. cbn.
  destruct (link env _ _) as [m | |]; cbn;
    (eapply appended_one; [reflexivity | reflexivity]).
Qed.

Lemma heartbeat_pull_call (ty : MsgType) (tmo : R) (c : RecvCall) :
  msg_type c = HEARTBEAT -> pull_call ty tmo c.
Proof. intros H. left. exact H. Qed.

Lemma get_position_data_appended (tmo : R) (w : World) :
  appended (pull_call GLOBAL_POSITION_INT tmo) w
           (snd (get_position_data env tmo w)).
Proof.
  unfold get_position_data, bind.
  pose proof (check_connection_appended w) as Hc.
  apply (appended_weaken _ _ _ _ (heartbeat_pull_call GLOBAL_POSITION_INT tmo))
    in Hc.
  destruct (check_connection env w) as [ok w1]. cbn [snd] in Hc.
  destruct ok; cbn [negb]; [| exact Hc].
  unfold safe_mavlink_receive, bind, recv_match, ret.
  eapply appended_trans; [exact Hc |].
  destruct (link env _ _) as [m | |]; cbn;
    (eapply appended_one; [reflexivity | right; reflexivity]).
Qed.

Lemma get_speed_data_appended (tmo : R) (w : World) :
  appended (pull_call VFR_HUD tmo) w (snd (get_speed_data env tmo w)).
Proof.
  unfold get_speed_data, bind.
  pose proof (check_connection_appended w) as Hc.
  apply (appended_weaken _ _ _ _ (heartbeat_pull_call VFR_HUD tmo)) in Hc.
  destruct (check_connection env w) as [ok w1]. cbn [snd] in Hc.
  destruct ok; cbn [negb]; [| exact Hc].
  unfold safe_mavlink_receive, bind, recv_match, ret.
  eapply appended_trans; [exact Hc |].
  destruct (link env _ _) as [m | |]; cbn;
    (eapply appended_one; [reflexivity | right; reflexivity]).
Qed.

(** C7: [get_complete_flight_data] with total timeout [T] calls the
    position pull with the budget [T / 2] (its only blocking receive asks
    for a position report with that timeout, and no speed report); when
    the position pull fails nothing more is done; otherwise the clock is
    read again, the remaining budget is [T] minus the time elapsed since
    the start, and if it is <= 0 the result is [None] and the trace holds
    no receive of a speed report; if it is positive the speed pull is
    called with exactly the remaining budget, which is the timeout of its
    blocking receive, and its answer decides the result. *)
Theorem flight_data_budget :
  forall (T : R) (w : World),
    let start_time := wall_clock env (clock_reads w) in
    let pos_run := get_position_data env (T / 2) (snd (time_time env w)) in
    let run := get_complete_flight_data env T w in
    let now := wall_clock env (clock_reads (snd pos_run)) in
    let remaining := T - (now - start_time) in
    let w2 := snd (time_time env (snd pos_run)) in
    appended (pull_call GLOBAL_POSITION_INT (T / 2)) w (snd pos_run)
    /\ (fst pos_run = None -> run = (None, snd pos_run))
    /\ (forall p, fst pos_run = Some p ->
          (remaining <= 0 ->
           run = (None, w2)
           /\ appended (fun c => msg_type c <> VFR_HUD) w (snd run))
          /\ (0 < remaining ->
              let spd_run := get_speed_data env remaining w2 in
              appended (pull_call VFR_HUD remaining) w2 (snd spd_run)
              /\ match fst spd_run with
                 | None => run = (None, snd spd_run)
                 | Some sp =>
                     run = (Some (mkFlightData p sp
                                    (wall_clock env
                                       (clock_reads (snd spd_run))) 0 0 0),
                            snd (time_time env (snd spd_run)))
                 end)).
Proof.
  intros T w start_time pos_run run now remaining w2.
  assert (Hpos : appended (pull_call GLOBAL_POSITION_INT (T / 2)) w
                          (snd pos_run)).
  { eapply appended_trans;
      [apply appended_refl, (time_time_calls w)
      | apply get_position_data_appended]. }
  split; [exact Hpos |].
  assert (Hrun : run
                 = match fst pos_run with
                   | None => (None, snd pos_run)
                   | Some p =>
                       if Rle_dec remaining 0 then (None, w2)
                       else
                         match fst (get_speed_data env remaining w2) with
                         | None => (None, snd (get_speed_data env remaining w2))
                         | Some sp =>
                             (Some (mkFlightData p sp
                                      (wall_clock env
                                         (clock_reads
                                            (snd (get_speed_data env
                                                    remaining w2)))) 0 0 0),
                              snd (time_time env
                                     (snd (get_speed_data env remaining w2))))
                         end
                   end).
  { subst run remaining now w2 start_time pos_run.
    unfold get_complete_flight_data, bind at 1.
    cbn [time_time]. unfold bind at 1.
    change (mkWorld (S (clock_reads w)) (connection w) (is_connected w)
              (last_heartbeat w) (calls w))
      with (snd (time_time env w)).
    destruct (get_position_data env (T / 2) (snd (time_time env w)))
      as [[p |] w1]; cbn [fst snd]; [| reflexivity].
    unfold bind at 1. cbn [time_time].
    change (mkWorld (S (clock_reads w1)) (connection w1) (is_connected w1)
              (last_heartbeat w1) (calls w1))
      with (snd (time_time env w1)).
    destruct (Rle_dec _ 0); [reflexivity |].
    unfold bind at 1.
    destruct (get_speed_data env _ (snd (time_time env w1)))
      as [[sp |] w3]; cbn [fst snd]; reflexivity. }
  split.
  - intros Hnone. rewrite Hrun, Hnone. reflexivity.
  - intros p Hp. rewrite Hrun, Hp. split.
    + intros Hle. destruct (Rle_dec remaining 0); [| contradiction].
      split; [reflexivity |]. cbn [snd].
      eapply appended_trans; [| apply appended_refl, time_time_calls].
      eapply appended_weaken; [| exact Hpos].
      intros c [Hc | ->]; [rewrite Hc |]; discriminate.
    + intros Hlt. cbv zeta.
      destruct (Rle_dec remaining 0); [lra |].
      split; [apply get_speed_data_appended |].
      destruct (fst (get_speed_data env remaining w2)); reflexivity.
Qed.

End TelemetryFacts.

(** *** Two runs of the collector *)

Section TelemetryRuns.

Import Mav.

Ltac decide_reals :=
  repeat match goal with
         | |- context [Rlt_dec ?a ?b] => destruct (Rlt_dec a b); try lra
         | |- context [Rle_dec ?a ?b] => destruct (Rle_dec a b); try lra
         | |- context [Req_dec_T ?a ?b] => destruct (Req_dec_T a b); try lra
         end.

Lemma slow_run :
  get_complete_flight_data slow_env 10 (live_world 10)
  = (None,
     mkWorld 3 true true 10 [mkRecvCall GLOBAL_POSITION_INT true (Some (10 / 2))]).
Proof.
  cbv [get_complete_flight_data get_position_data check_connection bind ret
       time_time recv_match safe_mavlink_receive live_world slow_env
       wall_clock link answering_link msg_type clock_reads connection
       is_connected last_heartbeat calls negb orb app List.length
       position_of_msg Position_new Position_post_init Py.bind Py.try_except
       latitude longitude altitude fst snd].
  decide_reals. reflexivity.
Qed.

Lemma fast_run :
  get_complete_flight_data fast_env 10 (live_world 0)
  = (Some (mkFlightData (mkPosition (0 / 1e7) (0 / 1e7) (490500 / 1000))
                        (mkSpeedData 50 45) 4 0 0 0),
     mkWorld 5 true true 0
       [ mkRecvCall GLOBAL_POSITION_INT true (Some (10 / 2));
         mkRecvCall VFR_HUD true (Some (10 - (2 - 0))) ]).
Proof.
  cbv [get_complete_flight_data get_position_data get_speed_data
       check_connection bind ret
       time_time recv_match safe_mavlink_receive live_world fast_env
       wall_clock link answering_link msg_type clock_reads connection
       is_connected last_heartbeat calls negb orb app List.length
       position_of_msg Position_new Position_post_init Py.bind Py.try_except
       speed_of_msg msg_airspeed msg_groundspeed validate_mavlink_data
       SpeedData_new SpeedData_post_init speed_ratio Py.div Py.abs Py.max
       airspeed groundspeed
       latitude longitude altitude fst snd].
  decide_reals.
  - exfalso. unfold Rmax in *. revert e. decide_reals.
  - reflexivity.
Qed.

End TelemetryRuns.

(** * Further properties of the calculator *)

(** ** The constructors, in exact arithmetic *)

Section ConstructorFacts.

Lemma SpeedData_new_ok (a g : R) :
  0 < a -> 0 < g -> SpeedData_new a g = Py.Ok (mkSpeedData a g).
Proof.
  intros Ha Hg. unfold SpeedData_new.
  now rewrite speed_constructed by assumption.
Qed.

Lemma Position_new_ok (lat lon alt : R) :
  -90 <= lat <= 90 -> -180 <= lon <= 180 -> 0 <= alt ->
  Position_new lat lon alt = Py.Ok (mkPosition lat lon alt).
Proof.
  intros H1 H2 H3. unfold Position_new.
  now rewrite position_constructed by assumption.
Qed.

Lemma Position_new_cases (lat lon alt : R) :
  ((-90 <= lat <= 90 /\ -180 <= lon <= 180 /\ 0 <= alt)
   /\ Position_new lat lon alt = Py.Ok (mkPosition lat lon alt))
  \/ (~ (-90 <= lat <= 90 /\ -180 <= lon <= 180 /\ 0 <= alt)
      /\ Position_new lat lon alt = Py.Raise Py.ValueError).
Proof.
  unfold Position_new, Position_post_init.
  cbn [latitude longitude altitude].
  repeat match goal with
         | |- context [Rle_dec ?x ?y] => destruct (Rle_dec x y)
         | |- context [Rlt_dec ?x ?y] => destruct (Rlt_dec x y)
         end; cbn [Py.bind];
    solve [left; split; [lra | reflexivity]
          | right; split; [lra | reflexivity]].
Qed.

End ConstructorFacts.

Section GeodesyMore.

Lemma asin_unit_range (x : R) : 0 <= x <= 1 -> 0 <= asin x <= PI / 2.
Proof.
  intros Hx. pose proof (asin_bound x) as [Hl Hu]. split; [| exact Hu].
  destruct (Rle_dec 0 (asin x)) as [H | H]; [exact H | exfalso].
  apply Rnot_le_lt in H.
  pose proof PI_RGT_0.
  assert (Hs : sin (asin x) < 0) by (apply sin_lt_0_var; lra).
  rewrite sin_asin in Hs by lra. lra.
Qed.

Lemma asin_sqrt_sin_sqr (x : R) :
  - (PI / 2) <= x <= PI / 2 -> asin (sqrt (sin x ^ 2)) = Rabs x.
Proof.
  intros Hx. pose proof PI_RGT_0.
  rewrite <- Rsqr_pow2, sqrt_Rsqr_abs.
  destruct (Rle_dec 0 x) as [Hpos | Hneg].
  - rewrite (Rabs_right x) by lra.
    rewrite Rabs_right by (apply Rle_ge, sin_ge_0; lra).
    apply asin_sin. lra.
  - apply Rnot_le_lt in Hneg.
    rewrite (Rabs_left x) by lra.
    assert (Hs : sin x < 0) by (apply sin_lt_0_var; lra).
    rewrite Rabs_left by exact Hs.
    rewrite <- sin_neg. apply asin_sin. lra.
Qed.

(** X4: for all positions the distance is computed without an exception
    and lies between 0 and half the circumference of the sphere,
    [EARTH_RADIUS * PI] (about 20015 km). *)
Theorem distance_range :
  forall pos1 pos2 : Position,
    exists d b,
      calculate_distance_and_bearing pos1 pos2 = Py.Ok (d, b)
      /\ 0 <= d <= EARTH_RADIUS * PI.
Proof.
  intros p1 p2.
  exists (haversine_distance p1 p2), (initial_bearing p1 p2).
  split; [apply distance_and_bearing_eq |].
  unfold haversine_distance.
  set (a := clamp_unit _).
  assert (Ha : 0 <= a <= 1) by apply clamp_unit_range.
  pose proof (asin_unit_range _ (sqrt_unit a Ha)) as [H0 H1].
  unfold EARTH_RADIUS. split; [| lra].
  apply Rmult_le_pos; lra.
Qed.

Lemma atan2_range (y x : R) : - PI < Py.atan2 y x <= PI.
Proof.
  unfold Py.atan2. pose proof PI_RGT_0 as Hpi.
  pose proof (atan_bound (y / x)) as [Hl Hu].
  destruct (Rlt_dec 0 x) as [Hx | Hx]; [lra |].
  destruct (Rlt_dec x 0) as [Hx' | Hx'].
  - assert (Hix : / x < 0) by (apply Rinv_lt_0_compat; exact Hx').
    destruct (Rle_dec 0 y) as [Hy | Hy].
    + assert (Hq : y / x <= 0).
      { unfold Rdiv. rewrite <- (Rmult_0_l (/ x)).
        apply Rmult_le_compat_neg_l with (r := / x) in Hy; [| lra].
        rewrite Rmult_0_r in Hy. rewrite (Rmult_comm y). lra. }
      assert (Ha : atan (y / x) <= 0).
      { destruct Hq as [Hq | Hq].
        - apply atan_increasing in Hq. rewrite atan_0 in Hq. lra.
        - rewrite Hq, atan_0. lra. }
      lra.
    + apply Rnot_le_lt in Hy.
      assert (Hq : 0 < y / x).
      { unfold Rdiv. replace (y * / x) with ((- y) * (- / x)) by ring.
        apply Rmult_lt_0_compat; lra. }
      apply atan_increasing in Hq. rewrite atan_0 in Hq. lra.
  - destruct (Rlt_dec 0 y); [lra |].
    destruct (Rlt_dec y 0); lra.
Qed.

(** X5: for all positions the bearing returned with the distance lies in
    (-PI, PI]. *)
Theorem bearing_range :
  forall pos1 pos2 : Position,
    exists d b,
      calculate_distance_and_bearing pos1 pos2 = Py.Ok (d, b)
      /\ - PI < b <= PI.
Proof.
  intros p1 p2.
  exists (haversine_distance p1 p2), (initial_bearing p1 p2).
  split; [apply distance_and_bearing_eq |].
  unfold initial_bearing. cbv zeta. apply atan2_range.
Qed.

Lemma meridian_distance_eq (lat1 lat2 lon alt1 alt2 : R) :
  -180 <= lat2 - lat1 <= 180 ->
  haversine_distance (mkPosition lat1 lon alt1) (mkPosition lat2 lon alt2)
  = EARTH_RADIUS * (Rabs (lat2 - lat1) * (PI / 180)).
Proof.
  intros Hlat. unfold haversine_distance, haversine_a, Py.radians.
  cbn [latitude longitude]. cbv zeta.
  replace ((lon * (PI / 180) - lon * (PI / 180)) / 2) with 0 by field.
  rewrite sin_0.
  set (x := (lat2 * (PI / 180) - lat1 * (PI / 180)) / 2).
  replace (sin x ^ 2 + cos (lat1 * (PI / 180)) * cos (lat2 * (PI / 180)) * 0 ^ 2)
    with (sin x ^ 2) by ring.
  pose proof PI_RGT_0 as Hpi.
  assert (Hxe : x = (lat2 - lat1) * (PI / 360)) by (unfold x; field).
  assert (Hx : - (PI / 2) <= x <= PI / 2).
  { rewrite Hxe. split.
    - replace (- (PI / 2)) with ((-180) * (PI / 360)) by field.
      apply Rmult_le_compat_r; lra.
    - replace (PI / 2) with (180 * (PI / 360)) by field.
      apply Rmult_le_compat_r; lra. }
  assert (Hs : 0 <= sin x ^ 2 <= 1).
  { split; [apply pow2_ge_0 |].
    pose proof (SIN_bound x) as [Hl Hu].
    replace 1 with (1 ^ 2) by ring.
    rewrite <- !Rsqr_pow2. apply neg_pos_Rsqr_le; lra. }
  rewrite clamp_unit_inside by exact Hs.
  rewrite asin_sqrt_sin_sqr by exact Hx.
  rewrite Hxe, Rabs_mult, (Rabs_right (PI / 360)) by lra.
  field.
Qed.

(** X6: for two constructed positions on the same meridian the distance
    is the difference of the latitudes, in radians, times the radius of
    the sphere: [EARTH_RADIUS * |lat2 - lat1| * PI / 180], whatever the
    altitudes. *)
Theorem meridian_distance :
  forall pos1 pos2 : Position,
    Position_post_init pos1 = Py.Ok tt ->
    Position_post_init pos2 = Py.Ok tt ->
    longitude pos1 = longitude pos2 ->
    exists b,
      calculate_distance_and_bearing pos1 pos2
      = Py.Ok (EARTH_RADIUS
               * (Rabs (latitude pos2 - latitude pos1) * (PI / 180)), b).
Proof.
  intros [lat1 lon1 alt1] [lat2 lon2 alt2] H1 H2 Hlon.
  apply constructed_position_range in H1, H2. cbn in *. subst lon2.
  eexists. rewrite distance_and_bearing_eq.
  rewrite meridian_distance_eq by lra. reflexivity.
Qed.

Lemma meridian_distance_witness :
  exists b,
    calculate_distance_and_bearing (mkPosition 22 114 500) (mkPosition 23 114 0)
    = Py.Ok (EARTH_RADIUS * (Rabs (23 - 22) * (PI / 180)), b).
Proof.
  apply (meridian_distance (mkPosition 22 114 500) (mkPosition 23 114 0)).
  - apply position_constructed; lra.
  - apply position_constructed; lra.
  - reflexivity.
Defined.

End GeodesyMore.

Section BallisticMore.


(** X10: the ballistic model sees the effective velocity only through its
    magnitude: reversing the velocity and the wind gives the same time of
    flight, so a platform flying away from the target gets the solution
    of one flying towards it. *)
Theorem ballistic_ignores_direction :
  forall initial_velocity height distance wind_speed : R,
    calculate_ballistic_trajectory (- initial_velocity) height distance
      (- wind_speed)
    = calculate_ballistic_trajectory initial_velocity height distance
        wind_speed.
Proof.
  intros iv h d w.
  unfold calculate_ballistic_trajectory, ballistic_trajectory_try,
    flight_time_before_check, effective_horizontal_velocity, Py.abs.
  replace (- iv + - w) with (- (iv + w)) by ring.
  now rewrite Rabs_Ropp.
Qed.

End BallisticMore.

Section SolverMore.







End SolverMore.

(** * Further properties of the telemetry layer *)

Section SessionFacts.

Import Mav Ctl.

Variable env : Env.

(** X18: [check_connection] never changes [is_connected] or the
    connection, so a failed check does not mark the session as
    disconnected.  On a session that is not connected it answers [False]
    without reading the clock or the transport.  On a connected session
    whose last heartbeat is at most 5 s old it answers [True] without
    asking the transport.  It answers [True] only on a connected session,
    and it moves [last_heartbeat] only to the time it has just read, and
    only when it answers [True]. *)
Theorem check_connection_spec :
  forall w : World,
    let ok := fst (check_connection env w) in
    let w' := snd (check_connection env w) in
    is_connected w' = is_connected w
    /\ connection w' = connection w
    /\ (is_connected w = false \/ connection w = false ->
        ok = false /\ w' = w)
    /\ (is_connected w = true -> connection w = true ->
        wall_clock env (clock_reads w) - last_heartbeat w <= 5 ->
        ok = true /\ calls w' = calls w
        /\ last_heartbeat w' = last_heartbeat w)
    /\ (ok = true -> is_connected w = true /\ connection w = true)
    /\ (last_heartbeat w' <> last_heartbeat w ->
        ok = true /\ last_heartbeat w' = wall_clock env (clock_reads w)).
Proof.
  intros w. cbv zeta. unfold check_connection.
  assert (Hoff : is_connected w = false \/ connection w = false ->
                 negb (is_connected w) || negb (connection w) = true).
  { intros [H | H]; rewrite H; [| rewrite orb_true_r]; reflexivity. }
  destruct (negb (is_connected w) || negb (connection w)) eqn:Hdown.
  - cbn [fst snd].
    split; [reflexivity |]. split; [reflexivity |].
    split; [intros _; split; reflexivity |].
    split; [intros H1 H2; rewrite H1, H2 in Hdown; discriminate |].
    split; [intros H; discriminate |].
    intros H. exfalso. apply H. reflexivity.
  - assert (Hi : is_connected w = true).
    { destruct (is_connected w); [reflexivity | discriminate]. }
    assert (Hc : connection w = true).
    { destruct (connection w); [reflexivity |].
      rewrite orb_true_r in Hdown. discriminate. }
    assert (Hon : ~ (is_connected w = false \/ connection w = false)).
    { intros [H | H]; congruence. }
    unfold bind, time_time, recv_match, set_last_heartbeat, ret.
    destruct (Rlt_dec 5 _) as [Hlate | Hfresh].
    + destruct (link env _ _) as [m | |]; cbn;
        (split; [reflexivity |]); (split; [reflexivity |]);
        (split; [intros H; contradiction |]);
        (split; [intros _ _ H; lra |]);
        (split; [intros H; try discriminate; auto |]);
        intros H; try (exfalso; apply H; reflexivity);
        split; reflexivity.
    + cbn.
      split; [reflexivity |]. split; [reflexivity |].
      split; [intros H; contradiction |].
      split; [intros _ _ _; repeat split; reflexivity |].
      split; [intros _; auto |].
      intros H. exfalso. apply H. reflexivity.
Qed.

Lemma check_connection_down (w : World) :
  is_connected w = false \/ connection w = false ->
  check_connection env w = (false, w).
Proof.
  intros H. unfold check_connection.
  destruct H as [H | H]; rewrite H;
    [| rewrite orb_true_r]; reflexivity.
Qed.

Lemma get_position_data_down (tmo : R) (w : World) :
  is_connected w = false \/ connection w = false ->
  get_position_data env tmo w = (None, w).
Proof.
  intros H. unfold get_position_data, bind.
  now rewrite check_connection_down.
Qed.

Lemma get_speed_data_down (tmo : R) (w : World) :
  is_connected w = false \/ connection w = false ->
  get_speed_data env tmo w = (None, w).
Proof.
  intros H. unfold get_speed_data, bind.
  now rewrite check_connection_down.
Qed.

Lemma get_complete_flight_data_down (tmo : R) (w : World) :
  is_connected w = false \/ connection w = false ->
  get_complete_flight_data env tmo w = (None, snd (time_time env w)).
Proof.
  intros H. unfold get_complete_flight_data, bind at 1. cbn [time_time].
  unfold bind at 1. rewrite get_position_data_down by (cbn; exact H).
  reflexivity.
Qed.

(** X19: on a session that is not connected every pull fails at once:
    [get_position_data] and [get_speed_data] return [None] and leave the
    world as it is, and [get_complete_flight_data] returns [None] after
    its one reading of the clock, with nothing asked of the transport. *)
Theorem pulls_need_a_connection :
  forall (tmo : R) (w : World),
    is_connected w = false \/ connection w = false ->
    get_position_data env tmo w = (None, w)
    /\ get_speed_data env tmo w = (None, w)
    /\ get_complete_flight_data env tmo w = (None, snd (time_time env w))
    /\ calls (snd (get_complete_flight_data env tmo w)) = calls w.
Proof.
  intros tmo w H.
  split; [apply get_position_data_down; exact H |].
  split; [apply get_speed_data_down; exact H |].
  rewrite get_complete_flight_data_down by exact H.
  split; reflexivity.
Qed.

End SessionFacts.

Lemma pulls_need_a_connection_witness :
  Mav.get_position_data Runs.slow_env 5 (Mav.mkWorld 0 false false 0 [])
  = (None, Mav.mkWorld 0 false false 0 []).
Proof.
  apply (pulls_need_a_connection Runs.slow_env 5
           (Mav.mkWorld 0 false false 0 [])).
  left. reflexivity.
Defined.

Section CollectorFacts.

Import Mav Ctl.

Variable env : Env.

Lemma position_of_msg_some (m : Msg) (p : Position) :
  Py.try_except (position_of_msg m) (fun _ => None) = Some p ->
  Position_post_init p = Py.Ok tt
  /\ exists lat lon alt,
       m = GlobalPositionInt lat lon alt
       /\ p = mkPosition (IZR lat / 1e7) (IZR lon / 1e7) (IZR alt / 1000).
Proof.
  destruct m as [| a g | lat lon alt]; unfold position_of_msg;
    try (cbn; discriminate).
  destruct (Position_new_cases (IZR lat / 1e7) (IZR lon / 1e7)
              (IZR alt / 1000)) as [[Hr E] | [Hr E]];
    rewrite E; cbn; [| discriminate].
  intros [= <-]. split.
  - apply position_constructed; tauto.
  - exists lat, lon, alt. split; reflexivity.
Qed.

Lemma get_position_data_some (tmo : R) (w w' : World) (p : Position) :
  get_position_data env tmo w = (Some p, w') ->
  Position_post_init p = Py.Ok tt
  /\ (exists lat lon alt : Z,
         p = mkPosition (IZR lat / 1e7) (IZR lon / 1e7) (IZR alt / 1000))
  /\ In (mkRecvCall GLOBAL_POSITION_INT true (Some tmo)) (calls w').
Proof.
  unfold get_position_data, bind.
  destruct (check_connection env w) as [ok w1].
  destruct ok; cbn [negb]; [| discriminate].
  unfold safe_mavlink_receive, bind, recv_match, ret.
  destruct (link env _ _) as [m | |]; cbn; try discriminate.
  intros [= Hp <-]. apply position_of_msg_some in Hp.
  destruct Hp as (Hp & lat & lon & alt & _ & ->).
  cbn [calls]. split; [exact Hp |].
  split; [exists lat, lon, alt; reflexivity |].
  apply in_or_app. right. left. reflexivity.
Qed.

Lemma get_speed_data_keeps_calls (tmo : R) (w : World) (c : RecvCall) :
  In c (calls w) -> In c (calls (snd (get_speed_data env tmo w))).
Proof.
  intros H. destruct (get_speed_data_appended env tmo w) as (l & E & _).
  rewrite E. apply in_or_app. left. exact H.
Qed.

(** X20: flight data returned by [get_complete_flight_data] holds a
    constructed [Position], decoded from the three integers of a position
    report (degrees times 1e7, millimetres); [altitude_msl],
    [altitude_agl] and [heading] are never filled in and stay 0; the
    timestamp is the last reading of the clock, taken after both pulls;
    and the trace holds the blocking receive of the position report with
    half the timeout. *)
Theorem collected_position_is_valid :
  forall (T : R) (w w' : World) (fd : FlightData),
    get_complete_flight_data env T w = (Some fd, w') ->
    Position_post_init (position fd) = Py.Ok tt
    /\ (exists lat lon alt : Z,
           position fd
           = mkPosition (IZR lat / 1e7) (IZR lon / 1e7) (IZR alt / 1000))
    /\ altitude_msl fd = 0 /\ altitude_agl fd = 0 /\ heading fd = 0
    /\ (exists n, clock_reads w' = S n /\ timestamp fd = wall_clock env n)
    /\ In (mkRecvCall GLOBAL_POSITION_INT true (Some (T / 2))) (calls w').
Proof.
  intros T w w' fd.
  unfold get_complete_flight_data, bind at 1. cbn [time_time].
  unfold bind at 1.
  destruct (get_position_data env (T / 2) _) as [[p |] w1] eqn:Ep;
    [| discriminate].
  unfold bind at 1. cbn [time_time].
  destruct (Rle_dec _ 0); [discriminate |].
  unfold bind at 1.
  destruct (get_speed_data env _ _) as [[sp |] w3] eqn:Es; [| discriminate].
  unfold bind, time_time, ret. intros [= <- <-]. cbn.
  apply get_position_data_some in Ep. destruct Ep as (Hp & Hdec & Hin).
  pose proof (get_speed_data_keeps_calls
                (T - (wall_clock env (clock_reads w1)
                      - wall_clock env (clock_reads w)))
                (mkWorld (S (clock_reads w1)) (connection w1)
                   (is_connected w1) (last_heartbeat w1) (calls w1))
                _ Hin) as Hkeep.
  rewrite Es in Hkeep. cbn [snd] in Hkeep.
  split; [exact Hp |]. split; [exact Hdec |].
  split; [reflexivity |]. split; [reflexivity |]. split; [reflexivity |].
  split; [exists (clock_reads w3); split; reflexivity |].
  exact Hkeep.
Qed.

End CollectorFacts.

Lemma collected_position_is_valid_witness :
  Calc.Position_post_init
    (Calc.mkPosition (0 / 1e7) (0 / 1e7) (490500 / 1000)) = Py.Ok tt.
Proof.
  destruct (collected_position_is_valid Runs.fast_env 10 _ _ _ fast_run)
    as (H1 & _).
  exact H1.
Defined.

Section LifeCycleFacts.

Import Mav Ctl.

Variable env : Env.

(** X21: [connect] answers [True] exactly when the module is available
    and a heartbeat arrived; the session is then connected and
    [last_heartbeat] is the time just read, so a [check_connection] whose
    reading of the clock is at most 5 s later answers [True].  An
    exception marks the session as not connected; a wait without a
    heartbeat answers [False] but leaves [is_connected] as it was.  The
    transport trace is never touched. *)
Theorem connect_spec :
  forall (available : bool) (reply : ConnectReply) (tmo : R) (w : World),
    let ok := fst (connect env available reply tmo w) in
    let w' := snd (connect env available reply tmo w) in
    (ok = true <-> available = true /\ reply = HeartbeatSeen)
    /\ (ok = true ->
        is_connected w' = true /\ connection w' = true
        /\ last_heartbeat w' = wall_clock env (clock_reads w)
        /\ (wall_clock env (S (clock_reads w))
            - wall_clock env (clock_reads w) <= 5 ->
            fst (check_connection env w') = true))
    /\ (available = true -> reply = OpenFailed \/ reply = WaitFailed ->
        is_connected w' = false)
    /\ (available = true -> reply = NoHeartbeat ->
        is_connected w' = is_connected w /\ connection w' = true)
    /\ (available = false -> w' = w)
    /\ calls w' = calls w.
Proof.
  intros available reply tmo w. cbv zeta. unfold connect.
  destruct available; cbn [negb].
  - destruct reply; cbn;
      (split; [split; [intros H; try discriminate; auto
                      | intros [_ H]; try discriminate; reflexivity] |]);
      (split; [intros H; try discriminate |]);
      try (split; [intros _ [H | H]; try discriminate; reflexivity |]);
      try (split; [intros _ H; try discriminate; auto |]);
      try (split; [intros H; discriminate | reflexivity]).
    split; [reflexivity |]. split; [reflexivity |]. split; [reflexivity |].
    intros Hfresh. unfold check_connection. cbn.
    destruct (Rlt_dec 5 _); [lra | reflexivity].
  - cbn. split; [split; [discriminate | intros [H _]; discriminate] |].
    split; [discriminate |]. split; [discriminate |].
    split; [discriminate |]. split; reflexivity.
Qed.

(** X22: after [disconnect] the session has no connection, and if it had
    one it is marked as not connected; a second [disconnect] changes
    nothing; the clock, the trace and [last_heartbeat] are kept; and
    every later check or pull on the session fails without touching the
    transport. *)
Theorem disconnect_spec :
  forall w : World,
    let w' := snd (disconnect w) in
    connection w' = false
    /\ (connection w = true -> is_connected w' = false)
    /\ (connection w = false -> w' = w)
    /\ snd (disconnect w') = w'
    /\ clock_reads w' = clock_reads w /\ calls w' = calls w
    /\ last_heartbeat w' = last_heartbeat w
    /\ check_connection env w' = (false, w')
    /\ (forall tmo,
           get_position_data env tmo w' = (None, w')
           /\ get_speed_data env tmo w' = (None, w')
           /\ fst (get_complete_flight_data env tmo w') = None
           /\ calls (snd (get_complete_flight_data env tmo w')) = calls w).
Proof.
  intros w. cbv zeta.
  assert (Hc : connection (snd (disconnect w)) = false).
  { unfold disconnect. destruct (connection w) eqn:E; cbn; [reflexivity | exact E]. }
  assert (Hcalls : calls (snd (disconnect w)) = calls w).
  { unfold disconnect. destruct (connection w); reflexivity. }
  split; [exact Hc |].
  split; [intros H; unfold disconnect; rewrite H; reflexivity |].
  split; [intros H; unfold disconnect; rewrite H; reflexivity |].
  split; [unfold disconnect at 1; rewrite Hc; reflexivity |].
  split; [unfold disconnect; destruct (connection w); reflexivity |].
  split; [exact Hcalls |].
  split; [unfold disconnect; destruct (connection w); reflexivity |].
  split; [apply check_connection_down; right; exact Hc |].
  intros tmo.
  split; [apply get_position_data_down; right; exact Hc |].
  split; [apply get_speed_data_down; right; exact Hc |].
  rewrite get_complete_flight_data_down by (right; exact Hc).
  split; [reflexivity | exact Hcalls].
Qed.

End LifeCycleFacts.

Section ControllerFacts.

Import Mav Ctl.

Variable env : Env.

Lemma record_entry_length (h : list HistoryEntry) (e : HistoryEntry) :
  (List.length h <= 10)%nat ->
  List.length (record_entry h e) = Nat.min 10 (S (List.length h)).
Proof.
  intros Hh. unfold record_entry.
  assert (Hl : List.length (h ++ [e]) = S (List.length h)).
  { rewrite length_app. cbn. lia. }
  destruct (Nat.ltb 10 (List.length (h ++ [e]))) eqn:E.
  - apply Nat.ltb_lt in E.
    destruct h as [| x h']; cbn [app List.tl List.length] in *; lia.
  - apply Nat.ltb_ge in E. lia.
Qed.

Lemma record_entry_last (h : list HistoryEntry) (e d : HistoryEntry) :
  List.last (record_entry h e) d = e.
Proof.
  unfold record_entry.
  destruct (Nat.ltb 10 _) eqn:E.
  - destruct h as [| x h']; cbn [app List.tl].
    + cbn in E. discriminate.
    + apply last_last.
  - apply last_last.
Qed.

Lemma record_entry_Forall (P : HistoryEntry -> Prop)
    (h : list HistoryEntry) (e : HistoryEntry) :
  Forall P h -> P e -> Forall P (record_entry h e).
Proof.
  intros Hh He. unfold record_entry.
  assert (Ha : Forall P (h ++ [e])).
  { apply Forall_app. split; [exact Hh | repeat constructor; exact He]. }
  destruct (Nat.ltb 10 _); [| exact Ha].
  destruct (h ++ [e])%list; [constructor |].
  cbn. now inversion Ha.
Qed.

(** One request, by its result: what it did to the controller. *)
Lemma calculate_bomb_release_cases (target_pos : Position) (c : Controller) :
  let r := fst (calculate_bomb_release env target_pos c) in
  let c' := snd (calculate_bomb_release env target_pos c) in
  (exists why stamp,
      r = Refused why stamp
      /\ stamp = wall_clock env (clock_reads (session c))
      /\ last_calculation c' = last_calculation c
      /\ calculation_history c' = calculation_history c)
  \/ (exists fd now,
         r = Computed (calculate_release_point (position fd) target_pos
                         (speed fd))
         /\ last_calculation c'
            = Some (calculate_release_point (position fd) target_pos
                      (speed fd))
         /\ calculation_history c'
            = record_entry (calculation_history c)
                (mkHistoryEntry now fd target_pos
                   (calculate_release_point (position fd) target_pos
                      (speed fd)))).
Proof.
  cbv zeta. unfold calculate_bomb_release.
  destruct (time_time env (session c)) as [stamp w0] eqn:E0.
  assert (Hs : stamp = wall_clock env (clock_reads (session c))).
  { unfold time_time in E0. now injection E0 as <- _. }
  destruct (check_connection env w0) as [ok w1].
  destruct ok; cbn [negb].
  2:{ left. exists NotConnected, stamp. cbn. auto. }
  destruct (get_complete_flight_data env 10 w1) as [[fd |] w2].
  2:{ left. exists NoFlightData, stamp. cbn. auto. }
  destruct (is_valid env fd w2) as [valid w3].
  destruct valid; cbn [negb].
  2:{ left. exists StaleFlightData, stamp. cbn. auto. }
  destruct (time_time env w3) as [now w4].
  right. exists fd, now. cbn. auto.
Qed.

(** X23: a request that is refused (no connection, no flight data, stale
    flight data) changes neither [last_calculation] nor the history, and
    carries the time read at entry; a request that is computed returns
    the result of the solver on the collected flight data and the given
    target, stores it as [last_calculation], and makes it the newest
    entry of the history, together with its target. *)
Theorem request_is_refused_or_recorded :
  forall (target_pos : Position) (c : Controller),
    let r := fst (calculate_bomb_release env target_pos c) in
    let c' := snd (calculate_bomb_release env target_pos c) in
    (forall why stamp,
        r = Refused why stamp ->
        stamp = wall_clock env (clock_reads (session c))
        /\ last_calculation c' = last_calculation c
        /\ calculation_history c' = calculation_history c)
    /\ (forall res,
           r = Computed res ->
           last_calculation c' = Some res
           /\ exists e,
                (forall d, List.last (calculation_history c') d = e)
                /\ entry_result e = res
                /\ entry_target_pos e = target_pos
                /\ entry_consistent e).
Proof.
  intros target_pos c.
  destruct (calculate_bomb_release_cases target_pos c)
    as [(why & stamp & Hr & Hs & Hl & Hh) | (fd & now & Hr & Hl & Hh)];
    cbv zeta; rewrite Hr.
  - split.
    + intros why' stamp' [= <- <-]. auto.
    + intros res H. discriminate.
  - split.
    + intros why stamp H. discriminate.
    + intros res [= <-]. split; [exact Hl |].
      eexists. split.
      * intros d. rewrite Hh. apply record_entry_last.
      * cbn. repeat split; reflexivity.
Qed.

Lemma calculate_all_invariant (targets : list Position) (c : Controller) :
  (List.length (calculation_history c) <= 10)%nat ->
  Forall entry_consistent (calculation_history c) ->
  let rs := fst (calculate_all env targets c) in
  let c' := snd (calculate_all env targets c) in
  List.length rs = List.length targets
  /\ List.length (calculation_history c')
     = Nat.min 10 (List.length (calculation_history c) + computed_count rs)
  /\ Forall entry_consistent (calculation_history c').
Proof.
  revert c. induction targets as [| t rest IH]; intros c Hlen Hcons.
  - cbv zeta. cbn [calculate_all fst snd]. unfold computed_count.
    cbn [List.filter List.length].
    split; [reflexivity |]. split; [lia | exact Hcons].
  - cbv zeta. cbn [calculate_all].
    destruct (calculate_bomb_release env t c) as [r c1] eqn:E1.
    pose proof (calculate_bomb_release_cases t c) as Hcases.
    rewrite E1 in Hcases. cbn [fst snd] in Hcases.
    assert (H1 : (List.length (calculation_history c1) <= 10)%nat
                 /\ Forall entry_consistent (calculation_history c1)
                 /\ List.length (calculation_history c1)
                    = Nat.min 10 (List.length (calculation_history c)
                                  + computed_count [r])).
    { destruct Hcases
        as [(why & stamp & Hr & _ & _ & Hh) | (fd & now & Hr & _ & Hh)];
        rewrite Hh, Hr; unfold computed_count; cbn [List.filter List.length].
      - repeat split; [exact Hlen | exact Hcons | lia].
      - rewrite record_entry_length by exact Hlen.
        repeat split; [lia | | lia].
        apply record_entry_Forall; [exact Hcons | reflexivity]. }
    destruct H1 as (Hlen1 & Hcons1 & Hcount1).
    specialize (IH c1 Hlen1 Hcons1).
    destruct (calculate_all env rest c1) as [rs c2].
    cbn [fst snd] in *. destruct IH as (IHl & IHc & IHf).
    split; [cbn; lia |]. split; [| exact IHf].
    rewrite IHc, Hcount1. unfold computed_count in *.
    cbn [List.filter]. destruct r; cbn [List.length] in *; lia.
Qed.

(** X24: however many requests a controller serves, its history never
    holds more than 10 entries: starting from at most 10, after any list
    of targets it holds [min 10 (old + computed)] entries, where
    [computed] counts the requests that reached the solver; one result
    is returned per target, and every entry keeps the result the solver
    gives for the entry's own flight data and target. *)
Theorem history_is_bounded :
  forall (targets : list Position) (c : Controller),
    (List.length (calculation_history c) <= 10)%nat ->
    Forall entry_consistent (calculation_history c) ->
    let rs := fst (calculate_all env targets c) in
    let c' := snd (calculate_all env targets c) in
    (List.length (calculation_history c') <= 10)%nat
    /\ List.length rs = List.length targets
    /\ List.length (calculation_history c')
       = Nat.min 10 (List.length (calculation_history c) + computed_count rs)
    /\ Forall entry_consistent (calculation_history c').
Proof.
  intros targets c Hlen Hcons.
  destruct (calculate_all_invariant targets c Hlen Hcons) as (H1 & H2 & H3).
  cbv zeta. split; [rewrite H2; lia |]. auto.
Qed.

(** X25: once flight data is collected, the request is decided by its
    age at the next reading of the clock: at 5 s or more it is refused as
    stale and the solver is not run; below 5 s the solver's result on
    this very flight data is returned. *)
Theorem stale_data_is_refused :
  forall (target_pos : Position) (c : Controller) (fd : FlightData)
         (w2 : World),
    let w0 := snd (time_time env (session c)) in
    fst (check_connection env w0) = true ->
    get_complete_flight_data env 10 (snd (check_connection env w0))
    = (Some fd, w2) ->
    (5 <= wall_clock env (clock_reads w2) - timestamp fd ->
     fst (calculate_bomb_release env target_pos c)
     = Refused StaleFlightData (wall_clock env (clock_reads (session c)))
     /\ calculation_history (snd (calculate_bomb_release env target_pos c))
        = calculation_history c)
    /\ (wall_clock env (clock_reads w2) - timestamp fd < 5 ->
        fst (calculate_bomb_release env target_pos c)
        = Computed (calculate_release_point (position fd) target_pos
                      (speed fd))).
Proof.
  intros target_pos c fd w2 w0 Hok Hfd.
  unfold calculate_bomb_release.
  change (time_time env (session c))
    with (wall_clock env (clock_reads (session c)), w0).
  cbv beta iota.
  destruct (check_connection env w0) as [ok w1]. cbn [fst snd] in *.
  subst ok. cbn [negb]. rewrite Hfd.
  unfold is_valid, bind, ret. cbn [time_time].
  destruct (Rlt_dec _ 5) as [Hfresh | Hstale]; cbn [negb].
  - split; [intros H; lra |]. intros _. reflexivity.
  - split; [| intros H; lra]. intros _. split; reflexivity.
Qed.

End ControllerFacts.

(** The control loop on a live session of the fast environment: the
    request reads the clock at 0 and 1, the collection at 2, 3 and 4. *)
Lemma fast_collection :
  Mav.get_complete_flight_data fast_env 10
    (Mav.mkWorld 2 true true 0 [])
  = (Some (Mav.mkFlightData
             (mkPosition (0 / 1e7) (0 / 1e7) (490500 / 1000))
             (mkSpeedData 50 45) 4 0 0 0),
     Mav.mkWorld 7 true true 0
       [ Mav.mkRecvCall Mav.GLOBAL_POSITION_INT true (Some (10 / 2));
         Mav.mkRecvCall Mav.VFR_HUD true (Some (10 - (4 - 2))) ]).
Proof.
  cbv [Mav.get_complete_flight_data Mav.get_position_data
       Mav.get_speed_data Mav.check_connection Mav.bind Mav.ret
       Mav.time_time Mav.recv_match Mav.safe_mavlink_receive fast_env
       Mav.wall_clock Mav.link answering_link Mav.msg_type Mav.clock_reads
       Mav.connection Mav.is_connected Mav.last_heartbeat Mav.calls negb orb
       app List.length Mav.position_of_msg Position_new Position_post_init
       Py.bind Py.try_except Mav.speed_of_msg Mav.msg_airspeed
       Mav.msg_groundspeed validate_mavlink_data SpeedData_new
       SpeedData_post_init speed_ratio Py.div Py.abs Py.max airspeed
       groundspeed latitude longitude altitude fst snd].
  repeat match goal with
         | |- context [Rlt_dec ?a ?b] => destruct (Rlt_dec a b); try lra
         | |- context [Rle_dec ?a ?b] => destruct (Rle_dec a b); try lra
         | |- context [Req_dec_T ?a ?b] => destruct (Req_dec_T a b); try lra
         end.
  - exfalso. unfold Rmax in *.
    match goal with H : _ = 0 |- _ => revert H end.
    destruct (Rle_dec 50 45); lra.
  - reflexivity.
Qed.

Lemma stale_data_is_refused_witness :
  fst (Ctl.calculate_bomb_release fast_env run_target
         (Ctl.mkController (live_world 0) None []))
  = Ctl.Computed (calculate_release_point
                    (mkPosition (0 / 1e7) (0 / 1e7) (490500 / 1000))
                    run_target (mkSpeedData 50 45)).
Proof.
  assert (Hcheck : Mav.check_connection fast_env
                     (snd (Mav.time_time fast_env (live_world 0)))
                   = (true, Mav.mkWorld 2 true true 0 [])).
  { cbv [Mav.check_connection Mav.bind Mav.ret Mav.time_time live_world
         fast_env Mav.wall_clock Mav.clock_reads Mav.connection
         Mav.is_connected Mav.last_heartbeat Mav.calls negb orb fst snd].
    destruct (Rlt_dec 5 (1 - 0)); [lra | reflexivity]. }
  destruct (stale_data_is_refused fast_env run_target
              (Ctl.mkController (live_world 0) None []) _ _
              (f_equal fst Hcheck)
              (eq_trans (f_equal (fun x => Mav.get_complete_flight_data
                                             fast_env 10 (snd x)) Hcheck)
                        fast_collection)) as [_ Hfresh].
  apply Hfresh. cbn. lra.
Defined.

Lemma history_is_bounded_witness :
  (List.length
     (Ctl.calculation_history
        (snd (Ctl.calculate_all fast_env [run_target]
                (Ctl.mkController (live_world 0) None []))))
   <= 10)%nat.
Proof.
  refine (proj1 (history_is_bounded fast_env [run_target]
                   (Ctl.mkController (live_world 0) None []) _ _)).
  - cbn. lia.
  - constructor.
Defined.

(** * The service, the log and the servo tool *)

Section ServiceFacts.

Import Mav Ctl Svc.

Variable env : Env.
Variable reply : nat -> string -> ConnectReply.

Lemma connect_fresh (r : ConnectReply) (tmo : R) (w : World) :
  let c := new_controller w in
  (fst (connect env true r tmo (session c)) = true <-> r = HeartbeatSeen)
  /\ is_connected (snd (connect env true r tmo (session c)))
     = fst (connect env true r tmo (session c)).
Proof.
  cbv zeta. unfold connect, new_controller. cbn [negb session].
  destruct r; cbn; (split; [split; intros H; try discriminate; reflexivity
                           | reflexivity]).
Qed.

Lemma try_connections_spec (tmo : R) (l : list string) :
  forall (n : nat) (current : option (string * Controller)) (w : World),
    let '(ok, ctl, w') := try_connections env reply tmo n l current w in
    (ok = true ->
     exists k cs c,
       nth_error l k = Some cs
       /\ reply (n + k) cs = HeartbeatSeen
       /\ (forall j cs', (j < k)%nat -> nth_error l j = Some cs' ->
                         reply (n + j) cs' <> HeartbeatSeen)
       /\ ctl = Some (cs, c)
       /\ is_connected (session c) = true)
    /\ (ok = false ->
        (forall j cs', nth_error l j = Some cs' ->
                       reply (n + j) cs' <> HeartbeatSeen)
        /\ (l = [] -> ctl = current)
        /\ (l <> [] ->
            exists c, ctl = Some (List.last l ""%string, c)
                      /\ is_connected (session c) = false)).
Proof.
  induction l as [| cs rest IH]; intros n current w.
  - cbn. split; [discriminate |]. intros _.
    split; [intros j cs' H; destruct j; discriminate |].
    split; [reflexivity | intros H; contradiction].
  - cbn [try_connections].
    pose proof (connect_fresh (reply n cs) tmo w) as [Hok Hconn].
    cbv zeta in Hok, Hconn.
    destruct (connect env true (reply n cs) tmo (session (new_controller w)))
      as [ok w1]. cbn [fst snd] in *.
    destruct ok.
    + split; [| discriminate]. intros _.
      exists 0%nat, cs. eexists.
      split; [reflexivity |].
      split; [rewrite Nat.add_0_r; apply Hok; reflexivity |].
      split; [intros j cs' Hj; lia |].
      split; [reflexivity | exact Hconn].
    + specialize (IH (S n)
                     (Some (cs, mkController w1
                                  (last_calculation (new_controller w))
                                  (calculation_history (new_controller w))))
                     w1).
      destruct (try_connections env reply tmo (S n) rest _ w1)
        as [[ok ctl] w'].
      destruct IH as [IHt IHf]. split.
      * intros Hk. destruct (IHt Hk) as (k & cs0 & c & H1 & H2 & H3 & H4 & H5).
        exists (S k), cs0, c.
        split; [exact H1 |].
        split; [rewrite Nat.add_succ_r; exact H2 |].
        split; [| split; assumption].
        intros j cs' Hj Hnth. destruct j as [| j].
        -- cbn in Hnth. injection Hnth as <-. rewrite Nat.add_0_r.
           intros E. apply Hok in E. discriminate.
        -- cbn in Hnth. rewrite Nat.add_succ_r.
           apply (H3 j cs'); [lia | exact Hnth].
      * intros Hk. destruct (IHf Hk) as (H1 & H2 & H3).
        split; [| split; [discriminate |]].
        -- intros j cs' Hnth. destruct j as [| j].
           ++ cbn in Hnth. injection Hnth as <-. rewrite Nat.add_0_r.
              intros E. apply Hok in E. discriminate.
           ++ cbn in Hnth. rewrite Nat.add_succ_r.
              apply (H1 j cs'). exact Hnth.
        -- intros _. destruct rest as [| cs2 rest'].
           ++ rewrite H2 by reflexivity. eexists. split; [reflexivity |].
              cbn. exact Hconn.
           ++ destruct H3 as (c & Hc & Hd); [discriminate |].
              exists c. split; [exact Hc | exact Hd].
Qed.

(** X26: [connect_mavlink] tries the default connection and then the
    alternatives, in the order of the configuration, and stops at the
    first one whose [connect] sees a heartbeat: it answers [True] exactly
    when some attempt would succeed, the controller it keeps is then the
    connected one of the first such connection string, and no string
    before it succeeded.  When every attempt fails it answers [False] and
    keeps the unconnected controller of the last string tried, not the
    controller it had before.  Without the MAVLink module it answers
    [False] and keeps everything. *)
Theorem connect_mavlink_first_success :
  forall (cfg : MavlinkSettings) (current : option (string * Controller))
         (w : World),
    let '(ok, ctl, w') := connect_mavlink env reply true cfg current w in
    (ok = true <->
     exists k cs, nth_error (connection_list cfg) k = Some cs
                  /\ reply k cs = HeartbeatSeen)
    /\ (ok = true ->
        exists k cs c,
          nth_error (connection_list cfg) k = Some cs
          /\ reply k cs = HeartbeatSeen
          /\ (forall j cs', (j < k)%nat ->
                            nth_error (connection_list cfg) j = Some cs' ->
                            reply j cs' <> HeartbeatSeen)
          /\ ctl = Some (cs, c)
          /\ is_connected (session c) = true)
    /\ (ok = false ->
        exists c, ctl = Some (List.last (connection_list cfg) ""%string, c)
                  /\ is_connected (session c) = false)
    /\ connect_mavlink env reply false cfg current w = (false, current, w).
Proof.
  intros cfg current w. unfold connect_mavlink. cbn [negb].
  set (tmo := match connection_timeout cfg with Some t => t | None => 10 end).
  pose proof (try_connections_spec tmo (connection_list cfg) 0 current w)
    as Hspec.
  destruct (try_connections env reply tmo 0 (connection_list cfg) current w)
    as [[ok ctl] w'].
  destruct Hspec as [Ht Hf].
  split; [| split; [exact Ht | split; [| reflexivity]]].
  - split.
    + intros Hk. destruct (Ht Hk) as (k & cs & c & H1 & H2 & _).
      exists k, cs. split; assumption.
    + intros (k & cs & H1 & H2). destruct ok; [reflexivity |].
      destruct (Hf eq_refl) as (Hnone & _).
      exfalso. apply (Hnone k cs H1). exact H2.
  - intros Hk. destruct (Hf Hk) as (_ & _ & H3).
    apply H3. unfold connection_list. discriminate.
Qed.

Lemma refused_when_down (target_pos : Position) (c : Controller) :
  is_connected (session c) = false ->
  fst (calculate_bomb_release env target_pos c)
  = Refused NotConnected (wall_clock env (clock_reads (session c))).
Proof.
  intros Hdown. unfold calculate_bomb_release. cbn [time_time].
  rewrite check_connection_down by (left; exact Hdown).
  reflexivity.
Qed.

(** X29: [calculate_bombing_solution] returns [None], and leaves the
    service and its controller untouched, exactly when the service has
    no controller or the target fails a check of [Position]: a latitude
    outside [-90, 90], a longitude outside [-180, 180], or an altitude
    below 0.  Such a target never reaches the controller.  Otherwise the
    function returns the controller's answer and stores it, with the
    target, as [last_calculation].  A controller that is not connected,
    as the one a failed [connect_mavlink] leaves, answers with the
    not-connected refusal, not with [None]. *)
Theorem bombing_solution_needs_controller_and_target :
  forall (lat lon alt : R) (s : Service),
    let passes := -90 <= lat <= 90 /\ -180 <= lon <= 180 /\ ~ (alt < 0) in
    (controller s = None \/ ~ passes ->
     calculate_bombing_solution env lat lon alt s = (None, s))
    /\ (forall cs c,
           controller s = Some (cs, c) -> passes ->
           let r := fst (calculate_bomb_release env (mkPosition lat lon alt) c)
           in
           fst (calculate_bombing_solution env lat lon alt s) = Some r
           /\ (exists now,
                  service_last_calculation
                    (snd (calculate_bombing_solution env lat lon alt s))
                  = Some (now, (lat, lon, alt), r))
           /\ (is_connected (session c) = false ->
               r = Refused NotConnected
                     (wall_clock env (clock_reads (session c))))).
Proof.
  intros lat lon alt s passes. subst passes. split.
  - intros H. unfold calculate_bombing_solution.
    destruct (controller s) as [[cs c] |]; [| reflexivity].
    destruct H as [H | H]; [discriminate |].
    destruct (Position_new_cases lat lon alt) as [[Hr E] | [Hr E]].
    + exfalso. apply H. destruct Hr as (H1 & H2 & H3).
      split; [exact H1 |]. split; [exact H2 |]. lra.
    + rewrite E. reflexivity.
  - intros cs c Hc (H1 & H2 & H3). cbv zeta.
    unfold calculate_bombing_solution.
    rewrite Hc, Position_new_ok by (try assumption; lra).
    destruct (calculate_bomb_release env (mkPosition lat lon alt) c)
      as [r c1] eqn:E.
    cbn [time_time fst snd service_last_calculation].
    split; [reflexivity |]. split; [eexists; reflexivity |].
    intros Hdown.
    pose proof (refused_when_down (mkPosition lat lon alt) c Hdown) as Hr.
    rewrite E in Hr. exact Hr.
Qed.

End ServiceFacts.

Section LogFacts.

Import Log.

Context {J A : Type}.
Variable encode : A -> option J.

Lemma last_n_length (n : nat) (l : list J) :
  List.length (if Nat.ltb n (List.length l) then last_n n l else l)
  = Nat.min n (List.length l).
Proof.
  destruct (Nat.ltb n (List.length l)) eqn:E.
  - apply Nat.ltb_lt in E. unfold last_n. rewrite length_skipn. lia.
  - apply Nat.ltb_ge in E. lia.
Qed.

(** X27: [save_calculation_log] leaves a file it cannot read, or cannot
    open for writing, as it is.  When the new entry can be encoded, the
    file then holds the old entries followed by the new one, cut to the
    50 most recent: the list ends with the new entry and has
    [min 50 (n + 1)] entries for [n] old ones, a missing file counting as
    empty.  When the new entry cannot be encoded, the file has been
    truncated and holds no list any more: the old entries are lost, and
    every later call leaves the file in that state. *)
Theorem saved_log_is_bounded :
  forall (writable : bool) (file : LogFile J) (log_entry : A),
    (file = Unreadable \/ writable = false ->
     save_calculation_log J A encode writable file log_entry = file)
    /\ (forall j,
           file <> Unreadable -> writable = true ->
           encode log_entry = Some j ->
           exists written,
             save_calculation_log J A encode writable file log_entry
             = Entries written
             /\ List.length written
                = Nat.min 50 (S (List.length (entries_of J file)))
             /\ (forall d, List.last written d = j)
             /\ exists dropped,
                  (entries_of J file ++ [j])%list
                  = (dropped ++ written)%list)
    /\ (file <> Unreadable -> writable = true ->
        encode log_entry = None ->
        save_calculation_log J A encode writable file log_entry = Unreadable
        /\ forall (w : bool) (later : A),
             save_calculation_log J A encode w
               (save_calculation_log J A encode writable file log_entry)
               later
             = Unreadable).
Proof.
  intros writable file e. split; [| split].
  - intros [-> | ->]; [reflexivity |].
    destruct file; reflexivity.
  - intros j Hf -> Hj.
    assert (E : save_calculation_log J A encode true file e
                = Entries (if Nat.ltb 50
                                (List.length (entries_of J file ++ [j]))
                           then last_n 50 (entries_of J file ++ [j])
                           else (entries_of J file ++ [j])%list)).
    { unfold save_calculation_log. rewrite Hj.
      destruct file; [reflexivity | contradiction | reflexivity]. }
    rewrite E. set (old := entries_of J file).
    assert (Hl : List.length (old ++ [j]) = S (List.length old)).
    { rewrite length_app. cbn. lia. }
    eexists. split; [reflexivity |].
    split; [rewrite last_n_length, Hl; reflexivity |].
    destruct (Nat.ltb 50 (List.length (old ++ [j]))) eqn:E50.
    + apply Nat.ltb_lt in E50. unfold last_n. split.
      * intros d. rewrite Hl, skipn_app.
        replace (S (List.length old) - 50 - List.length old)%nat with 0%nat
          by lia.
        cbn [skipn]. apply last_last.
      * exists (firstn (List.length (old ++ [j]) - 50) (old ++ [j])).
        symmetry. apply firstn_skipn.
    + split; [intros d; apply last_last |]. exists []. reflexivity.
  - intros Hf -> He.
    assert (E : save_calculation_log J A encode true file e = Unreadable).
    { unfold save_calculation_log. rewrite He.
      destruct file; [reflexivity | contradiction | reflexivity]. }
    rewrite E. split; reflexivity.
Qed.

End LogFacts.

Section ServoFacts.

Import Servo.

(** X28: the servo tool sends a command only for a command line of
    exactly one argument that [int] reads as a PWM value between 1300 and
    1900, after the link was opened and the wait for a heartbeat
    returned; the command is then for channel 9 with that value, and it
    is sent whether or not a heartbeat arrived.  Whenever the link was
    opened it is closed before the program ends, and only a failing
    [close] lets an exception out of [main]. *)
Theorem servo_command_is_guarded :
  forall (env : Env) (argv : list string),
    let events := fst (main env argv) in
    (forall channel pwm,
        In (SetServo channel pwm) events ->
        channel = 9%Z /\ (1300 <= pwm <= 1900)%Z
        /\ open_result env = Returned /\ wait_result env = Returned
        /\ exists prog arg, argv = [prog; arg] /\ int_of env arg = Some pwm)
    /\ (forall prog arg pwm,
           argv = [prog; arg] -> int_of env arg = Some pwm ->
           (1300 <= pwm <= 1900)%Z ->
           open_result env = Returned -> wait_result env = Returned ->
           In (SetServo 9 pwm) events)
    /\ (In (Open serial_port baud_rate) events ->
        open_result env = Returned -> In Close events)
    /\ (snd (main env argv) = true -> close_result env <> Returned)
    /\ (List.length argv <> 2%nat -> main env argv = ([PrintUsage], false)).
Proof.
  intros env argv. cbv zeta.
  destruct argv as [| prog [| arg [| x rest]]];
    try (cbn; split; [intros ch p [H | H]; [discriminate | contradiction] |];
         split; [intros ? ? ? H; discriminate |];
         split; [intros [H | H]; [discriminate | contradiction] |];
         split; [discriminate | intros _; reflexivity]; fail).
  unfold main, main_try.
  destruct (int_of env arg) as [pwm |] eqn:Ei.
  2:{ cbn.
      split; [intros ch p H; repeat destruct H as [H | H];
              try discriminate; contradiction |].
      split; [intros ? ? ? [= <- <-] H; congruence |].
      split; [intros H; repeat destruct H as [H | H];
              try discriminate; contradiction |].
      split; [discriminate | intros H; exfalso; apply H; reflexivity]. }
  destruct (Z.leb 1300 pwm && Z.leb pwm 1900) eqn:Er; cbn [negb].
  2:{ cbn.
      split; [intros ch p H; repeat destruct H as [H | H];
              try discriminate; contradiction |].
      split.
      { intros ? ? p [= <- <-] H Hr. exfalso.
        assert (p = pwm) by congruence. subst p.
        assert (Z.leb 1300 pwm && Z.leb pwm 1900 = true).
        { apply andb_true_iff. split; apply Z.leb_le; lia. }
        congruence. }
      split; [intros H; repeat destruct H as [H | H];
              try discriminate; contradiction |].
      split; [discriminate | intros H; exfalso; apply H; reflexivity]. }
  apply andb_true_iff in Er. destruct Er as [Er1 Er2].
  apply Z.leb_le in Er1, Er2.
  destruct (open_result env) eqn:Eo, (wait_result env) eqn:Ew,
           (send_result env) eqn:Es, (close_result env) eqn:Ec;
    cbn;
    (split; [intros ch p H; repeat destruct H as [H | H];
             try discriminate; try contradiction;
             injection H as <- <-;
             (split; [reflexivity |]); (split; [lia |]);
             (split; [reflexivity |]); (split; [reflexivity |]);
             exists prog, arg; (split; [reflexivity | exact Ei]) |]);
    (split; [intros ? ? p [= <- <-] H Hr Ho Hw;
             try discriminate;
             assert (p = pwm) by congruence; subst p; auto 10 |]);
    (split; [intros H Ho; try discriminate; auto 12 |]);
    (split; [intros H; try discriminate; intros Hc; discriminate
            | intros H; exfalso; apply H; reflexivity]).
Qed.

End ServoFacts.

(** * The engine on binary64 *)

(** ** BallisticModel *)

Section BallisticF64.

Import F64.
Local Open Scope float_scope.

Lemma gravity_f64 : (0 <? GRAVITY) = true /\ (GRAVITY =? 0) = false.
Proof. split; reflexivity. Qed.

Lemma fall_time_root_ok (h : float) :
  (h <? 0) = false ->
  q <- div (2 * h) GRAVITY ;; math_sqrt q
  = Py.Ok (PrimFloat.sqrt (2 * h / GRAVITY)).
Proof.
  intros Hh. unfold div. rewrite (proj2 gravity_f64). cbn [Py.bind].
  unfold math_sqrt.
  rewrite div_nonneg; [reflexivity | | exact (proj1 gravity_f64)].
  apply mul_nonneg; [reflexivity | exact Hh].
Qed.





(** Where rounding decides: 44.145 m above the target and 3.6 m out at
    1 m/s, the fall takes 3 s and the cruise 3.6 s; the product of 3 and
    1.2 rounds below 3.6, so the cruise time exceeds it and the fall time
    is kept. *)
Lemma pre_drag_time_at_rounded_threshold :
  (3 * lit_1_2 <? 0x1.ccccccccccccdp+1) = true
  /\ spec_pre_drag_time 0x1.6128f5c28f5c3p+5 0x1.ccccccccccccdp+1 1 = 3
  /\ flight_time_before_check 1 0x1.6128f5c28f5c3p+5 0x1.ccccccccccccdp+1 0
     = Py.Ok (Some 3).
Proof. vm_compute. repeat split; reflexivity. Qed.

End BallisticF64.

(** ** ReleaseSolver *)

Section SolverF64.

Import F64 Engine.
Local Open Scope float_scope.

Variable libm : Libm.

(** The exits of [release_point_try], guard by guard. *)
Ltac solve_cases_f64 a t s :=
  unfold calculate_release_point, release_point_try;
  let Halt := fresh "Halt" in
  let Hfar := fresh "Hfar" in
  let Hgeo := fresh "Hgeo" in
  let Hwind := fresh "Hwind" in
  let Hft := fresh "Hft" in
  let Hrd := fresh "Hrd" in
  let Hgs := fresh "Hgs" in
  let Hrt := fresh "Hrt" in
  destruct (altitude a <? MIN_RELEASE_HEIGHT) eqn:Halt;
    [| destruct (calculate_distance_and_bearing libm a t)
         as [[?d ?b] | ?e] eqn:Hgeo;
       cbn [Py.bind];
       [ destruct (MAX_REASONABLE_DISTANCE <? d) eqn:Hfar;
         [| destruct (calculate_wind_effect libm (airspeed s) (groundspeed s) b)
              as [?ws ?wa] eqn:Hwind;
            destruct (calculate_ballistic_trajectory (groundspeed s)
                        (altitude a - altitude t) d ws) as [?ft |] eqn:Hft;
            [ destruct (d * 2 <? groundspeed s * ft) eqn:Hrd;
              [| unfold div;
                 destruct (groundspeed s =? 0) eqn:Hgs;
                 cbn [Py.bind];
                 [| destruct ((d - groundspeed s * ft) / groundspeed s <? 0)
                      eqn:Hrt ] ]
            | ] ]
       | ] ];
  cbn [Py.try_except].



(** With [x ** 2] as the rounded product and [math.cos(0)] as 1.0, the
    wind estimate of the solver is [F64.calculate_wind_effect]. *)
Lemma wind_effect_rounded_product (a g b : float) :
  rounded_product_pow libm ->
  calculate_wind_effect libm a g b = F64.calculate_wind_effect a g b.
Proof.
  intros [Hpow Hcos].
  unfold calculate_wind_effect, wind_effect_try, F64.calculate_wind_effect,
    F64.wind_effect_try, law_of_cosines.
  rewrite !Hpow, Hcos.
  destruct (pow2 a) as [a2 | e]; cbn [Py.bind]; [| reflexivity].
  destruct (pow2 g) as [g2 | e]; cbn [Py.bind]; reflexivity.
Qed.

(** The two zeros have the same magnitude, and adding 0.0 changes no
    other value: the model in still air at the velocity [v] is the model
    at any velocity and wind of sum [v]. *)
Lemma abs_add_zero (x : float) : PrimFloat.abs (x + 0) = PrimFloat.abs x.
Proof.
  apply Prim2SF_inj.
  rewrite !FloatAxioms.abs_spec, FloatAxioms.add_spec.
  change (Prim2SF 0) with (SpecFloat.S754_zero false).
  destruct (Prim2SF x) as [s | s | | s m e]; try reflexivity.
  destruct s; reflexivity.
Qed.

Lemma ballistic_still_air (iv h d ws : float) :
  calculate_ballistic_trajectory iv h d ws
  = calculate_ballistic_trajectory (iv + ws) h d 0.
Proof.
  unfold calculate_ballistic_trajectory, ballistic_trajectory_try,
    flight_time_before_check, effective_horizontal_velocity.
  now rewrite abs_add_zero.
Qed.



(** X15: the solve ends as [TargetOutOfRange] (error code
    [TARGET_TOO_FAR]) exactly when the aircraft altitude is not below
    50 m, the distance was computed without an exception, and it is above
    50000 m; a distance of exactly 50000 m passes the check, and so does a
    NaN. *)
Theorem target_out_of_range_iff :
  forall (aircraft_pos target_pos : Position) (speed_data : SpeedData),
    let r := calculate_release_point libm aircraft_pos target_pos speed_data in
    let too_far :=
      (altitude aircraft_pos <? MIN_RELEASE_HEIGHT) = false
      /\ exists d b,
           calculate_distance_and_bearing libm aircraft_pos target_pos
           = Py.Ok (d, b)
           /\ (MAX_REASONABLE_DISTANCE <? d) = true in
    (outcome r = Calc.TargetOutOfRange <-> too_far)
    /\ (error_code r = Calc.TARGET_TOO_FAR <-> too_far).
Proof.
  intros a t s r too_far. subst r too_far.
  split; solve_cases_f64 a t s; cbn;
    (split;
     [ intros H; try discriminate H;
       (split; [reflexivity | exists d, b; auto])
     | intros [H1 (d' & b' & H2 & H3)]; try discriminate H1;
       try discriminate H2; try reflexivity;
       injection H2 as <- <-; unfold MAX_REASONABLE_DISTANCE in Hfar;
       rewrite Hfar in H3; discriminate H3 ]).
Qed.

(** X30: a NaN groundspeed passes every guard.  When the aircraft
    altitude is not below 50 m, the distance is computed and is neither
    above 50000 m nor <= 0, and the height above the target is not <= 0,
    a speed sample with a NaN groundspeed gets a result marked successful
    whose release time, release distance and flight time are NaN,
    whatever the airspeed. *)
Theorem nan_groundspeed_is_solved :
  forall (aircraft_pos target_pos : Position) (a g d b : float),
    is_nan g = true ->
    (altitude aircraft_pos <? MIN_RELEASE_HEIGHT) = false ->
    calculate_distance_and_bearing libm aircraft_pos target_pos
    = Py.Ok (d, b) ->
    (MAX_REASONABLE_DISTANCE <? d) = false ->
    (d <=? 0) = false ->
    (altitude aircraft_pos - altitude target_pos <=? 0) = false ->
    let r := calculate_release_point libm aircraft_pos target_pos
               (mkSpeedData a g) in
    success r = true /\ error_code r = Calc.SUCCESS
    /\ release_time r = Some nan /\ release_distance r = Some nan
    /\ flight_time r = Some nan.
Proof.
  intros p t a g d b Hg Halt Hgeo Hfar Hd Hh r. subst r.
  apply is_nan_eq in Hg. subst g.
  assert (Hft : forall ws,
             calculate_ballistic_trajectory nan
               (altitude p - altitude t) d ws = Some nan).
  { intros ws. rewrite ballistic_still_air.
    unfold calculate_ballistic_trajectory, ballistic_trajectory_try,
      flight_time_before_check, effective_horizontal_velocity.
    rewrite Hh, Hd.
    pose proof (fall_time_root_ok _ (leb_zero_false_nonneg _ Hh)) as E.
    destruct (div (2 * (altitude p - altitude t)) GRAVITY) as [q | e];
      [| discriminate E].
    cbn [Py.bind] in E |- *. rewrite E. cbn [Py.bind].
    rewrite !add_nan_l.
    change (PrimFloat.abs nan) with nan.
    change (nan <? lit_1e_10) with false. cbv iota.
    unfold div. change (nan =? 0) with false. cbv iota. cbn [Py.bind].
    rewrite div_nan_r. unfold reconcile, max.
    destruct (nan_compares_false
                (PrimFloat.sqrt (2 * (altitude p - altitude t) / GRAVITY)
                 * lit_1_2) nan (or_intror eq_refl)) as (-> & _).
    destruct (nan_compares_false nan
                (PrimFloat.sqrt (2 * (altitude p - altitude t) / GRAVITY)
                 * lit_0_8) (or_introl eq_refl)) as (-> & _).
    reflexivity. }
  unfold calculate_release_point, release_point_try.
  cbn [altitude airspeed groundspeed].
  rewrite Halt, Hgeo. cbn [Py.bind]. rewrite Hfar.
  destruct (calculate_wind_effect libm a nan b) as [ws wa].
  rewrite Hft. rewrite mul_nan_l.
  destruct (nan_compares_false (d * 2) nan (or_intror eq_refl)) as (-> & _).
  unfold div. change (nan =? 0) with false. cbv iota. cbn [Py.bind].
  rewrite div_nan_r. change (nan <? 0) with false. cbv iota.
  cbn. auto.
Qed.

End SolverF64.

Lemma nan_groundspeed_is_solved_witness :
  F64.SpeedData_new 50 nan = Py.Ok (F64.mkSpeedData 50 nan)
  /\ F64.release_time
       (Engine.calculate_release_point run_libm run_aircraft_f64
          run_target_f64 (F64.mkSpeedData 50 nan)) = Some nan.
Proof.
  split; [vm_compute; reflexivity |].
  destruct (nan_groundspeed_is_solved run_libm run_aircraft_f64
              run_target_f64 50%float nan
              0x1.15fcc0c80cbf4p+10%float 0x1.921fb54442d18p+0%float
              eq_refl eq_refl eq_refl eq_refl eq_refl eq_refl)
    as (_ & _ & H & _).
  exact H.
Defined.

(** ** Runs of the solver *)

Section RunsF64.

Import F64 Engine.
Local Open Scope float_scope.

Lemma run_distance_f64 :
  calculate_distance_and_bearing run_libm run_aircraft_f64 run_target_f64
  = Py.Ok (0x1.15fcc0c80cbf4p+10, 0x1.921fb54442d18p+0).
Proof. vm_compute. reflexivity. Qed.

Lemma run_inputs_constructed :
  Position_new 0 0 0x1.ea8p+8 = Py.Ok run_aircraft_f64
  /\ Position_new 0 0x1.47ae147ae147bp-7 0 = Py.Ok run_target_f64
  /\ SpeedData_new 50 45 = Py.Ok (mkSpeedData 50 45)
  /\ SpeedData_new nan nan = Py.Ok (mkSpeedData nan nan).
Proof. repeat split; vm_compute; reflexivity. Qed.

Lemma run_solved_f64 :
  let r := calculate_release_point run_libm run_aircraft_f64 run_target_f64
             (mkSpeedData 50 45) in
  success r = true
  /\ release_time r = Some 0x1.b6b82fbbdffdep+3
  /\ release_distance r = Some 495 /\ flight_time r = Some 11
  /\ wind_speed r = Some 5.
Proof. vm_compute. repeat split; reflexivity. Qed.



End RunsF64.

(** ** Constructors, validation and the quick calculation *)

Section ConstructorsF64.

Import F64 Engine Quick.
Local Open Scope float_scope.

(** What the two kinds of guard let through. *)
Lemma leb_zero_false_iff (x : float) :
  (x <=? 0) = false <-> (0 <? x) = true \/ is_nan x = true.
Proof.
  split.
  - intros H. destruct (is_nan x) eqn:Hn; [now right | left].
    apply leb_false_ltb; [exact H | exact Hn | reflexivity].
  - intros [H | H].
    + now apply ltb_leb_false.
    + now destruct (nan_compares_false x 0 (or_introl H)) as (_ & E & _).
Qed.

Lemma Position_new_cases_f64 (lat lon alt : float) :
  let in_range :=
    (-90 <=? lat) = true /\ (lat <=? 90) = true
    /\ (-180 <=? lon) = true /\ (lon <=? 180) = true
    /\ (alt <? 0) = false in
  (in_range /\ Position_new lat lon alt = Py.Ok (mkPosition lat lon alt))
  \/ (~ in_range /\ Position_new lat lon alt = Py.Raise Py.ValueError).
Proof.
  unfold Position_new, Position_post_init. cbn [latitude longitude altitude].
  destruct (-90 <=? lat); destruct (lat <=? 90); destruct (-180 <=? lon);
    destruct (lon <=? 180); destruct (alt <? 0); cbn;
    solve [ left; repeat split; reflexivity
          | right; split; [intros (? & ? & ? & ? & ?); discriminate
                          | reflexivity] ].
Qed.

Lemma SpeedData_new_cases_f64 (a g : float) :
  let accepted := (a <=? 0) = false /\ (g <=? 0) = false in
  (accepted /\ SpeedData_new a g = Py.Ok (mkSpeedData a g))
  \/ (~ accepted /\ SpeedData_new a g = Py.Raise Py.ValueError).
Proof.
  unfold SpeedData_new, SpeedData_post_init, speed_ratio, div, max.
  cbn [airspeed groundspeed].
  destruct (a <=? 0) eqn:Ha; cbn;
    [right; split; [intros [? ?]; discriminate | reflexivity] |].
  destruct (g <=? 0) eqn:Hg; cbn;
    [right; split; [intros [? ?]; discriminate | reflexivity] |].
  left. split; [now split |].
  assert (E : ((if a <? g then g else a) =? 0) = false).
  { destruct (a <? g); now apply leb_zero_false_nonzero. }
  rewrite E. reflexivity.
Qed.

(** X1: [Position(lat, lon, alt)] is constructed exactly when the
    latitude is in [-90, 90], the longitude in [-180, 180] and the
    altitude is not below 0; every other triple raises [ValueError].  A
    constructed position has a latitude and a longitude that are numbers,
    but its altitude can be NaN or infinite. *)
Theorem Position_new_accepts :
  forall lat lon alt : float,
    let in_range :=
      (-90 <=? lat) = true /\ (lat <=? 90) = true
      /\ (-180 <=? lon) = true /\ (lon <=? 180) = true
      /\ (alt <? 0) = false in
    (Position_new lat lon alt = Py.Ok (mkPosition lat lon alt) <-> in_range)
    /\ (Position_new lat lon alt = Py.Raise Py.ValueError <-> ~ in_range)
    /\ (in_range -> is_nan lat = false /\ is_nan lon = false)
    /\ (is_nan alt = true -> (alt <? 0) = false)
    /\ Position_new 0 0 nan = Py.Ok (mkPosition 0 0 nan)
    /\ Position_new 0 0 infinity = Py.Ok (mkPosition 0 0 infinity).
Proof.
  intros lat lon alt in_range.
  destruct (Position_new_cases_f64 lat lon alt) as [[H E] | [H E]];
    fold in_range in H; rewrite E.
  - split; [tauto |]. split; [split; [discriminate | tauto] |].
    split.
    { intros (H1 & _ & H3 & _). split.
      - exact (proj2 (leb_not_nan _ _ H1)).
      - exact (proj2 (leb_not_nan _ _ H3)). }
    split.
    { intros Hn. now destruct (nan_compares_false alt 0 (or_introl Hn)). }
    split; reflexivity.
  - split; [split; [discriminate | tauto] |]. split; [tauto |].
    split; [tauto |]. split.
    { intros Hn. now destruct (nan_compares_false alt 0 (or_introl Hn)). }
    split; reflexivity.
Qed.

(** X2: [SpeedData(airspeed, groundspeed)] is constructed exactly when
    each speed is above 0 or NaN, however far apart the two are: the ratio
    of the plausibility warning never divides by zero, so the only
    exception of the constructor is the [ValueError] of a speed that is
    <= 0. *)
Theorem SpeedData_new_accepts :
  forall a g : float,
    let accepted :=
      ((0 <? a) = true \/ is_nan a = true)
      /\ ((0 <? g) = true \/ is_nan g = true) in
    (SpeedData_new a g = Py.Ok (mkSpeedData a g) <-> accepted)
    /\ (SpeedData_new a g = Py.Raise Py.ValueError <-> ~ accepted).
Proof.
  intros a g accepted. subst accepted.
  rewrite <- !leb_zero_false_iff.
  destruct (SpeedData_new_cases_f64 a g) as [[H E] | [H E]]; rewrite E.
  - split; [tauto |]. split; [discriminate | tauto].
  - split; [| tauto]. split; [discriminate | tauto].
Qed.

(** X3: [validate_mavlink_data] accepts exactly two present speeds that
    are neither <= 0 nor above 200; whatever it accepts the [SpeedData]
    constructor accepts too; and two NaN speeds are accepted. *)
Theorem validate_mavlink_data_accepts :
  forall a g : option float,
    (fst (validate_mavlink_data a g) = true
     <-> exists a' g', a = Some a' /\ g = Some g'
                       /\ (a' <=? 0) = false /\ (g' <=? 0) = false
                       /\ (200 <? a') = false /\ (200 <? g') = false)
    /\ (forall a' g',
           validate_mavlink_data (Some a') (Some g') = (true, NoIssue) ->
           SpeedData_new a' g' = Py.Ok (mkSpeedData a' g'))
    /\ (forall a' g',
           is_nan a' = true -> is_nan g' = true ->
           validate_mavlink_data (Some a') (Some g') = (true, NoIssue)).
Proof.
  intros a g. split; [| split].
  - unfold validate_mavlink_data.
    destruct a as [a' |], g as [g' |]; cbn;
      try (split; [discriminate | intros (? & ? & ? & ? & _); discriminate]).
    destruct (a' <=? 0) eqn:H1; cbn.
    { split; [discriminate |].
      intros (x & y & Hx & Hy & H & _). injection Hx as <-. congruence. }
    destruct (g' <=? 0) eqn:H2; cbn.
    { split; [discriminate |].
      intros (x & y & Hx & Hy & _ & H & _). injection Hy as <-. congruence. }
    destruct (200 <? a') eqn:H3; cbn.
    { split; [discriminate |].
      intros (x & y & Hx & Hy & _ & _ & H & _). injection Hx as <-.
      congruence. }
    destruct (200 <? g') eqn:H4; cbn.
    { split; [discriminate |].
      intros (x & y & Hx & Hy & _ & _ & _ & H). injection Hy as <-.
      congruence. }
    split; [| reflexivity]. intros _. exists a', g'. auto 7.
  - intros a' g'. unfold validate_mavlink_data.
    destruct (a' <=? 0) eqn:H1; [discriminate |].
    destruct (g' <=? 0) eqn:H2; [discriminate |]. intros _.
    destruct (SpeedData_new_cases_f64 a' g') as [[_ E] | [H _]];
      [exact E | exfalso; apply H; now split].
  - intros a' g' Ha Hg. unfold validate_mavlink_data.
    destruct (nan_compares_false a' 0 (or_introl Ha)) as (_ & -> & _).
    destruct (nan_compares_false g' 0 (or_introl Hg)) as (_ & -> & _).
    destruct (nan_compares_false 200 a' (or_intror Ha)) as (-> & _).
    destruct (nan_compares_false 200 g' (or_intror Hg)) as (-> & _).
    reflexivity.
Qed.

Lemma calculator_init_ok : BombReleaseCalculator_init = Py.Ok default_bomb.
Proof. vm_compute. reflexivity. Qed.

(** X16: [BombCharacteristics] is constructed exactly when each of the
    mass, the drag coefficient and the cross-sectional area is above 0 or
    NaN; the defaults of the class pass, so building a
    [BombReleaseCalculator] never raises. *)
Theorem BombCharacteristics_accepts :
  forall m c a : float,
    (BombCharacteristics_post_init (mkBombCharacteristics m c a) = Py.Ok tt
     <-> ((0 <? m) = true \/ is_nan m = true)
         /\ ((0 <? c) = true \/ is_nan c = true)
         /\ ((0 <? a) = true \/ is_nan a = true))
    /\ BombReleaseCalculator_init = Py.Ok default_bomb.
Proof.
  intros m c a. split; [| apply calculator_init_ok].
  rewrite <- !leb_zero_false_iff.
  unfold BombCharacteristics_post_init.
  cbn [mass drag_coefficient cross_sectional_area].
  destruct (m <=? 0); destruct (c <=? 0); destruct (a <=? 0);
    split; try discriminate; try tauto;
    intros (? & ? & ?); discriminate.
Qed.

(** X17: [quick_bomb_calculation] never raises.  When its eight numbers
    pass the checks of the three constructors it returns the dictionary
    of [calculate_release_point] on the constructed values; otherwise it
    returns its own failure dictionary for the [ValueError], and the
    solver is not run.  The checks are those of the code, so a NaN
    altitude or speed passes them. *)
Theorem quick_bomb_calculation_spec :
  forall (libm : Libm) (lat1 lon1 alt1 lat2 lon2 alt2 a g : float),
    let position_ok lat lon alt :=
      (-90 <=? lat) = true /\ (lat <=? 90) = true
      /\ (-180 <=? lon) = true /\ (lon <=? 180) = true
      /\ (alt <? 0) = false in
    let accepted :=
      position_ok lat1 lon1 alt1 /\ position_ok lat2 lon2 alt2
      /\ (a <=? 0) = false /\ (g <=? 0) = false in
    (accepted ->
     quick_bomb_calculation libm lat1 lon1 alt1 lat2 lon2 alt2 a g
     = FromSolver (calculate_release_point libm (mkPosition lat1 lon1 alt1)
                     (mkPosition lat2 lon2 alt2) (mkSpeedData a g)))
    /\ (~ accepted ->
        quick_bomb_calculation libm lat1 lon1 alt1 lat2 lon2 alt2 a g
        = ExceptionResult Py.ValueError)
    /\ (quick_success
          (quick_bomb_calculation libm lat1 lon1 alt1 lat2 lon2 alt2 a g)
        = true -> accepted).
Proof.
  intros libm lat1 lon1 alt1 lat2 lon2 alt2 a g position_ok accepted.
  subst accepted position_ok.
  unfold quick_bomb_calculation, quick_try.
  rewrite calculator_init_ok. cbn [Py.bind].
  destruct (Position_new_cases_f64 lat1 lon1 alt1) as [[R1 E1] | [R1 E1]];
    rewrite E1; cbn [Py.bind];
    [| split; [tauto | split; [reflexivity | discriminate]]].
  destruct (Position_new_cases_f64 lat2 lon2 alt2) as [[R2 E2] | [R2 E2]];
    rewrite E2; cbn [Py.bind];
    [| split; [tauto | split; [reflexivity | discriminate]]].
  destruct (SpeedData_new_cases_f64 a g) as [[R3 E3] | [R3 E3]];
    rewrite E3; cbn [Py.bind];
    [| split; [tauto | split; [reflexivity | discriminate]]].
  split; [reflexivity |]. split; [tauto |]. tauto.
Qed.

(** X7: the ballistic model has no solution for a height or a distance
    that is <= 0 and for an effective velocity of magnitude below 1e-10,
    and it never raises; a returned time is 1.1 times a flight time that
    is neither <= 0 nor above 60, for a height and a distance that are
    not <= 0.  A NaN passes each of these checks. *)
Theorem ballistic_no_solution :
  forall initial_velocity height distance wind_speed : float,
    ((height <=? 0) = true ->
     calculate_ballistic_trajectory initial_velocity height distance
       wind_speed = None)
    /\ ((distance <=? 0) = true ->
        calculate_ballistic_trajectory initial_velocity height distance
          wind_speed = None)
    /\ ((PrimFloat.abs (initial_velocity + wind_speed) <? lit_1e_10) = true ->
        calculate_ballistic_trajectory initial_velocity height distance
          wind_speed = None)
    /\ (forall t,
          calculate_ballistic_trajectory initial_velocity height distance
            wind_speed = Some t ->
          exists ft,
            t = ft * lit_1_1 /\ (ft <=? 0) = false /\ (60 <? ft) = false
            /\ (height <=? 0) = false /\ (distance <=? 0) = false
            /\ (PrimFloat.abs (initial_velocity + wind_speed) <? lit_1e_10)
               = false).
Proof.
  intros iv h d w.
  unfold calculate_ballistic_trajectory, ballistic_trajectory_try,
    flight_time_before_check, effective_horizontal_velocity.
  destruct (h <=? 0) eqn:Hh; cbn [Py.try_except];
    [repeat split; try reflexivity; discriminate |].
  destruct (d <=? 0) eqn:Hd; cbn [Py.try_except];
    [repeat split; try reflexivity; discriminate |].
  destruct (div (2 * h) GRAVITY) as [q | e]; cbn [Py.bind Py.try_except];
    [| repeat split; try reflexivity; discriminate].
  destruct (math_sqrt q) as [vt | e]; cbn [Py.bind Py.try_except];
    [| repeat split; try reflexivity; discriminate].
  destruct (PrimFloat.abs (iv + w) <? lit_1e_10) eqn:Hv;
    cbn [Py.bind Py.try_except];
    [repeat split; try reflexivity; discriminate |].
  destruct (div d (PrimFloat.abs (iv + w))) as [ht | e];
    cbn [Py.bind Py.try_except];
    [| repeat split; try reflexivity; discriminate].
  unfold unreasonable.
  destruct (reconcile ht vt <=? 0) eqn:E1; cbn [orb Py.try_except];
    [repeat split; try reflexivity; discriminate |].
  destruct (60 <? reconcile ht vt) eqn:E2; cbn [Py.try_except];
    [repeat split; try reflexivity; discriminate |].
  repeat split; try discriminate.
  intros t H. injection H as <-. exists (reconcile ht vt). auto 7.
Qed.

End ConstructorsF64.
